(** * Land inventory configuration engine

    A shallow embedding of the PL/pgSQL functions, triggers and table
    definitions of [schema.sql] that implement the land inventory: blocks,
    plots, the plot status history, the saved configurations, and the
    statistics and numbering helpers.

    Conventions of the embedding.
    - A table is the list of its rows in insertion order. Where the order
      of a scan shows in a result and SQL leaves it open, as for an aggregate
      without [ORDER BY], the order is a parameter ([scan_order]).
    - A nullable column is an [option]; a [NOT NULL] column is a plain value
      and the insert that receives [None] for it raises.
    - [uuid] and [timestamptz] are numbers; [uuid_generate_v4()] draws from a
      supply kept in the database state, [NOW()] is a parameter of the call.
    - A statement that stores a text in a [VARCHAR(n)] column first brings
      it to that type ([varchar]); the functions do so before they hand the
      row to the insert.
    - A PL/pgSQL function runs in a monad that threads the database, collects
      the [RAISE NOTICE] messages and stops at the first error, keeping the
      state reached at that point; [execute] is the statement boundary that
      discards such a partial state. *)

From Stdlib Require Import List String Ascii Bool Arith NArith ZArith QArith Lia.
From Stdlib Require Import DecimalString DecimalN DecimalPos.
From Stdlib Require Import Sorted Permutation.
Import ListNotations.

Local Close Scope Q_scope.
Local Open Scope list_scope.
Local Open Scope string_scope.

(** ** PostgreSQL values and built-in functions *)

Module Pg.

Definition uuid := N.
Definition timestamptz := N.
Bind Scope N_scope with uuid timestamptz.

(** Error conditions, named as in the PostgreSQL error-code table. *)
Inductive sqlerror : Type :=
| raise_exception (message : string)
| not_null_violation (column : string)
| unique_violation (index : string)
| check_violation (constraint : string)
| foreign_key_violation (constraint : string)
| invalid_text_representation (value : string)
| string_data_right_truncation (message : string)
| numeric_value_out_of_range (message : string)
| invalid_parameter_value (message : string)
| undefined_table (relation : string)
| undefined_column (column : string)
| undefined_function (message : string).

(** [SQLERRM] of an error, as far as the schema prints it. *)
Definition sqlerrm (e : sqlerror) : string :=
  match e with
  | raise_exception m => m
  | not_null_violation c => "null value in column " ++ c
  | unique_violation i => "duplicate key value violates unique constraint " ++ i
  | check_violation c => "new row violates check constraint " ++ c
  | foreign_key_violation c => "violates foreign key constraint " ++ c
  | invalid_text_representation v => "invalid input syntax: " ++ v
  | string_data_right_truncation m => m
  | numeric_value_out_of_range m => m
  | invalid_parameter_value m => m
  | undefined_table r => "relation " ++ r ++ " does not exist"
  | undefined_column c => "column " ++ c ++ " does not exist"
  | undefined_function m => m
  end.

(** The value of an expression that may raise. *)
Inductive result (A : Type) : Type :=
| Ok (a : A)
| Err (e : sqlerror).
Arguments Ok {A} a.
Arguments Err {A} e.

Definition result_bind {A B} (r : result A) (k : A -> result B) : result B :=
  match r with
  | Ok a => k a
  | Err e => Err e
  end.

Fixpoint result_map {A B} (f : A -> result B) (l : list A) : result (list B) :=
  match l with
  | [] => Ok []
  | x :: l' =>
      result_bind (f x) (fun y =>
      result_bind (result_map f l') (fun ys => Ok (y :: ys)))
  end.

(** [COALESCE(x, d)]. *)
Definition coalesce {A} (x : option A) (d : A) : A :=
  match x with
  | Some a => a
  | None => d
  end.

(** [a = b] used as a condition: true only when both sides are non-null and
    equal. *)
Definition sql_eq {A} (eqb : A -> A -> bool) (a b : option A) : bool :=
  match a, b with
  | Some x, Some y => eqb x y
  | _, _ => false
  end.

(** [a IS DISTINCT FROM b]. *)
Definition is_distinct_from {A} (eqb : A -> A -> bool) (a b : option A) : bool :=
  match a, b with
  | Some x, Some y => negb (eqb x y)
  | None, None => false
  | _, _ => true
  end.

Definition is_not_null {A} (a : option A) : bool :=
  match a with
  | Some _ => true
  | None => false
  end.

(** *** Text *)

Definition lower_char (c : ascii) : ascii :=
  let n := N_of_ascii c in
  if ((65 <=? n) && (n <=? 90))%N then ascii_of_N (n + 32) else c.

(** [LOWER(s)] on ASCII text. *)
Fixpoint lower (s : string) : string :=
  match s with
  | EmptyString => EmptyString
  | String c s' => String (lower_char c) (lower s')
  end.

Fixpoint string_take (n : nat) (s : string) : string :=
  match n, s with
  | S n', String c s' => String c (string_take n' s')
  | _, _ => EmptyString
  end.

Fixpoint string_drop (n : nat) (s : string) : string :=
  match n, s with
  | S n', String _ s' => string_drop n' s'
  | _, _ => s
  end.

(** Every character of [s] is a space. *)
Fixpoint all_blank (s : string) : bool :=
  match s with
  | EmptyString => true
  | String c s' => Ascii.eqb c " " && all_blank s'
  end.

(** The assignment of a text to a column of type [VARCHAR(n)]. A text of
    at most [n] characters is stored as it is. Of a longer one the excess
    is cut when it consists of spaces, and the assignment raises when it
    does not. *)
Definition varchar (n : nat) (s : string) : result string :=
  if (String.length s <=? n)%nat then Ok s
  else if all_blank (string_drop n s) then Ok (string_take n s)
  else Err (string_data_right_truncation
              ("value too long for type character varying("
               ++ NilZero.string_of_uint (Nat.to_uint n) ++ ")")).

(** The same assignment of a nullable text; null stays null. *)
Definition assign_varchar (n : nat) (s : option string) : result (option string) :=
  match s with
  | Some v => result_bind (varchar n v) (fun stored => Ok (Some stored))
  | None => Ok None
  end.

Definition quote_char : ascii := ascii_of_N 34.

(** [s] between double quotes, as error messages show a value. *)
Definition quoted (s : string) : string :=
  String quote_char (s ++ String quote_char EmptyString).

(** [SUBSTRING(s FROM start)], positions counted from 1. *)
Definition substring_from (s : string) (start : nat) : string :=
  string_drop (start - 1) s.

(** The first [n] characters of [fill] repeated for ever; [cur] is what is
    left of the copy being read. *)
Fixpoint fill_cycle (n : nat) (cur fill : string) : string :=
  match n with
  | O => EmptyString
  | S n' =>
      match cur with
      | String c r => String c (fill_cycle n' r fill)
      | EmptyString =>
          match fill with
          | String c r => String c (fill_cycle n' r fill)
          | EmptyString => EmptyString
          end
      end
  end.

(** [LPAD(s, len, fill)]: [s] extended on the left with [fill] up to [len]
    characters; a string that is already longer than [len] is cut to its
    first [len] characters. *)
Definition lpad (s : string) (len : nat) (fill : string) : string :=
  if (len <? String.length s)%nat then string_take len s
  else fill_cycle (len - String.length s) fill fill ++ s.

Definition is_digit (c : ascii) : bool :=
  let n := N_of_ascii c in ((48 <=? n) && (n <=? 57))%N.

Fixpoint all_digits (s : string) : bool :=
  match s with
  | EmptyString => true
  | String c s' => is_digit c && all_digits s'
  end.

(** A prefix that the regular-expression syntax reads character for
    character: letters and digits only. *)
Definition is_alnum (c : ascii) : bool :=
  let n := N_of_ascii c in
  (((48 <=? n) && (n <=? 57)) || ((65 <=? n) && (n <=? 90))
   || ((97 <=? n) && (n <=? 122)))%N.

Fixpoint literal_pattern (s : string) : bool :=
  match s with
  | EmptyString => true
  | String c s' => is_alnum c && literal_pattern s'
  end.

(** [s ~ ('^' || prefix || '\d+$')] for a prefix that is a literal pattern:
    [s] is [prefix] followed by one or more decimal digits. The function
    splices the prefix into the pattern as it is, so a prefix with a
    character that regular expressions give a meaning is read as a
    pattern; no such prefix is covered here, and what is proved of the
    numbering is proved for prefixes with [literal_pattern]. *)
Definition matches_prefix_digits (prefix s : string) : bool :=
  String.prefix prefix s
  && negb (String.length (string_drop (String.length prefix) s) =? 0)%nat
  && all_digits (string_drop (String.length prefix) s).

(** *** INTEGER *)

Definition int4_max : Z := 2147483647.
Definition int4_min : Z := -2147483648.

Definition in_int4 (z : Z) : bool := ((int4_min <=? z) && (z <=? int4_max))%Z.

(** The value of a string of decimal digits. *)
Definition digits_value (s : string) : option N :=
  match NilZero.uint_of_string s with
  | Some d => Some (N.of_uint d)
  | None => None
  end.

(** [s::INTEGER] for an unsigned digit string: its value, or an error when
    [s] is not such a string or the value does not fit 32 bits. *)
Definition int4_in (s : string) : result Z :=
  match digits_value s with
  | Some n =>
      if in_int4 (Z.of_N n) then Ok (Z.of_N n)
      else Err (numeric_value_out_of_range
                  ("value " ++ quoted s ++ " is out of range for type integer"))
  | None => Err (invalid_text_representation s)
  end.

(** [z::TEXT] for an integer [z]: its decimal numeral. *)
Definition integer_out (z : Z) : string := NilZero.string_of_int (Z.to_int z).

(** [a + b] on INTEGER. *)
Definition int4_add (a b : Z) : result Z :=
  if in_int4 (a + b) then Ok (a + b)%Z
  else Err (numeric_value_out_of_range "integer out of range").

(** [MAX] over the non-null inputs; null on no input. *)
Fixpoint max_int (l : list Z) : option Z :=
  match l with
  | [] => None
  | x :: l' =>
      match max_int l' with
      | Some m => Some (Z.max x m)
      | None => Some x
      end
  end.

(** *** NUMERIC *)

(** A decimal number: [unscaled] times ten to the power minus [scale].
    The scale is the number of digits PostgreSQL shows after the point. *)
Record numeric : Type := { unscaled : Z; scale : nat }.

Definition numeric_of_Z (z : Z) : numeric := {| unscaled := z; scale := 0 |}.

Definition numeric_to_Q (x : numeric) : Q :=
  Qmake (unscaled x) (Z.to_pos (10 ^ Z.of_nat (scale x))).

(** [unscaled x] brought to a larger scale [s]. *)
Definition rescale (s : nat) (x : numeric) : Z :=
  (unscaled x * 10 ^ Z.of_nat (s - scale x))%Z.

Definition numeric_add (a b : numeric) : numeric :=
  let s := Nat.max (scale a) (scale b) in
  {| unscaled := rescale s a + rescale s b; scale := s |}.

Definition numeric_leb (a b : numeric) : bool :=
  let s := Nat.max (scale a) (scale b) in
  (rescale s a <=? rescale s b)%Z.

(** [x > 0]. *)
Definition numeric_positive (x : numeric) : bool := (0 <? unscaled x)%Z.

Fixpoint zeros (n : nat) : string :=
  match n with
  | O => EmptyString
  | S n' => String "0" (zeros n')
  end.

(** The output function of NUMERIC: sign, integer digits and, for a
    positive scale, a point and exactly [scale] digits. *)
Definition numeric_out (x : numeric) : string :=
  let digits := NilZero.string_of_uint (N.to_uint (Z.abs_N (unscaled x))) in
  let padded := zeros (S (scale x) - String.length digits) ++ digits in
  let int_len := (String.length padded - scale x)%nat in
  (if (unscaled x <? 0)%Z then "-" else EmptyString)
  ++ string_take int_len padded
  ++ (if (scale x =? 0)%nat then EmptyString
      else String "." (string_drop int_len padded)).

(** The text before the first point, and the text after it if there is
    one. *)
Fixpoint split_at_point (s : string) : string * option string :=
  match s with
  | EmptyString => (EmptyString, None)
  | String c s' =>
      if Ascii.eqb c "." then (EmptyString, Some s')
      else let (a, b) := split_at_point s' in (String c a, b)
  end.

Definition unsigned_numeric_in (s : string) : option (N * nat) :=
  let (int_part, frac) := split_at_point s in
  let frac_part := coalesce frac EmptyString in
  if (String.length int_part =? 0)%nat then None
  else
    match digits_value (int_part ++ frac_part) with
    | Some n => Some (n, String.length frac_part)
    | None => None
    end.

(** [s::NUMERIC] for plain decimal notation: an optional sign, digits and
    optionally a point followed by digits. Exponents, surrounding blanks
    and the special values are outside the model: the cast raises on
    them. *)
Definition numeric_in (s : string) : result numeric :=
  let (negative, body) :=
    match s with
    | String c r =>
        if Ascii.eqb c "-" then (true, r)
        else if Ascii.eqb c "+" then (false, r)
        else (false, s)
    | EmptyString => (false, s)
    end in
  match unsigned_numeric_in body with
  | Some (n, sc) =>
      Ok {| unscaled := if negative then (- Z.of_N n)%Z else Z.of_N n;
            scale := sc |}
  | None => Err (invalid_text_representation s)
  end.

(** Aggregates over the non-null inputs; null on no input. *)
Fixpoint sum_numeric (l : list numeric) : option numeric :=
  match l with
  | [] => None
  | x :: l' =>
      match sum_numeric l' with
      | Some t => Some (numeric_add x t)
      | None => Some x
      end
  end.

Fixpoint min_numeric (l : list numeric) : option numeric :=
  match l with
  | [] => None
  | x :: l' =>
      match min_numeric l' with
      | Some m => Some (if numeric_leb x m then x else m)
      | None => Some x
      end
  end.

Fixpoint max_numeric (l : list numeric) : option numeric :=
  match l with
  | [] => None
  | x :: l' =>
      match max_numeric l' with
      | Some m => Some (if numeric_leb m x then x else m)
      | None => Some x
      end
  end.

(** [AVG]: the exact quotient of the sum by the count. PostgreSQL rounds
    this quotient to a display scale of its choosing; the embedding keeps
    the rational. *)
Definition avg_numeric (l : list numeric) : option Q :=
  match sum_numeric l with
  | Some t => Some (Qred (numeric_to_Q t / inject_Z (Z.of_nat (List.length l)))%Q)
  | None => None
  end.

(** *** JSONB *)

(** A jsonb value in the form PostgreSQL stores it: the keys of an object
    are unique. *)
#[warnings="-register-all"]
Inductive jsonb : Type :=
| JNull
| JBool (b : bool)
| JNum (n : numeric)
| JStr (s : string)
| JArr (items : list jsonb)
| JObj (fields : list (string * jsonb)).

Definition backslash_char : ascii := ascii_of_N 92.

Definition hex_digit (n : N) : ascii :=
  if (n <? 10)%N then ascii_of_N (48 + n) else ascii_of_N (87 + n).

Definition escape_json_char (c : ascii) : string :=
  let n := N_of_ascii c in
  if (n =? 34)%N then String backslash_char (String quote_char EmptyString)
  else if (n =? 92)%N then String backslash_char (String backslash_char EmptyString)
  else if (n =? 8)%N then String backslash_char "b"
  else if (n =? 12)%N then String backslash_char "f"
  else if (n =? 10)%N then String backslash_char "n"
  else if (n =? 13)%N then String backslash_char "r"
  else if (n =? 9)%N then String backslash_char "t"
  else if (n <? 32)%N then
    String backslash_char
      ("u00" ++ String (hex_digit (n / 16)) (String (hex_digit (n mod 16)) EmptyString))
  else String c EmptyString.

Fixpoint escape_json_body (s : string) : string :=
  match s with
  | EmptyString => EmptyString
  | String c s' => escape_json_char c ++ escape_json_body s'
  end.

Definition escape_json (s : string) : string :=
  String quote_char (escape_json_body s ++ String quote_char EmptyString).

(** The text form of a jsonb value. *)
Fixpoint jsonb_out (j : jsonb) : string :=
  match j with
  | JNull => "null"
  | JBool true => "true"
  | JBool false => "false"
  | JNum n => numeric_out n
  | JStr s => escape_json s
  | JArr items =>
      "[" ++
      (fix elements (l : list jsonb) : string :=
         match l with
         | [] => EmptyString
         | x :: r =>
             jsonb_out x ++
             match r with [] => EmptyString | _ :: _ => ", " ++ elements r end
         end) items
      ++ "]"
  | JObj fields =>
      "{" ++
      (fix members (l : list (string * jsonb)) : string :=
         match l with
         | [] => EmptyString
         | (k, v) :: r =>
             escape_json k ++ ": " ++ jsonb_out v ++
             match r with [] => EmptyString | _ :: _ => ", " ++ members r end
         end) fields
      ++ "}"
  end.

Fixpoint assoc (key : string) (fields : list (string * jsonb)) : option jsonb :=
  match fields with
  | [] => None
  | (k, v) :: r => if String.eqb k key then Some v else assoc key r
  end.

(** [j -> 'key']: the member of an object; null for a missing key and for
    any value that is not an object. *)
Definition jsonb_get (j : option jsonb) (key : string) : option jsonb :=
  match j with
  | Some (JObj fields) => assoc key fields
  | _ => None
  end.

(** The text of a jsonb value as the [->>] operator gives it: a string
    without its quotes, a JSON null as SQL null. *)
Definition jsonb_text (j : jsonb) : option string :=
  match j with
  | JNull => None
  | JStr s => Some s
  | _ => Some (jsonb_out j)
  end.

(** [j ->> 'key']. *)
Definition jsonb_get_text (j : option jsonb) (key : string) : option string :=
  match jsonb_get j key with
  | Some v => jsonb_text v
  | None => None
  end.

(** [jsonb_array_elements(j)]: the rows of an array; no row on a null
    argument (the function is strict); an error on any other value. *)
Definition jsonb_array_elements (j : option jsonb) : result (list jsonb) :=
  match j with
  | None => Ok []
  | Some (JArr items) => Ok items
  | Some (JObj _) => Err (invalid_parameter_value "cannot extract elements from an object")
  | Some _ => Err (invalid_parameter_value "cannot extract elements from a scalar")
  end.

(** [jsonb_agg] over the rows of a group; null on no row. *)
Definition jsonb_agg (rows : list jsonb) : option jsonb :=
  match rows with
  | [] => None
  | _ :: _ => Some (JArr rows)
  end.

(** [to_jsonb] of a nullable text value. *)
Definition jsonb_of_text (s : option string) : jsonb :=
  match s with
  | Some t => JStr t
  | None => JNull
  end.

(** The text form of a uuid; the embedding prints the number. *)
Definition uuid_out (u : uuid) : string := NilZero.string_of_uint (N.to_uint u).

End Pg.

Import Pg.

(** ** Tables *)

Module LandBlocks.
(** A row of [land_blocks]. *)
Record row : Type := {
  id : uuid;
  property_id : option uuid;
  name : string;
  description : option string;
  created_at : timestamptz;
  updated_at : timestamptz
}.
End LandBlocks.

Module LandPlots.
(** A row of [land_plots]. *)
Record row : Type := {
  id : uuid;
  block_id : option uuid;
  plot_number : string;
  area : numeric;
  price : string;
  status : option string;
  description : option string;
  created_at : timestamptz;
  updated_at : timestamptz
}.

Definition set_status (r : row) (s : option string) (now : timestamptz) : row :=
  {| id := id r; block_id := block_id r; plot_number := plot_number r;
     area := area r; price := price r; status := s;
     description := description r; created_at := created_at r;
     updated_at := now |}.
End LandPlots.

Module Configurations.
(** A row of [property_land_configurations]. *)
Record row : Type := {
  id : uuid;
  property_id : option uuid;
  configuration_name : string;
  blocks_data : jsonb;
  is_active : option bool;
  created_at : timestamptz;
  updated_at : timestamptz
}.

Definition active (r : row) : bool := sql_eq Bool.eqb (is_active r) (Some true).

Definition deactivate (r : row) (now : timestamptz) : row :=
  {| id := id r; property_id := property_id r;
     configuration_name := configuration_name r;
     blocks_data := blocks_data r; is_active := Some false;
     created_at := created_at r; updated_at := now |}.
End Configurations.

Module StatusHistory.
(** A row of [land_plot_status_history]: the columns of the table as first
    created ([previous_status], [changed_by] as a user reference) and the
    [old_status] column that the structure fix adds to it. *)
Record row : Type := {
  id : uuid;
  plot_id : option uuid;
  previous_status : option string;
  new_status : string;
  changed_by : option uuid;
  change_reason : option string;
  changed_at : option timestamptz;
  old_status : option string
}.
End StatusHistory.

Module PropertyPlots.
(** A row of [property_plots], with the booking columns added to it. *)
Record row : Type := {
  id : uuid;
  property_id : option uuid;
  plot_number : string;
  area : option numeric;
  price : option string;
  status : option string;
  created_at : timestamptz;
  updated_at : timestamptz;
  booked_by : option uuid;
  booked_at : option timestamptz
}.
End PropertyPlots.

(** What is left of the history table in a database whose structure has
    drifted from the schema: the table may have been dropped, or may lack
    the columns the tracker writes. *)
Inductive history_structure : Type :=
| history_dropped
| history_without_columns
| history_ready.

(** The part of the database the land inventory reads and writes. Of
    [properties] and [users] only the keys matter. *)
Record database : Type := {
  properties : list uuid;
  users : list uuid;
  land_blocks : list LandBlocks.row;
  land_plots : list LandPlots.row;
  property_land_configurations : list Configurations.row;
  land_plot_status_history_structure : history_structure;
  land_plot_status_history : list StatusHistory.row;
  property_plots : list PropertyPlots.row;
  uuid_supply : uuid
}.

Definition with_land_blocks (db : database) (l : list LandBlocks.row) : database :=
  {| properties := properties db; users := users db;
     land_blocks := l; land_plots := land_plots db;
     property_land_configurations := property_land_configurations db;
     land_plot_status_history_structure := land_plot_status_history_structure db;
     land_plot_status_history := land_plot_status_history db;
     property_plots := property_plots db; uuid_supply := uuid_supply db |}.

Definition with_land_plots (db : database) (l : list LandPlots.row) : database :=
  {| properties := properties db; users := users db;
     land_blocks := land_blocks db; land_plots := l;
     property_land_configurations := property_land_configurations db;
     land_plot_status_history_structure := land_plot_status_history_structure db;
     land_plot_status_history := land_plot_status_history db;
     property_plots := property_plots db; uuid_supply := uuid_supply db |}.

Definition with_configurations (db : database) (l : list Configurations.row) : database :=
  {| properties := properties db; users := users db;
     land_blocks := land_blocks db; land_plots := land_plots db;
     property_land_configurations := l;
     land_plot_status_history_structure := land_plot_status_history_structure db;
     land_plot_status_history := land_plot_status_history db;
     property_plots := property_plots db; uuid_supply := uuid_supply db |}.

Definition with_history (db : database) (l : list StatusHistory.row) : database :=
  {| properties := properties db; users := users db;
     land_blocks := land_blocks db; land_plots := land_plots db;
     property_land_configurations := property_land_configurations db;
     land_plot_status_history_structure := land_plot_status_history_structure db;
     land_plot_status_history := l;
     property_plots := property_plots db; uuid_supply := uuid_supply db |}.

Definition with_property_plots (db : database) (l : list PropertyPlots.row) : database :=
  {| properties := properties db; users := users db;
     land_blocks := land_blocks db; land_plots := land_plots db;
     property_land_configurations := property_land_configurations db;
     land_plot_status_history_structure := land_plot_status_history_structure db;
     land_plot_status_history := land_plot_status_history db;
     property_plots := l; uuid_supply := uuid_supply db |}.

Definition with_uuid_supply (db : database) (n : uuid) : database :=
  {| properties := properties db; users := users db;
     land_blocks := land_blocks db; land_plots := land_plots db;
     property_land_configurations := property_land_configurations db;
     land_plot_status_history_structure := land_plot_status_history_structure db;
     land_plot_status_history := land_plot_status_history db;
     property_plots := property_plots db; uuid_supply := n |}.

(** ** The PL/pgSQL monad *)

(** How a block of statements ends: normally, with a value, or by raising.
    Either way it has reached a database state and sent notices. *)
Inductive outcome (A : Type) : Type :=
| Done (a : A) (db : database) (notices : list string)
| Raised (e : sqlerror) (db : database) (notices : list string).
Arguments Done {A} a db notices.
Arguments Raised {A} e db notices.

Definition plpgsql (A : Type) : Type := database -> outcome A.

Definition ret {A} (a : A) : plpgsql A := fun db => Done a db [].

Definition bind {A B} (m : plpgsql A) (k : A -> plpgsql B) : plpgsql B :=
  fun db =>
    match m db with
    | Done a db1 n1 =>
        match k a db1 with
        | Done b db2 n2 => Done b db2 (n1 ++ n2)%list
        | Raised e db2 n2 => Raised e db2 (n1 ++ n2)%list
        end
    | Raised e db1 n1 => Raised e db1 n1
    end.

Notation "x <- m ;; k" := (bind m (fun x => k))
  (at level 61, m at next level, right associativity).
Notation "m ;;; k" := (bind m (fun _ => k))
  (at level 61, right associativity).

Definition raise {A} (e : sqlerror) : plpgsql A := fun db => Raised e db [].

(** [RAISE NOTICE]. *)
Definition raise_notice (message : string) : plpgsql unit :=
  fun db => Done tt db [message].

Definition get_database : plpgsql database := fun db => Done db db [].

Definition set_database (db' : database) : plpgsql unit := fun _ => Done tt db' [].

(** An expression evaluated inside a statement. *)
Definition eval {A} (r : result A) : plpgsql A :=
  match r with
  | Ok a => ret a
  | Err e => raise e
  end.

(** [FOR x IN ... LOOP body END LOOP] over the rows already fetched. *)
Fixpoint for_each {A} (rows : list A) (body : A -> plpgsql unit) : plpgsql unit :=
  match rows with
  | [] => ret tt
  | x :: rest => body x ;;; for_each rest body
  end.

(** [BEGIN body EXCEPTION WHEN ... THEN handler END]: when the body raises,
    the database returns to its state at [BEGIN] and the handler runs. *)
Definition begin_exception {A} (body : plpgsql A) (handler : sqlerror -> plpgsql A)
  : plpgsql A :=
  fun db =>
    match body db with
    | Done a db1 n1 => Done a db1 n1
    | Raised e _ n1 =>
        match handler e db with
        | Done a db2 n2 => Done a db2 (n1 ++ n2)%list
        | Raised e' db2 n2 => Raised e' db2 (n1 ++ n2)%list
        end
    end.

(** One statement sent by a client: a call that raises leaves the database
    as it was before the statement. The notices have been sent. *)
Definition execute {A} (call : plpgsql A) (db : database)
  : database * list string * result A :=
  match call db with
  | Done a db' n => (db', n, Ok a)
  | Raised e _ n => (db, n, Err e)
  end.

Definition state_after {A} (x : database * list string * result A) : database :=
  fst (fst x).
Definition notices_of {A} (x : database * list string * result A) : list string :=
  snd (fst x).
Definition result_of {A} (x : database * list string * result A) : result A :=
  snd x.

(** The state a block of statements has reached, however it ended. *)
Definition reached {A} (o : outcome A) : database :=
  match o with
  | Done _ db _ => db
  | Raised _ db _ => db
  end.

Definition sent {A} (o : outcome A) : list string :=
  match o with
  | Done _ _ n => n
  | Raised _ _ n => n
  end.

(** A block of statements leaves the part [part] of the database alone. *)
Definition preserves {A X} (part : database -> X) (m : plpgsql A) : Prop :=
  forall db, part (reached (m db)) = part db.

(** A block of statements sends no notice. *)
Definition silent {A} (m : plpgsql A) : Prop :=
  forall db, sent (m db) = [].

(** [uuid_generate_v4()]. *)
Definition uuid_generate_v4 : plpgsql uuid :=
  fun db => Done (uuid_supply db) (with_uuid_supply db (N.succ (uuid_supply db))) [].

(** ** Constraints and row operations *)

(** A foreign key holds when the reference is null or names a key. *)
Definition references (keys : list uuid) (fk : option uuid) : bool :=
  match fk with
  | Some k => existsb (N.eqb k) keys
  | None => true
  end.

(** [check_plot_status_valid]; a null status satisfies the check. *)
Definition valid_status (s : option string) : bool :=
  match s with
  | Some v =>
      existsb (String.eqb v) ["available"; "booked"; "sold"; "reserved"; "blocked"]
  | None => true
  end.

(** [INSERT INTO land_blocks (property_id, name, description)]; the key and
    the timestamps take their defaults. [name] is the value the row gets:
    the text after its assignment to [VARCHAR(100)], which the functions
    evaluate first ([assign_varchar]). *)
Definition insert_land_block (property_id : option uuid)
    (name description : option string) (now : timestamptz) : plpgsql uuid :=
  new_id <- uuid_generate_v4 ;;
  db <- get_database ;;
  match name with
  | None => raise (not_null_violation "name")
  | Some block_name =>
      if existsb
           (fun b => sql_eq N.eqb (LandBlocks.property_id b) property_id
                     && String.eqb (lower (LandBlocks.name b)) (lower block_name))
           (land_blocks db)
      then raise (unique_violation "idx_land_blocks_unique_name_per_property")
      else if negb (references (properties db) property_id)
      then raise (foreign_key_violation "land_blocks_property_id_fkey")
      else
        set_database
          (with_land_blocks db
             (land_blocks db ++
              [ {| LandBlocks.id := new_id;
                   LandBlocks.property_id := property_id;
                   LandBlocks.name := block_name;
                   LandBlocks.description := description;
                   LandBlocks.created_at := now;
                   LandBlocks.updated_at := now |} ])%list) ;;;
        ret new_id
  end.

(** [INSERT INTO land_plots (block_id, plot_number, area, price, status,
    description)]. The status is given by the statement, so its default
    does not apply. The texts are the values the row gets: [plot_number],
    [price] and [status] after their assignment to [VARCHAR(50)],
    [VARCHAR(255)] and [VARCHAR(20)], which the functions evaluate first
    ([assign_varchar]). *)
Definition insert_land_plot (block_id : option uuid) (plot_number : option string)
    (area : option numeric) (price status description : option string)
    (now : timestamptz) : plpgsql uuid :=
  new_id <- uuid_generate_v4 ;;
  db <- get_database ;;
  match plot_number, area, price with
  | None, _, _ => raise (not_null_violation "plot_number")
  | _, None, _ => raise (not_null_violation "area")
  | _, _, None => raise (not_null_violation "price")
  | Some number, Some plot_area, Some plot_price =>
      if negb (numeric_positive plot_area)
      then raise (check_violation "check_plot_area_positive")
      else if negb (valid_status status)
      then raise (check_violation "check_plot_status_valid")
      else if existsb
                (fun p => sql_eq N.eqb (LandPlots.block_id p) block_id
                          && String.eqb (lower (LandPlots.plot_number p)) (lower number))
                (land_plots db)
      then raise (unique_violation "idx_land_plots_unique_plot_per_block")
      else if existsb
                (fun p => sql_eq N.eqb (LandPlots.block_id p) block_id
                          && String.eqb (LandPlots.plot_number p) number)
                (land_plots db)
      then raise (unique_violation "unique_plot_number_per_block")
      else if negb (references (map LandBlocks.id (land_blocks db)) block_id)
      then raise (foreign_key_violation "land_plots_block_id_fkey")
      else
        set_database
          (with_land_plots db
             (land_plots db ++
              [ {| LandPlots.id := new_id;
                   LandPlots.block_id := block_id;
                   LandPlots.plot_number := number;
                   LandPlots.area := plot_area;
                   LandPlots.price := plot_price;
                   LandPlots.status := status;
                   LandPlots.description := description;
                   LandPlots.created_at := now;
                   LandPlots.updated_at := now |} ])%list) ;;;
        ret new_id
  end.

(** [INSERT INTO property_land_configurations (property_id,
    configuration_name, blocks_data, is_active)]. [configuration_name] is
    the value the row gets: the text after its assignment to
    [VARCHAR(100)], which the functions evaluate first ([varchar]). *)
Definition insert_configuration (property_id : option uuid)
    (configuration_name : string) (blocks_data : jsonb) (is_active : option bool)
    (now : timestamptz) : plpgsql uuid :=
  new_id <- uuid_generate_v4 ;;
  db <- get_database ;;
  if sql_eq Bool.eqb is_active (Some true)
     && existsb
          (fun c => Configurations.active c
                    && sql_eq N.eqb (Configurations.property_id c) property_id)
          (property_land_configurations db)
  then raise (unique_violation "idx_property_land_configurations_unique_active")
  else if negb (references (properties db) property_id)
  then raise (foreign_key_violation "property_land_configurations_property_id_fkey")
  else
    set_database
      (with_configurations db
         (property_land_configurations db ++
          [ {| Configurations.id := new_id;
               Configurations.property_id := property_id;
               Configurations.configuration_name := configuration_name;
               Configurations.blocks_data := blocks_data;
               Configurations.is_active := is_active;
               Configurations.created_at := now;
               Configurations.updated_at := now |} ])%list) ;;;
    ret new_id.

(** [INSERT INTO land_plot_status_history (plot_id, old_status, new_status,
    changed_at)], the statement of the tracker. It needs the table and the
    columns it names. *)
Definition insert_status_history (plot_id : option uuid)
    (old_status new_status : option string) (changed_at : option timestamptz)
  : plpgsql unit :=
  db <- get_database ;;
  match land_plot_status_history_structure db with
  | history_dropped => raise (undefined_table "land_plot_status_history")
  | history_without_columns => raise (undefined_column "old_status")
  | history_ready =>
      new_id <- uuid_generate_v4 ;;
      match new_status with
      | None => raise (not_null_violation "new_status")
      | Some status_now =>
          if negb (references (map LandPlots.id (land_plots db)) plot_id)
          then raise (foreign_key_violation "land_plot_status_history_plot_id_fkey")
          else
            db1 <- get_database ;;
            set_database
              (with_history db1
                 (land_plot_status_history db1 ++
                  [ {| StatusHistory.id := new_id;
                       StatusHistory.plot_id := plot_id;
                       StatusHistory.previous_status := None;
                       StatusHistory.new_status := status_now;
                       StatusHistory.changed_by := None;
                       StatusHistory.change_reason := None;
                       StatusHistory.changed_at := changed_at;
                       StatusHistory.old_status := old_status |} ])%list)
      end
  end.

(** [DELETE FROM land_plots WHERE doomed]. The history rows that reference
    a deleted plot go with it: [plot_id ... REFERENCES land_plots(id) ON
    DELETE CASCADE]. The value is the number of plots deleted. *)
Definition delete_land_plots (doomed : LandPlots.row -> bool) : plpgsql nat :=
  db <- get_database ;;
  let deleted := filter doomed (land_plots db) in
  let deleted_ids := map LandPlots.id deleted in
  set_database
    (with_history
       (with_land_plots db (filter (fun p => negb (doomed p)) (land_plots db)))
       (filter
          (fun h => negb (existsb
                            (fun k => sql_eq N.eqb (StatusHistory.plot_id h) (Some k))
                            deleted_ids))
          (land_plot_status_history db))) ;;;
  ret (List.length deleted).

(** [DELETE FROM land_blocks WHERE doomed]. The plots of a deleted block go
    with it: [block_id ... REFERENCES land_blocks(id) ON DELETE CASCADE]. *)
Definition delete_land_blocks (doomed : LandBlocks.row -> bool) : plpgsql nat :=
  db <- get_database ;;
  let deleted := filter doomed (land_blocks db) in
  let deleted_ids := map LandBlocks.id deleted in
  delete_land_plots
    (fun p => existsb (fun k => sql_eq N.eqb (LandPlots.block_id p) (Some k)) deleted_ids) ;;;
  db1 <- get_database ;;
  set_database
    (with_land_blocks db1 (filter (fun b => negb (doomed b)) (land_blocks db1))) ;;;
  ret (List.length deleted).

(** ** Statistics: [get_property_land_statistics] *)

Record statistics : Type := {
  total_blocks : Z;
  total_plots : Z;
  available_plots : Z;
  booked_plots : Z;
  sold_plots : Z;
  reserved_plots : Z;
  total_area : numeric;
  average_plot_size : Q;
  min_plot_size : numeric;
  max_plot_size : numeric
}.

(** [land_blocks blocks LEFT JOIN land_plots plots ON blocks.id =
    plots.block_id]: a block without plots gives one row whose plot side is
    null. *)
Definition left_join_plots (blocks : list LandBlocks.row) (plots : list LandPlots.row)
  : list (LandBlocks.row * option LandPlots.row) :=
  flat_map
    (fun b =>
       match filter (fun p => sql_eq N.eqb (Some (LandBlocks.id b)) (LandPlots.block_id p))
                    plots with
       | [] => [(b, None)]
       | matched => map (fun p => (b, Some p)) matched
       end)
    blocks.

(** [COUNT(e)]: the number of rows on which [e] is not null. *)
Definition count {A B} (e : A -> option B) (rows : list A) : Z :=
  Z.of_nat (List.length (filter (fun r => is_not_null (e r)) rows)).

(** The non-null values of [e], the input of the other aggregates. *)
Fixpoint non_null {A B} (e : A -> option B) (rows : list A) : list B :=
  match rows with
  | [] => []
  | r :: rest =>
      match e r with
      | Some v => v :: non_null e rest
      | None => non_null e rest
      end
  end.

(** [CASE WHEN plots.status = wanted THEN 1 END]. *)
Definition case_status (wanted : string) (r : LandBlocks.row * option LandPlots.row)
  : option Z :=
  match snd r with
  | Some p => if sql_eq String.eqb (LandPlots.status p) (Some wanted) then Some 1%Z else None
  | None => None
  end.

Definition plot_area (r : LandBlocks.row * option LandPlots.row) : option numeric :=
  option_map LandPlots.area (snd r).

Definition get_property_land_statistics (input_property_id : uuid) (db : database)
  : statistics :=
  let rows :=
    left_join_plots
      (filter (fun b => sql_eq N.eqb (LandBlocks.property_id b) (Some input_property_id))
              (land_blocks db))
      (land_plots db) in
  {| total_blocks :=
       Z.of_nat (List.length (nodup N.eq_dec (map (fun r => LandBlocks.id (fst r)) rows)));
     total_plots := count (fun r => option_map LandPlots.id (snd r)) rows;
     available_plots := count (case_status "available") rows;
     booked_plots := count (case_status "booked") rows;
     sold_plots := count (case_status "sold") rows;
     reserved_plots := count (case_status "reserved") rows;
     total_area := coalesce (sum_numeric (non_null plot_area rows)) (numeric_of_Z 0);
     average_plot_size := coalesce (avg_numeric (non_null plot_area rows)) 0%Q;
     min_plot_size := coalesce (min_numeric (non_null plot_area rows)) (numeric_of_Z 0);
     max_plot_size := coalesce (max_numeric (non_null plot_area rows)) (numeric_of_Z 0) |}.

(** ** Numbering: [get_next_plot_number] *)

(** The [CASE] of the query: the numeric suffix of a plot number that
    matches the prefix pattern, zero for any other plot number. *)
Definition plot_number_suffix (plot_prefix : string) (p : LandPlots.row) : result Z :=
  if matches_prefix_digits plot_prefix (LandPlots.plot_number p)
  then int4_in (substring_from (LandPlots.plot_number p) (String.length plot_prefix + 1))
  else Ok 0%Z.

Definition get_next_plot_number (input_block_id : uuid) (plot_prefix : string)
    (db : database) : result string :=
  result_bind
    (result_map (plot_number_suffix plot_prefix)
       (filter (fun p => sql_eq N.eqb (LandPlots.block_id p) (Some input_block_id))
               (land_plots db)))
    (fun suffixes =>
  result_bind (int4_add (coalesce (max_int suffixes) 0%Z) 1)
    (fun next_num =>
  Ok (plot_prefix ++ lpad (integer_out next_num) 3 "0"))).

(** ** Booking: [update_plot_booking] *)

(** The two kinds of value the body of [update_plot_booking] mixes: a
    BOOLEAN and an integer (the BIGINT of [ROW_COUNT], the INTEGER 0). *)
Inductive sqlvalue : Type :=
| VBoolean (b : bool)
| VInteger (z : Z).

(** The input function of BOOLEAN on the text of a number. *)
Definition boolean_in (s : string) : result bool :=
  if String.eqb s "1" then Ok true
  else if String.eqb s "0" then Ok false
  else Err (invalid_text_representation s).

(** Assignment to a BOOLEAN variable. There is no assignment cast from
    BIGINT to BOOLEAN, so PL/pgSQL converts through the text of the
    value. *)
Definition assign_boolean (v : sqlvalue) : result bool :=
  match v with
  | VBoolean b => Ok b
  | VInteger z => boolean_in (integer_out z)
  end.

(** [a > b]: defined on two values of one type; no [>] operator takes a
    BOOLEAN and an INTEGER, and neither side converts implicitly. *)
Definition sql_gt (a b : sqlvalue) : result bool :=
  match a, b with
  | VInteger x, VInteger y => Ok (y <? x)%Z
  | VBoolean x, VBoolean y => Ok (x && negb y)
  | _, _ => Err (undefined_function "operator does not exist: boolean > integer")
  end.

(** The [UPDATE property_plots ... WHERE id = p_plot_id] of the function;
    its value is [ROW_COUNT]. [booked_by] references [users]. *)
Definition update_plot_booking_statement (p_plot_id : uuid) (p_status : string)
    (p_user_id : option uuid) (now : timestamptz) : plpgsql Z :=
  db <- get_database ;;
  let booked_by :=
    if String.eqb p_status "booked" then p_user_id
    else if String.eqb p_status "sold" then p_user_id
    else None in
  let booked_at :=
    if String.eqb p_status "booked" || String.eqb p_status "sold" then Some now
    else None in
  let hit := fun r => N.eqb (PropertyPlots.id r) p_plot_id in
  if existsb hit (property_plots db) && negb (references (users db) booked_by)
  then raise (foreign_key_violation "property_plots_booked_by_fkey")
  else
    set_database
      (with_property_plots db
         (map (fun r =>
                 if hit r then
                   {| PropertyPlots.id := PropertyPlots.id r;
                      PropertyPlots.property_id := PropertyPlots.property_id r;
                      PropertyPlots.plot_number := PropertyPlots.plot_number r;
                      PropertyPlots.area := PropertyPlots.area r;
                      PropertyPlots.price := PropertyPlots.price r;
                      PropertyPlots.status := Some p_status;
                      PropertyPlots.created_at := PropertyPlots.created_at r;
                      PropertyPlots.updated_at := now;
                      PropertyPlots.booked_by := booked_by;
                      PropertyPlots.booked_at := booked_at |}
                 else r)
              (property_plots db))) ;;;
    ret (Z.of_nat (List.length (filter hit (property_plots db)))).

(** [v_success] is declared BOOLEAN, receives [ROW_COUNT] and is then
    compared with the integer 0. *)
Definition update_plot_booking (p_plot_id : uuid) (p_status : string)
    (p_user_id : option uuid) (now : timestamptz) : plpgsql bool :=
  row_count <- update_plot_booking_statement p_plot_id p_status p_user_id now ;;
  v_success <- eval (assign_boolean (VInteger row_count)) ;;
  eval (sql_gt (VBoolean v_success) (VInteger 0)).

(** ** The status tracker: [track_plot_status_changes] *)

Definition track_plot_status_changes (TG_OP : string) (OLD NEW : LandPlots.row)
    (now : timestamptz) : plpgsql LandPlots.row :=
  if negb (String.eqb TG_OP "UPDATE") then ret NEW
  else
    begin_exception
      (if is_not_null (LandPlots.status OLD) || is_not_null (LandPlots.status NEW) then
         if is_distinct_from String.eqb (LandPlots.status OLD) (LandPlots.status NEW) then
           insert_status_history (Some (LandPlots.id NEW)) (LandPlots.status OLD)
             (LandPlots.status NEW) (Some now)
         else ret tt
       else ret tt)
      (fun e =>
         match e with
         | undefined_table _ =>
             raise_notice
               "WARNING: land_plot_status_history table not found, skipping status tracking"
         | undefined_column _ =>
             raise_notice
               "WARNING: Required columns not found in status history table, skipping tracking"
         | _ => raise_notice ("WARNING: Status tracking failed: " ++ sqlerrm e)
         end) ;;;
    ret NEW.

(** Modelled from the spec: the statement behind [updatePlotStatus], issued
    by the route handlers, which are not among the sources:
    [UPDATE land_plots SET status = new_status WHERE id = plot_id]. The row
    triggers are the ones the schema attaches to [land_plots]:
    [update_land_plots_updated_at] before the update sets [updated_at], and
    [track_land_plot_status_changes] runs the tracker after it. The value
    tells whether a row was updated. *)
Definition update_land_plot_status (plot_id : uuid) (new_status : option string)
    (now : timestamptz) : plpgsql bool :=
  db <- get_database ;;
  match find (fun p => N.eqb (LandPlots.id p) plot_id) (land_plots db) with
  | None => ret false
  | Some OLD =>
      let NEW := LandPlots.set_status OLD new_status now in
      if negb (valid_status new_status)
      then raise (check_violation "check_plot_status_valid")
      else
        set_database
          (with_land_plots db
             (map (fun p => if N.eqb (LandPlots.id p) plot_id
                            then LandPlots.set_status p new_status now else p)
                  (land_plots db))) ;;;
        track_plot_status_changes "UPDATE" OLD NEW now ;;;
        ret true
  end.

(** Modelled from the spec: the explicit deletion of one plot, issued by
    the route handlers: [DELETE FROM land_plots WHERE id = plot_id]. What
    happens to the history rows is the foreign key of the schema. *)
Definition delete_land_plot (plot_id : uuid) : plpgsql nat :=
  delete_land_plots (fun p => N.eqb (LandPlots.id p) plot_id).

(** ** Snapshots: [create_property_land_configuration] *)

(** The two aggregates of the snapshot have no [ORDER BY]: the rows reach
    them in the order the executor delivers them, which depends on the
    plan and on where the rows lie in the heap. A [scan_order] gives that
    order for the rows of a block list and of a plot list; all that is
    known of it is that it rearranges the rows. *)
Record scan_order : Type := {
  blocks_in_order : list LandBlocks.row -> list LandBlocks.row;
  plots_in_order : list LandPlots.row -> list LandPlots.row;
  blocks_rearranged : forall rows, Permutation (blocks_in_order rows) rows;
  plots_rearranged : forall rows, Permutation (plots_in_order rows) rows
}.

Definition plot_object (lp : LandPlots.row) : jsonb :=
  JObj [ ("id", JStr (uuid_out (LandPlots.id lp)));
         ("plot_number", JStr (LandPlots.plot_number lp));
         ("area", JNum (LandPlots.area lp));
         ("price", JStr (LandPlots.price lp));
         ("status", jsonb_of_text (LandPlots.status lp));
         ("description", jsonb_of_text (LandPlots.description lp)) ].

(** The row of the grouped subquery [plots_data] for one block, null when
    the block has no plot. *)
Definition plots_data (arrival : scan_order) (lb_id : uuid) (db : database)
  : option jsonb :=
  jsonb_agg
    (map plot_object
       (plots_in_order arrival
          (filter (fun lp => sql_eq N.eqb (Some lb_id) (LandPlots.block_id lp))
                  (land_plots db)))).

Definition block_object (arrival : scan_order) (db : database) (lb : LandBlocks.row)
  : jsonb :=
  JObj [ ("id", JStr (uuid_out (LandBlocks.id lb)));
         ("name", JStr (LandBlocks.name lb));
         ("description", jsonb_of_text (LandBlocks.description lb));
         ("plots", coalesce (plots_data arrival (LandBlocks.id lb) db) (JArr [])) ].

(** The current blocks and plots of a property as a payload. *)
Definition current_blocks_json (arrival : scan_order) (p_property_id : uuid)
    (db : database) : jsonb :=
  coalesce
    (jsonb_agg
       (map (block_object arrival db)
          (blocks_in_order arrival
             (filter (fun lb => sql_eq N.eqb (LandBlocks.property_id lb)
                                  (Some p_property_id))
                     (land_blocks db)))))
    (JArr []).

(** [UPDATE property_land_configurations SET is_active = FALSE WHERE
    property_id = p_property_id AND is_active = TRUE]; the update trigger
    of the table sets [updated_at]. *)
Definition deactivate_configurations (p_property_id : uuid) (now : timestamptz)
  : plpgsql unit :=
  db <- get_database ;;
  set_database
    (with_configurations db
       (map (fun c =>
               if sql_eq N.eqb (Configurations.property_id c) (Some p_property_id)
                  && Configurations.active c
               then Configurations.deactivate c now else c)
            (property_land_configurations db))).

Definition create_property_land_configuration (arrival : scan_order)
    (p_property_id : uuid) (p_configuration_name : string) (now : timestamptz)
  : plpgsql uuid :=
  db <- get_database ;;
  let blocks_json := current_blocks_json arrival p_property_id db in
  deactivate_configurations p_property_id now ;;;
  configuration_name <- eval (varchar 100 p_configuration_name) ;;
  configuration_id <-
    insert_configuration (Some p_property_id) configuration_name blocks_json
      (Some true) now ;;
  ret configuration_id.

(** ** Apply: [apply_property_land_configuration] *)

(** [x::NUMERIC] of a nullable text. *)
Definition cast_numeric (x : option string) : result (option numeric) :=
  match x with
  | Some s => result_bind (numeric_in s) (fun n => Ok (Some n))
  | None => Ok None
  end.

(** The body of the inner loop: one plot of the payload. *)
Definition apply_plot (new_block_id : uuid) (now : timestamptz) (plot_data : jsonb)
  : plpgsql unit :=
  plot_number <- eval (assign_varchar 50 (jsonb_get_text (Some plot_data) "plot_number")) ;;
  plot_area <- eval (cast_numeric (jsonb_get_text (Some plot_data) "area")) ;;
  plot_price <- eval (assign_varchar 255 (jsonb_get_text (Some plot_data) "price")) ;;
  plot_status <- eval (assign_varchar 20 (jsonb_get_text (Some plot_data) "status")) ;;
  insert_land_plot (Some new_block_id) plot_number plot_area plot_price plot_status
    (jsonb_get_text (Some plot_data) "description")
    now ;;;
  ret tt.

(** The body of the outer loop: one block of the payload and its plots. *)
Definition apply_block (property_id_val : option uuid) (now : timestamptz)
    (block_data : jsonb) : plpgsql unit :=
  block_name <- eval (assign_varchar 100 (jsonb_get_text (Some block_data) "name")) ;;
  new_block_id <-
    insert_land_block property_id_val block_name
      (jsonb_get_text (Some block_data) "description")
      now ;;
  plot_rows <- eval (jsonb_array_elements (jsonb_get (Some block_data) "plots")) ;;
  for_each plot_rows (apply_plot new_block_id now).

(** "Clear existing blocks and plots for this property": the plots of the
    blocks of the property, then the blocks. *)
Definition clear_blocks_and_plots (property_id_val : option uuid) : plpgsql unit :=
  db <- get_database ;;
  delete_land_plots
    (fun p =>
       existsb
         (fun b => sql_eq N.eqb (LandPlots.block_id p) (Some (LandBlocks.id b)))
         (filter (fun b => sql_eq N.eqb (LandBlocks.property_id b) property_id_val)
                 (land_blocks db))) ;;;
  delete_land_blocks
    (fun b => sql_eq N.eqb (LandBlocks.property_id b) property_id_val) ;;;
  ret tt.

Definition apply_property_land_configuration (p_configuration_id : uuid)
    (now : timestamptz) : plpgsql bool :=
  db <- get_database ;;
  match find (fun c => N.eqb (Configurations.id c) p_configuration_id
                       && Configurations.active c)
             (property_land_configurations db) with
  | None => raise (raise_exception "Configuration not found or not active")
  | Some config_record =>
      let property_id_val := Configurations.property_id config_record in
      let blocks_json := Configurations.blocks_data config_record in
      clear_blocks_and_plots property_id_val ;;;
      block_rows <- eval (jsonb_array_elements (Some blocks_json)) ;;
      for_each block_rows (apply_block property_id_val now) ;;;
      ret true
  end.

(** ** Reading a payload *)

(** The attributes of a plot and of a block that a payload carries, read
    with the operators and casts [apply_property_land_configuration] reads
    them with. Identifiers are not among them. *)
Record plot_attributes : Type := {
  plot_number_of : option string;
  area_of : option numeric;
  price_of : option string;
  status_of : option string;
  description_of : option string
}.

Record block_attributes : Type := {
  name_of : option string;
  block_description_of : option string;
  plots_of : list plot_attributes
}.

Definition plot_attributes_of (plot_data : jsonb) : result plot_attributes :=
  result_bind (cast_numeric (jsonb_get_text (Some plot_data) "area")) (fun a =>
  Ok {| plot_number_of := jsonb_get_text (Some plot_data) "plot_number";
        area_of := a;
        price_of := jsonb_get_text (Some plot_data) "price";
        status_of := jsonb_get_text (Some plot_data) "status";
        description_of := jsonb_get_text (Some plot_data) "description" |}).

Definition block_attributes_of (block_data : jsonb) : result block_attributes :=
  result_bind (jsonb_array_elements (jsonb_get (Some block_data) "plots")) (fun rows =>
  result_bind (result_map plot_attributes_of rows) (fun plots =>
  Ok {| name_of := jsonb_get_text (Some block_data) "name";
        block_description_of := jsonb_get_text (Some block_data) "description";
        plots_of := plots |})).

Definition payload_attributes (payload : jsonb) : result (list block_attributes) :=
  result_bind (jsonb_array_elements (Some payload)) (result_map block_attributes_of).

(** The attributes as the columns hold them: a text that an insert has
    accepted is stored cut to the width of its column, which changes only
    a text with excess trailing spaces. *)
Definition cut (n : nat) (s : option string) : option string :=
  option_map (string_take n) s.

Definition stored_plot (a : plot_attributes) : plot_attributes :=
  {| plot_number_of := cut 50 (plot_number_of a);
     area_of := area_of a;
     price_of := cut 255 (price_of a);
     status_of := cut 20 (status_of a);
     description_of := description_of a |}.

Definition stored_block (a : block_attributes) : block_attributes :=
  {| name_of := cut 100 (name_of a);
     block_description_of := block_description_of a;
     plots_of := map stored_plot (plots_of a) |}.

(** The texts fit their columns. *)
Definition fits (n : nat) (s : option string) : bool :=
  match s with
  | Some v => (String.length v <=? n)%nat
  | None => true
  end.

Definition plot_fits (a : plot_attributes) : bool :=
  fits 50 (plot_number_of a) && fits 255 (price_of a) && fits 20 (status_of a).

Definition block_fits (a : block_attributes) : bool :=
  fits 100 (name_of a) && forallb plot_fits (plots_of a).

(** Two payloads that list the same blocks with the same plots, whatever
    the order of the blocks and of the plots of a block. *)
Definition same_block (a b : block_attributes) : Prop :=
  name_of a = name_of b
  /\ block_description_of a = block_description_of b
  /\ Permutation (plots_of a) (plots_of b).

Definition same_layout (x y : list block_attributes) : Prop :=
  exists z, Permutation x z /\ Forall2 same_block z y.

(** The same attributes read from the live rows. *)
Definition live_plot_attributes (lp : LandPlots.row) : plot_attributes :=
  {| plot_number_of := Some (LandPlots.plot_number lp);
     area_of := Some (LandPlots.area lp);
     price_of := Some (LandPlots.price lp);
     status_of := LandPlots.status lp;
     description_of := LandPlots.description lp |}.

Definition plots_in_block (block : uuid) (db : database) : list LandPlots.row :=
  filter (fun lp => sql_eq N.eqb (Some block) (LandPlots.block_id lp)) (land_plots db).

Definition live_block_attributes (db : database) (lb : LandBlocks.row) : block_attributes :=
  {| name_of := Some (LandBlocks.name lb);
     block_description_of := LandBlocks.description lb;
     plots_of := map live_plot_attributes (plots_in_block (LandBlocks.id lb) db) |}.

Definition blocks_of_property (p : uuid) (db : database) : list LandBlocks.row :=
  filter (fun lb => sql_eq N.eqb (LandBlocks.property_id lb) (Some p)) (land_blocks db).

Definition live_attributes (p : uuid) (db : database) : list block_attributes :=
  map (live_block_attributes db) (blocks_of_property p db).

(** The same attributes in the order in which a snapshot lists the rows. *)
Definition listed_block_attributes (arrival : scan_order) (db : database)
    (lb : LandBlocks.row) : block_attributes :=
  {| name_of := Some (LandBlocks.name lb);
     block_description_of := LandBlocks.description lb;
     plots_of :=
       map live_plot_attributes
         (plots_in_order arrival (plots_in_block (LandBlocks.id lb) db)) |}.

Definition listed_attributes (arrival : scan_order) (p : uuid) (db : database)
  : list block_attributes :=
  map (listed_block_attributes arrival db)
      (blocks_in_order arrival (blocks_of_property p db)).

(** ** Invariants of a database built by the schema *)

(** The keys in use were drawn from the supply. *)
Definition keys_below_supply (db : database) : Prop :=
  (forall b, In b (land_blocks db) -> (LandBlocks.id b < uuid_supply db)%N)
  /\ (forall p k, In p (land_plots db) -> LandPlots.block_id p = Some k ->
                  (k < uuid_supply db)%N).

(** The configurations of property [p] that are active. *)
Definition active_configurations (p : uuid) (db : database) : list Configurations.row :=
  filter (fun c => Configurations.active c
                   && sql_eq N.eqb (Configurations.property_id c) (Some p))
         (property_land_configurations db).

(** [idx_property_land_configurations_unique_active]. *)
Definition at_most_one_active (db : database) : Prop :=
  forall p, (List.length (active_configurations p db) <= 1)%nat.

(** ** Sequences of save and apply *)

Inductive operation : Type :=
| save_configuration (property_id : uuid) (name : string)
| apply_configuration (configuration_id : uuid).

Definition run_operation (arrival : scan_order) (db : database)
    (step : timestamptz * operation) : database :=
  match snd step with
  | save_configuration p name =>
      state_after
        (execute (create_property_land_configuration arrival p name (fst step)) db)
  | apply_configuration c =>
      state_after (execute (apply_property_land_configuration c (fst step)) db)
  end.

Definition run_operations (arrival : scan_order)
    (steps : list (timestamptz * operation)) (db : database) : database :=
  fold_left (run_operation arrival) steps db.

(** ** Sample data *)

Module Sample.

(** The rows in the order of the table, and in the opposite order. *)
Definition table_order : scan_order :=
  {| blocks_in_order := fun rows => rows;
     plots_in_order := fun rows => rows;
     blocks_rearranged := fun rows => Permutation_refl rows;
     plots_rearranged := fun rows => Permutation_refl rows |}.

Definition reverse_order : scan_order :=
  {| blocks_in_order := @rev LandBlocks.row;
     plots_in_order := @rev LandPlots.row;
     blocks_rearranged := fun rows => Permutation_sym (Permutation_rev rows);
     plots_rearranged := fun rows => Permutation_sym (Permutation_rev rows) |}.

Definition block_a : LandBlocks.row :=
  {| LandBlocks.id := 10; LandBlocks.property_id := Some 1%N;
     LandBlocks.name := "Block A"; LandBlocks.description := None;
     LandBlocks.created_at := 100; LandBlocks.updated_at := 100 |}.

Definition plot (key : uuid) (number : string) (plot_area : Z) (plot_status : string)
  : LandPlots.row :=
  {| LandPlots.id := key; LandPlots.block_id := Some 10%N;
     LandPlots.plot_number := number; LandPlots.area := numeric_of_Z plot_area;
     LandPlots.price := "15 lakhs"; LandPlots.status := Some plot_status;
     LandPlots.description := None;
     LandPlots.created_at := 100; LandPlots.updated_at := 100 |}.

Definition history_entry : StatusHistory.row :=
  {| StatusHistory.id := 30; StatusHistory.plot_id := Some 11%N;
     StatusHistory.previous_status := None; StatusHistory.new_status := "available";
     StatusHistory.changed_by := None; StatusHistory.change_reason := None;
     StatusHistory.changed_at := Some 100%N; StatusHistory.old_status := Some "reserved" |}.

Definition plot_payload (number area : string) : jsonb :=
  JObj [ ("plot_number", JStr number); ("area", JStr area);
         ("price", JStr "15 lakhs"); ("status", JStr "available") ].

Definition layout : jsonb :=
  JArr [ JObj [ ("name", JStr "Block B");
                ("plots", JArr [ plot_payload "P001" "1200"; plot_payload "P002" "1500.5" ]) ] ].

(** A layout of two blocks. *)
Definition wide_layout : jsonb :=
  JArr [ JObj [ ("name", JStr "Block B");
                ("plots", JArr [ plot_payload "P001" "1200"; plot_payload "P002" "1500.5" ]) ];
         JObj [ ("name", JStr "Block C"); ("description", JStr "South");
                ("plots", JArr [ plot_payload "P001" "800" ]) ] ].

Fixpoint spaces (n : nat) : string :=
  match n with
  | O => EmptyString
  | S n' => String " " (spaces n')
  end.

(** A name of one hundred and one characters that ends in spaces. *)
Definition padded_name : string := "Block B" ++ spaces 94.

Definition padded_layout : jsonb :=
  JArr [ JObj [ ("name", JStr padded_name);
                ("plots", JArr [ plot_payload "P001" "1200"; plot_payload "P002" "1500.5" ]) ] ].

(** A layout whose second plot repeats the number of the first. *)
Definition clashing_layout : jsonb :=
  JArr [ JObj [ ("name", JStr "Block B");
                ("plots", JArr [ plot_payload "P001" "1200"; plot_payload "p001" "900" ]) ] ].

Definition configuration (key : uuid) (payload : jsonb) (active : bool)
  : Configurations.row :=
  {| Configurations.id := key; Configurations.property_id := Some 1%N;
     Configurations.configuration_name := "Phase 1 Layout";
     Configurations.blocks_data := payload;
     Configurations.is_active := Some active;
     Configurations.created_at := 100; Configurations.updated_at := 100 |}.

Definition booking_plot : PropertyPlots.row :=
  {| PropertyPlots.id := 40; PropertyPlots.property_id := Some 1%N;
     PropertyPlots.plot_number := "A-1"; PropertyPlots.area := None;
     PropertyPlots.price := None; PropertyPlots.status := Some "available";
     PropertyPlots.created_at := 100; PropertyPlots.updated_at := 100;
     PropertyPlots.booked_by := None; PropertyPlots.booked_at := None |}.

(** Property 1 with one block of two plots, one history row for the first
    plot, an active configuration 20 and an inactive one 21. *)
Definition inventory : database :=
  {| properties := [1%N]; users := [2%N];
     land_blocks := [block_a];
     land_plots := [plot 11 "P001" 1200 "available"; plot 12 "P002" 1500 "booked"];
     property_land_configurations :=
       [configuration 20 layout true; configuration 21 layout false];
     land_plot_status_history_structure := history_ready;
     land_plot_status_history := [history_entry];
     property_plots := [booking_plot];
     uuid_supply := 50 |}.

(** The same inventory with the clashing layout as the active one. *)
Definition inventory_with_clash : database :=
  with_configurations inventory [configuration 20 clashing_layout true].

(** The same inventory with the wide layout, and with the padded layout, as
    the active one. *)
Definition inventory_with_wide_layout : database :=
  with_configurations inventory [configuration 20 wide_layout true].

Definition inventory_with_padded_layout : database :=
  with_configurations inventory [configuration 20 padded_layout true].

(** The same inventory after the history table has been dropped. *)
Definition inventory_without_history : database :=
  {| properties := [1%N]; users := [2%N];
     land_blocks := [block_a];
     land_plots := [plot 11 "P001" 1200 "available"; plot 12 "P002" 1500 "booked"];
     property_land_configurations := [configuration 20 layout true];
     land_plot_status_history_structure := history_dropped;
     land_plot_status_history := [];
     property_plots := [booking_plot];
     uuid_supply := 50 |}.

(** A block whose highest plot number is P999. *)
Definition full_block : database :=
  with_land_plots inventory
    [plot 11 "P001" 1200 "available"; plot 12 "P999" 1500 "booked"].

(** A property with a block and no plot. *)
Definition empty_block : database := with_land_plots inventory [].

End Sample.


(** * The other functions of the land inventory *)

(** ** Copies: [duplicate_property_land_configuration] *)

(** The copy is inserted with [is_active] FALSE. A null name reaches the
    [NOT NULL] column [configuration_name]; any other is first brought to
    the width of the column. *)
Definition duplicate_property_land_configuration (p_source_config_id : uuid)
    (p_new_name : option string) (now : timestamptz) : plpgsql uuid :=
  db <- get_database ;;
  match find (fun c => N.eqb (Configurations.id c) p_source_config_id)
             (property_land_configurations db) with
  | None => raise (raise_exception "Source configuration not found")
  | Some source_config =>
      match p_new_name with
      | None => raise (not_null_violation "configuration_name")
      | Some new_name =>
          configuration_name <- eval (varchar 100 new_name) ;;
          new_config_id <-
            insert_configuration (Configurations.property_id source_config)
              configuration_name
              (Configurations.blocks_data source_config) (Some false) now ;;
          ret new_config_id
      end
  end.

(** The row a copy adds: the property and the payload of the source under
    a new key and name, not active. *)
Definition inactive_copy (source : Configurations.row) (key : uuid) (stored : string)
    (now : timestamptz) : Configurations.row :=
  {| Configurations.id := key;
     Configurations.property_id := Configurations.property_id source;
     Configurations.configuration_name := stored;
     Configurations.blocks_data := Configurations.blocks_data source;
     Configurations.is_active := Some false;
     Configurations.created_at := now;
     Configurations.updated_at := now |}.

(** ** Deleting a block: [delete_land_block_safely] *)

(** The function counts the plots of the block into [plots_count] and does
    not use the count. *)
Definition delete_land_block_safely (block_uuid : uuid) : plpgsql bool :=
  db <- get_database ;;
  if negb (existsb (fun b => N.eqb (LandBlocks.id b) block_uuid) (land_blocks db))
  then ret false
  else
    let plots_count :=
      Z.of_nat (List.length
                  (filter (fun p => sql_eq N.eqb (LandPlots.block_id p) (Some block_uuid))
                          (land_plots db))) in
    delete_land_plots (fun p => sql_eq N.eqb (LandPlots.block_id p) (Some block_uuid)) ;;;
    delete_land_blocks (fun b => N.eqb (LandBlocks.id b) block_uuid) ;;;
    ret true.

(** ** The plots of a block: [get_available_plots_for_block] *)

Module AvailablePlot.
(** A row of the table the function returns. *)
Record row : Type := {
  plot_id : uuid;
  plot_number : string;
  area : numeric;
  price : string;
  status : option string
}.
End AvailablePlot.

Section Collation.

(** The order of the collation of the database on text: [text_le a b] when
    [a] sorts no later than [b]. *)
Variable text_le : string -> string -> bool.

Fixpoint insert_by {A} (key : A -> string) (x : A) (sorted : list A) : list A :=
  match sorted with
  | [] => [x]
  | y :: rest =>
      if text_le (key x) (key y) then x :: sorted else y :: insert_by key x rest
  end.

(** [ORDER BY key]. Rows with the same key are left in the order of the
    scan, one of the orders SQL allows for them. *)
Definition order_by {A} (key : A -> string) (rows : list A) : list A :=
  fold_right (insert_by key) [] rows.

Definition get_available_plots_for_block (input_block_id : uuid) (db : database)
  : list AvailablePlot.row :=
  map (fun plots =>
         {| AvailablePlot.plot_id := LandPlots.id plots;
            AvailablePlot.plot_number := LandPlots.plot_number plots;
            AvailablePlot.area := LandPlots.area plots;
            AvailablePlot.price := LandPlots.price plots;
            AvailablePlot.status := LandPlots.status plots |})
      (order_by LandPlots.plot_number
         (filter (fun plots => sql_eq N.eqb (LandPlots.block_id plots) (Some input_block_id))
                 (land_plots db))).

End Collation.

(** ** A block by its name: [get_land_block_by_name] *)

Module BlockSummary.
(** A row of the table the function returns. *)
Record row : Type := {
  block_id : uuid;
  block_name : string;
  block_description : option string;
  total_plots : Z;
  available_plots : Z
}.
End BlockSummary.

(** Two blocks fall in one group of [GROUP BY blocks.id, blocks.name,
    blocks.description]; nulls group together. *)
Definition same_group (a b : LandBlocks.row) : bool :=
  N.eqb (LandBlocks.id a) (LandBlocks.id b)
  && String.eqb (LandBlocks.name a) (LandBlocks.name b)
  && negb (is_distinct_from String.eqb (LandBlocks.description a) (LandBlocks.description b)).

(** The block of the first row of each group, in the order of the scan. *)
Fixpoint group_heads (rows : list (LandBlocks.row * option LandPlots.row))
  : list LandBlocks.row :=
  match rows with
  | [] => []
  | r :: rest => fst r :: filter (fun b => negb (same_group (fst r) b)) (group_heads rest)
  end.

Definition get_land_block_by_name (input_property_id : uuid) (search_name : string)
    (db : database) : list BlockSummary.row :=
  let rows :=
    left_join_plots
      (filter (fun blocks =>
                 sql_eq N.eqb (LandBlocks.property_id blocks) (Some input_property_id)
                 && String.eqb (LandBlocks.name blocks) search_name)
              (land_blocks db))
      (land_plots db) in
  map (fun head =>
         let group := filter (fun r => same_group head (fst r)) rows in
         {| BlockSummary.block_id := LandBlocks.id head;
            BlockSummary.block_name := LandBlocks.name head;
            BlockSummary.block_description := LandBlocks.description head;
            BlockSummary.total_plots := count (fun r => option_map LandPlots.id (snd r)) group;
            BlockSummary.available_plots := count (case_status "available") group |})
      (group_heads rows).

(** ** Bulk insertion: [bulk_insert_blocks_and_plots] *)

(** The columns of [land_blocks]: those of its [CREATE TABLE]. No statement
    of the schema adds a column to the table. *)
Definition land_blocks_columns : list string :=
  ["id"; "property_id"; "name"; "description"; "created_at"; "updated_at"].

(** [s::INTEGER] in decimal notation with an optional sign. *)
Definition integer_in (s : string) : result Z :=
  match s with
  | String c r =>
      if Ascii.eqb c "-" then
        match digits_value r with
        | Some n =>
            if in_int4 (- Z.of_N n) then Ok (- Z.of_N n)%Z
            else Err (numeric_value_out_of_range
                        ("value " ++ quoted s ++ " is out of range for type integer"))
        | None => Err (invalid_text_representation s)
        end
      else if Ascii.eqb c "+" then int4_in r
      else int4_in s
  | EmptyString => int4_in s
  end.

(** [x::INTEGER] of a nullable text. *)
Definition cast_integer (x : option string) : result (option Z) :=
  match x with
  | Some s => result_bind (integer_in s) (fun z => Ok (Some z))
  | None => Ok None
  end.

(** [j ? key]: [key] is a key of the object, a string of the array, or the
    string itself. *)
Definition jsonb_exists (j : jsonb) (key : string) : bool :=
  match j with
  | JObj fields => is_not_null (assoc key fields)
  | JArr items =>
      existsb (fun x => match x with JStr s => String.eqb s key | _ => false end) items
  | JStr s => String.eqb s key
  | _ => false
  end.

(** [jsonb_array_length(j)]; the function is strict. *)
Definition jsonb_array_length (j : option jsonb) : result (option Z) :=
  match j with
  | None => Ok None
  | Some (JArr items) => Ok (Some (Z.of_nat (List.length items)))
  | Some (JObj _) => Err (invalid_parameter_value "cannot get array length of a non-array")
  | Some _ => Err (invalid_parameter_value "cannot get array length of a scalar")
  end.

Definition jsonb_as_array (j : jsonb) : list jsonb :=
  match j with
  | JArr items => items
  | _ => [j]
  end.

(** [a || b] on jsonb: two objects are merged, the members of [b] taking
    precedence; in every other case the operands are concatenated as
    arrays, a value that is not an array counting as the array of itself.
    The operator is strict. *)
Definition jsonb_concat (a b : option jsonb) : option jsonb :=
  match a, b with
  | Some (JObj x), Some (JObj y) =>
      Some (JObj (filter (fun f => negb (is_not_null (assoc (fst f) y))) x ++ y)%list)
  | Some x, Some y => Some (JArr (jsonb_as_array x ++ jsonb_as_array y)%list)
  | _, _ => None
  end.

(** The text form of a timestamp; the embedding prints the number. *)
Definition timestamptz_out (t : timestamptz) : string :=
  NilZero.string_of_uint (N.to_uint t).

Definition jsonb_of_uuid (u : option uuid) : jsonb :=
  match u with
  | Some k => JStr (uuid_out k)
  | None => JNull
  end.

(** The members [to_jsonb] gives a row of [land_blocks]. *)
Definition land_block_members (r : LandBlocks.row) : list (string * jsonb) :=
  [ ("id", JStr (uuid_out (LandBlocks.id r)));
    ("property_id", jsonb_of_uuid (LandBlocks.property_id r));
    ("name", JStr (LandBlocks.name r));
    ("description", jsonb_of_text (LandBlocks.description r));
    ("created_at", JStr (timestamptz_out (LandBlocks.created_at r)));
    ("updated_at", JStr (timestamptz_out (LandBlocks.updated_at r))) ].

(** [to_jsonb] of a row of [land_plots]. *)
Definition land_plot_to_jsonb (r : LandPlots.row) : jsonb :=
  JObj [ ("id", JStr (uuid_out (LandPlots.id r)));
         ("block_id", jsonb_of_uuid (LandPlots.block_id r));
         ("plot_number", JStr (LandPlots.plot_number r));
         ("area", JNum (LandPlots.area r));
         ("price", JStr (LandPlots.price r));
         ("status", jsonb_of_text (LandPlots.status r));
         ("description", jsonb_of_text (LandPlots.description r));
         ("created_at", JStr (timestamptz_out (LandPlots.created_at r)));
         ("updated_at", JStr (timestamptz_out (LandPlots.updated_at r))) ].

(** A loop whose body updates a variable of the function. *)
Fixpoint for_each_with {A S} (rows : list A) (body : S -> A -> plpgsql S) (s : S)
  : plpgsql S :=
  match rows with
  | [] => ret s
  | x :: rest => s' <- body s x ;; for_each_with rest body s'
  end.

(** [INSERT INTO land_blocks (property_id, name, description, total_plots)
    ... RETURNING *]. The statement is analysed before it runs, and the
    analysis needs every column the statement names. Were [total_plots] a
    column, the row would be inserted as [insert_land_block] inserts it. *)
Definition insert_land_block_with_total_plots (property_id : option uuid)
    (name description : option string) (total_plots : result Z) (now : timestamptz)
  : plpgsql uuid :=
  match find (fun c => negb (existsb (String.eqb c) land_blocks_columns))
             ["property_id"; "name"; "description"; "total_plots"] with
  | Some missing => raise (undefined_column missing)
  | None =>
      block_name <- eval (assign_varchar 100 name) ;;
      eval total_plots ;;;
      insert_land_block property_id block_name description now
  end.

(** The body of the inner loop: one plot of the input; [RETURNING *] gives
    the row of the new key. *)
Definition bulk_insert_plot (new_block_id : uuid) (now : timestamptz)
    (plots_result : option jsonb) (plot_item : jsonb) : plpgsql (option jsonb) :=
  plot_number <- eval (assign_varchar 50 (jsonb_get_text (Some plot_item) "plot_number")) ;;
  plot_area <- eval (cast_numeric (jsonb_get_text (Some plot_item) "area")) ;;
  plot_price <- eval (assign_varchar 255 (jsonb_get_text (Some plot_item) "price")) ;;
  plot_status <-
    eval (assign_varchar 20
            (Some (coalesce (jsonb_get_text (Some plot_item) "status") "available"))) ;;
  new_plot_id <-
    insert_land_plot (Some new_block_id) plot_number plot_area plot_price plot_status
      (jsonb_get_text (Some plot_item) "description")
      now ;;
  db <- get_database ;;
  ret (jsonb_concat plots_result
         (option_map land_plot_to_jsonb
            (find (fun p => N.eqb (LandPlots.id p) new_plot_id) (land_plots db)))).

(** [block_item ? 'plots' AND jsonb_array_length(block_item->'plots') > 0];
    the length is taken only of a value that has the key. *)
Definition has_plots (block_item : jsonb) : result bool :=
  if jsonb_exists block_item "plots" then
    result_bind (jsonb_array_length (jsonb_get (Some block_item) "plots"))
      (fun len => Ok (match len with Some z => (0 <? z)%Z | None => false end))
  else Ok false.

(** The body of the outer loop: one block of the input and its plots. *)
Definition bulk_insert_block (input_property_id : uuid) (now : timestamptz)
    (result : option jsonb) (block_item : jsonb) : plpgsql (option jsonb) :=
  new_block_id <-
    insert_land_block_with_total_plots (Some input_property_id)
      (jsonb_get_text (Some block_item) "name")
      (jsonb_get_text (Some block_item) "description")
      (result_bind (cast_integer (jsonb_get_text (Some block_item) "total_plots"))
         (fun z => Ok (coalesce z 0%Z)))
      now ;;
  with_plots <- eval (has_plots block_item) ;;
  plots_result <-
    (if with_plots then
       plot_rows <- eval (jsonb_array_elements (jsonb_get (Some block_item) "plots")) ;;
       for_each_with plot_rows (bulk_insert_plot new_block_id now) (Some (JArr []))
     else ret (Some (JArr []))) ;;
  db <- get_database ;;
  ret (jsonb_concat result
         (option_map
            (fun blocks =>
               JObj (land_block_members blocks
                     ++ [("plots", coalesce plots_result JNull)])%list)
            (find (fun b => N.eqb (LandBlocks.id b) new_block_id) (land_blocks db)))).

Definition bulk_insert_blocks_and_plots (input_property_id : uuid)
    (input_blocks_data : option jsonb) (now : timestamptz) : plpgsql (option jsonb) :=
  block_rows <- eval (jsonb_array_elements input_blocks_data) ;;
  for_each_with block_rows (bulk_insert_block input_property_id now) (Some (JArr [])).

(** ** Price formats: [validate_plot_price] *)

(** [\s] of the regular expressions: blank, tab, line feed, vertical tab,
    form feed, carriage return. *)
Definition is_space (c : ascii) : bool :=
  let n := N_of_ascii c in ((n =? 32) || ((9 <=? n) && (n <=? 13)))%N.

Fixpoint drop_while (f : ascii -> bool) (s : string) : string :=
  match s with
  | String c s' => if f c then drop_while f s' else s
  | EmptyString => EmptyString
  end.

(** What follows a leading match of [\d+(\.\d+)?]: one or more digits and,
    when a point comes next, the point and one or more digits. A point
    without digits after it can be matched by nothing that may follow the
    number in the two patterns of the function, so no match is reported on
    it. *)
Definition after_number (s : string) : option string :=
  let rest := drop_while is_digit s in
  if (String.length rest =? String.length s)%nat then None
  else
    match rest with
    | String c fraction =>
        if Ascii.eqb c "." then
          let rest' := drop_while is_digit fraction in
          if (String.length rest' =? String.length fraction)%nat then None
          else Some rest'
        else Some rest
    | EmptyString => Some rest
    end.

(** [s ~ '^\d+(\.\d+)?$']. *)
Definition matches_numeric (s : string) : bool :=
  match after_number s with
  | Some rest => (String.length rest =? 0)%nat
  | None => false
  end.

Definition price_units : list string :=
  ["lakh"; "lakhs"; "crore"; "crores"; "cr"; "l"; "k"; "thousand"; "thousands";
   "million"; "millions"; "billion"; "billions"; "m"; "b"].

(** [s ~* '^[$]?\d+(\.\d+)?\s*(lakh|...|b)?$']: an optional dollar sign, a
    number, white space and nothing more, or one of the units in any
    case. *)
Definition matches_amount (s : string) : bool :=
  let body :=
    match s with
    | String c r => if Ascii.eqb c "$" then r else s
    | EmptyString => s
    end in
  match after_number body with
  | Some rest =>
      let unit := lower (drop_while is_space rest) in
      (String.length unit =? 0)%nat || existsb (String.eqb unit) price_units
  | None => false
  end.

(** [trim(s) = '']: nothing but blanks. *)
Definition blank (s : string) : bool :=
  (String.length (drop_while (fun c => Ascii.eqb c " ") s) =? 0)%nat.

Definition validate_plot_price (price_input : option string) : bool :=
  match price_input with
  | None => true
  | Some s =>
      if blank s then true
      else if matches_numeric s then true
      else if matches_amount s then true
      else false
  end.

Fixpoint take_while (f : ascii -> bool) (s : string) : string :=
  match s with
  | String c s' => if f c then String c (take_while f s') else EmptyString
  | EmptyString => EmptyString
  end.

(** Where the scan of [drop_while] stops: at the end of the text or at a
    character that fails the test. *)
Definition stops (f : ascii -> bool) (s : string) : Prop :=
  match s with
  | String c _ => f c = false
  | EmptyString => True
  end.

Fixpoint all_spaces (s : string) : bool :=
  match s with
  | EmptyString => true
  | String c s' => is_space c && all_spaces s'
  end.

(** The texts the second pattern describes, part by part: an optional
    dollar sign, digits, optionally a point and digits, white space, and
    optionally a unit in any case. *)
Definition amount_format (s : string) : Prop :=
  exists dollar whole fraction spaces unit,
    s = dollar ++ whole ++ fraction ++ spaces ++ unit
    /\ (dollar = EmptyString \/ dollar = "$")
    /\ whole <> EmptyString /\ all_digits whole = true
    /\ (fraction = EmptyString
        \/ exists decimals,
             fraction = String "." decimals
             /\ decimals <> EmptyString /\ all_digits decimals = true)
    /\ all_spaces spaces = true
    /\ (unit = EmptyString \/ In (lower unit) price_units).

(** The statuses the statistics have a counter for. *)
Definition counted_status (s : option string) : bool :=
  existsb (fun wanted => sql_eq String.eqb s (Some wanted))
          ["available"; "booked"; "sold"; "reserved"].

(** ** More invariants and views *)

(** [idx_land_blocks_unique_name_per_property]: within a property no two
    blocks have the same name up to case. *)
Definition unique_block_names (db : database) : Prop :=
  forall p, NoDup (map (fun b => lower (LandBlocks.name b)) (blocks_of_property p db)).

(** The primary key of [land_blocks]. *)
Definition unique_block_keys (db : database) : Prop :=
  NoDup (map LandBlocks.id (land_blocks db)).

(** The keys of the configurations were drawn from the supply. *)
Definition configuration_keys_below_supply (db : database) : Prop :=
  forall c, In c (property_land_configurations db) ->
            (Configurations.id c < uuid_supply db)%N.

(** The blocks of a property, each with its plots, as rows. *)
Definition inventory_of (p : uuid) (db : database)
  : list (LandBlocks.row * list LandPlots.row) :=
  map (fun b => (b, plots_in_block (LandBlocks.id b) db)) (blocks_of_property p db).

(** The plots of the blocks of a property. *)
Definition plots_of_property (property_id : option uuid) (db : database)
  : list LandPlots.row :=
  filter
    (fun p =>
       existsb
         (fun b => sql_eq N.eqb (LandPlots.block_id p) (Some (LandBlocks.id b)))
         (filter (fun b => sql_eq N.eqb (LandBlocks.property_id b) property_id)
                 (land_blocks db)))
    (land_plots db).

(** The history rows that reference none of the plots [gone]. *)
Definition history_without (gone : list LandPlots.row) (db : database)
  : list StatusHistory.row :=
  filter
    (fun h =>
       negb (existsb
               (fun lp => sql_eq N.eqb (StatusHistory.plot_id h) (Some (LandPlots.id lp)))
               gone))
    (land_plot_status_history db).

(** The foreign key of [land_plots]: the block of a plot exists. *)
Definition plots_have_blocks (db : database) : Prop :=
  forall x, In x (land_plots db) ->
            references (map LandBlocks.id (land_blocks db)) (LandPlots.block_id x) = true.

(** [idx_land_plots_unique_plot_per_block]: within a block no two plots
    have the same number up to case. *)
Definition unique_plot_numbers (db : database) : Prop :=
  forall k, NoDup (map (fun x => lower (LandPlots.plot_number x)) (plots_in_block k db)).

(** [check_plot_area_positive] and [check_plot_status_valid]. *)
Definition plots_pass_checks (db : database) : Prop :=
  forall x, In x (land_plots db) ->
            numeric_positive (LandPlots.area x) = true
            /\ valid_status (LandPlots.status x) = true.

(** The widths of the columns of the blocks and the plots: every text
    that is stored fits its column. *)
Definition texts_fit_columns (db : database) : Prop :=
  (forall b, In b (land_blocks db) -> fits 100 (Some (LandBlocks.name b)) = true)
  /\ (forall x, In x (land_plots db) -> plot_fits (live_plot_attributes x) = true).

(** The constraints of the schema on blocks and plots. *)
Definition inventory_consistent (db : database) : Prop :=
  unique_block_names db /\ unique_block_keys db /\ keys_below_supply db
  /\ plots_have_blocks db /\ unique_plot_numbers db /\ plots_pass_checks db.

Definition consistent (db : database) : Prop :=
  at_most_one_active db /\ inventory_consistent db.

(** A block of statements that keeps the constraints on blocks and plots
    when it returns. *)
Definition keeps_inventory {A} (m : plpgsql A) : Prop :=
  forall db a db' n, inventory_consistent db -> m db = Done a db' n ->
                     inventory_consistent db'.

(** A block of statements that keeps the texts within the widths of
    their columns when it returns. *)
Definition keeps_widths {A} (m : plpgsql A) : Prop :=
  forall db a db' n, texts_fit_columns db -> m db = Done a db' n ->
                     texts_fit_columns db'.

(** ** Sequences of calls *)

(** The functions of the schema that write to the blocks, the plots or the
    configurations, each called in a statement of its own. *)
Inductive call : Type :=
| call_save (property_id : uuid) (name : string)
| call_apply (configuration_id : uuid)
| call_duplicate (source : uuid) (new_name : option string)
| call_delete_block (block : uuid)
| call_bulk_insert (property_id : uuid) (blocks : option jsonb).

Definition run_call (arrival : scan_order) (db : database)
    (step : timestamptz * call) : database :=
  match snd step with
  | call_save p name =>
      state_after
        (execute (create_property_land_configuration arrival p name (fst step)) db)
  | call_apply c =>
      state_after (execute (apply_property_land_configuration c (fst step)) db)
  | call_duplicate source new_name =>
      state_after
        (execute (duplicate_property_land_configuration source new_name (fst step)) db)
  | call_delete_block block =>
      state_after (execute (delete_land_block_safely block) db)
  | call_bulk_insert p blocks =>
      state_after (execute (bulk_insert_blocks_and_plots p blocks (fst step)) db)
  end.

Definition run_calls (arrival : scan_order) (steps : list (timestamptz * call))
    (db : database) : database :=
  fold_left (run_call arrival) steps db.

(** ** More sample data *)

Module Estate.

Definition block_z : LandBlocks.row :=
  {| LandBlocks.id := 14; LandBlocks.property_id := Some 3%N;
     LandBlocks.name := "Block Z"; LandBlocks.description := Some "North";
     LandBlocks.created_at := 100; LandBlocks.updated_at := 100 |}.

Definition plot_z : LandPlots.row :=
  {| LandPlots.id := 15; LandPlots.block_id := Some 14%N;
     LandPlots.plot_number := "Z001"; LandPlots.area := numeric_of_Z 900;
     LandPlots.price := "1.2 crore"; LandPlots.status := Some "sold";
     LandPlots.description := None;
     LandPlots.created_at := 100; LandPlots.updated_at := 100 |}.

(** The sample inventory with a second property that has one block of one
    plot. *)
Definition two_properties : database :=
  {| properties := [1%N; 3%N]; users := [2%N];
     land_blocks := [Sample.block_a; block_z];
     land_plots :=
       [Sample.plot 11 "P001" 1200 "available"; Sample.plot 12 "P002" 1500 "booked"; plot_z];
     property_land_configurations :=
       [Sample.configuration 20 Sample.layout true;
        Sample.configuration 21 Sample.layout false];
     land_plot_status_history_structure := history_ready;
     land_plot_status_history := [Sample.history_entry];
     property_plots := [Sample.booking_plot];
     uuid_supply := 50 |}.

End Estate.

(** * Proofs *)

(** ** Facts about text and digits *)

Lemma append_empty (s : string) : s ++ EmptyString = s.
Proof. induction s as [|c s IH]; simpl; [reflexivity | now rewrite IH]. Qed.

Lemma length_append (s t : string) :
  String.length (s ++ t) = (String.length s + String.length t)%nat.
Proof. induction s as [|c s IH]; simpl; [reflexivity | now rewrite IH]. Qed.

Lemma take_drop (n : nat) (s : string) : string_take n s ++ string_drop n s = s.
Proof.
  revert s; induction n as [|n IH]; intros [|c s]; simpl; try reflexivity.
  now rewrite IH.
Qed.

Lemma length_take (n : nat) (s : string) :
  (n <= String.length s)%nat -> String.length (string_take n s) = n.
Proof.
  revert s; induction n as [|n IH]; intros [|c s]; simpl; intro H; try lia.
  now rewrite IH by lia.
Qed.

Lemma take_all (s : string) : string_take (String.length s) s = s.
Proof. induction s as [|c s IH]; simpl; [reflexivity | now rewrite IH]. Qed.

Lemma all_digits_append (s t : string) :
  all_digits (s ++ t) = all_digits s && all_digits t.
Proof.
  induction s as [|c s IH]; simpl; [reflexivity |].
  now rewrite IH, andb_assoc.
Qed.

Lemma all_digits_zeros (n : nat) : all_digits (zeros n) = true.
Proof. induction n; simpl; auto. Qed.

Lemma length_zeros (n : nat) : String.length (zeros n) = n.
Proof. induction n; simpl; auto. Qed.

Lemma all_digits_string_of_uint (d : Decimal.uint) :
  all_digits (NilEmpty.string_of_uint d) = true.
Proof. induction d; simpl; auto. Qed.

Lemma all_digits_decimal (n : N) :
  all_digits (NilZero.string_of_uint (N.to_uint n)) = true.
Proof.
  unfold NilZero.string_of_uint.
  destruct (N.to_uint n) eqn:E; try reflexivity;
    rewrite <- E; apply all_digits_string_of_uint.
Qed.

Lemma to_uint_not_nil (n : N) : N.to_uint n <> Decimal.Nil.
Proof.
  intro H. 
  destruct n as [|p]; [discriminate|].
  simpl in H. unfold Pos.to_uint in H.
  pose proof (DecimalPos.Unsigned.to_uint_nonnil p). contradiction.
Qed.

Lemma digits_value_decimal (n : N) :
  digits_value (NilZero.string_of_uint (N.to_uint n)) = Some n.
Proof.
  unfold digits_value.
  rewrite NilZero.usu by apply to_uint_not_nil.
  now rewrite DecimalN.Unsigned.of_to.
Qed.
Lemma decimal_not_empty (n : N) :
  NilZero.string_of_uint (N.to_uint n) <> EmptyString.
Proof.
  intro H. pose proof (digits_value_decimal n) as D. rewrite H in D. discriminate.
Qed.

Lemma digits_value_zero (s : string) :
  s <> EmptyString -> digits_value (String "0" s) = digits_value s.
Proof.
  intro H. unfold digits_value. destruct s as [|c s]; [contradiction|].
  unfold NilZero.uint_of_string.
  change (NilEmpty.uint_of_string (String "0" (String c s)))
    with (uint_of_char "0" (NilEmpty.uint_of_string (String c s))).
  destruct (NilEmpty.uint_of_string (String c s)); reflexivity.
Qed.

Lemma digits_value_zeros (k : nat) (s : string) :
  s <> EmptyString -> digits_value (zeros k ++ s) = digits_value s.
Proof.
  intro H. induction k as [|k IH]; simpl; [reflexivity|].
  rewrite digits_value_zero; [exact IH|].
  destruct k; simpl; [exact H | discriminate].
Qed.

Lemma digit_is_no_point (c : ascii) : is_digit c = true -> Ascii.eqb c "." = false.
Proof.
  intro H. destruct (Ascii.eqb_spec c "."); [subst; discriminate | reflexivity].
Qed.

Lemma digit_is_no_sign (c : ascii) :
  is_digit c = true -> Ascii.eqb c "-" = false /\ Ascii.eqb c "+" = false.
Proof.
  intro H. split.
  - destruct (Ascii.eqb_spec c "-"); [subst; discriminate | reflexivity].
  - destruct (Ascii.eqb_spec c "+"); [subst; discriminate | reflexivity].
Qed.

Lemma split_at_point_digits (s : string) :
  all_digits s = true -> split_at_point s = (s, None).
Proof.
  induction s as [|c s IH]; simpl; [reflexivity|].
  intro H. apply andb_prop in H as [Hc Hs].
  rewrite (digit_is_no_point c Hc), (IH Hs). reflexivity.
Qed.

Lemma split_at_point_fraction (s t : string) :
  all_digits s = true -> split_at_point (s ++ String "." t) = (s, Some t).
Proof.
  induction s as [|c s IH]; simpl; [reflexivity|].
  intro H. apply andb_prop in H as [Hc Hs].
  rewrite (digit_is_no_point c Hc), (IH Hs). reflexivity.
Qed.

Lemma length_drop (n : nat) (s : string) :
  String.length (string_drop n s) = (String.length s - n)%nat.
Proof.
  revert s; induction n as [|n IH]; intros [|c s]; simpl; try reflexivity.
  apply IH.
Qed.

(** Reading back what [numeric_out] prints for a magnitude. *)
Lemma unsigned_numeric_in_out (a : N) (sc : nat) :
  let digits := NilZero.string_of_uint (N.to_uint a) in
  let padded := zeros (S sc - String.length digits) ++ digits in
  let int_len := (String.length padded - sc)%nat in
  unsigned_numeric_in
    (string_take int_len padded
     ++ (if (sc =? 0)%nat then EmptyString else String "." (string_drop int_len padded)))
  = Some (a, sc)
  /\ exists c r, string_take int_len padded = String c r /\ is_digit c = true.
Proof.
  intros digits padded int_len.
  assert (Hd : all_digits padded = true).
  { unfold padded. rewrite all_digits_append, all_digits_zeros. apply all_digits_decimal. }
  assert (Hv : digits_value padded = Some a).
  { unfold padded. rewrite digits_value_zeros by apply decimal_not_empty.
    apply digits_value_decimal. }
  assert (Hl : (S sc <= String.length padded)%nat).
  { unfold padded. rewrite length_append, length_zeros. lia. }
  assert (Hsplit : string_take int_len padded ++ string_drop int_len padded = padded)
    by apply take_drop.
  assert (Hlt : String.length (string_take int_len padded) = int_len)
    by (apply length_take; unfold int_len; lia).
  assert (Ht : all_digits (string_take int_len padded) = true
               /\ all_digits (string_drop int_len padded) = true).
  { rewrite <- Hsplit, all_digits_append in Hd. now apply andb_prop in Hd. }
  destruct Ht as [Ht Hr].
  split.
  - unfold unsigned_numeric_in.
    destruct (Nat.eqb_spec sc 0) as [Hz|Hz].
    + rewrite append_empty, (split_at_point_digits _ Ht). simpl coalesce.
      rewrite Hlt. replace (int_len =? 0)%nat with false
        by (symmetry; apply Nat.eqb_neq; unfold int_len; lia).
      rewrite append_empty.
      replace int_len with (String.length padded) by (unfold int_len; lia).
      rewrite take_all, Hv. simpl. now subst sc.
    + rewrite (split_at_point_fraction _ _ Ht). simpl coalesce.
      rewrite Hlt. replace (int_len =? 0)%nat with false
        by (symmetry; apply Nat.eqb_neq; unfold int_len; lia).
      rewrite Hsplit, Hv, length_drop. f_equal. f_equal. unfold int_len. lia.
  - destruct (string_take int_len padded) as [|c r] eqn:E.
    + simpl in Hlt. unfold int_len in Hlt. lia.
    + exists c, r. split; [reflexivity|]. simpl in Ht. now apply andb_prop in Ht.
Qed.

(** The cast reads back what the output function prints. *)
Lemma numeric_in_out (x : numeric) : numeric_in (numeric_out x) = Ok x.
Proof.
  destruct x as [u sc]. unfold numeric_out. cbn [unscaled scale].
  destruct (unsigned_numeric_in_out (Z.abs_N u) sc) as [Hin [c [r [Hc Hdig]]]].
  cbv zeta in Hin, Hc.
  set (digits := NilZero.string_of_uint (N.to_uint (Z.abs_N u))) in *.
  set (padded := zeros (S sc - String.length digits) ++ digits) in *.
  set (int_len := (String.length padded - sc)%nat) in *.
  unfold numeric_in.
  destruct (Z.ltb_spec u 0) as [Hneg|Hpos].
  - change ("-" ++ ?t) with (String "-" t). simpl.
    rewrite Hin. f_equal. f_equal. rewrite N2Z.inj_abs_N. lia.
  - change (EmptyString ++ ?t) with t.
    rewrite Hc in Hin |- *. simpl append in Hin |- *.
    destruct (digit_is_no_sign c Hdig) as [H1 H2]. rewrite H1, H2.
    rewrite Hin. f_equal. f_equal. rewrite N2Z.inj_abs_N. lia.
Qed.

(** ** Facts about the monad *)

Lemma bind_done {A B} (m : plpgsql A) (k : A -> plpgsql B) db b db2 n :
  bind m k db = Done b db2 n ->
  exists a db1 n1 n2,
    m db = Done a db1 n1 /\ k a db1 = Done b db2 n2 /\ n = (n1 ++ n2)%list.
Proof.
  unfold bind. destruct (m db) as [a db1 n1|e db1 n1]; [|discriminate].
  destruct (k a db1) as [b' db2' n2|e db2' n2] eqn:K; [|discriminate].
  intros [= <- <- <-]. now exists a, db1, n1, n2.
Qed.

Lemma eval_done {A} (r : result A) db a db' n :
  eval r db = Done a db' n -> r = Ok a /\ db' = db /\ n = [].
Proof.
  destruct r as [x|e]; simpl; [|discriminate].
  unfold ret. now intros [= <- <- <-].
Qed.

Lemma preserves_ret {A X} (part : database -> X) (a : A) : preserves part (ret a).
Proof. now intros db. Qed.

Lemma preserves_raise {A X} (part : database -> X) (e : sqlerror) :
  preserves part (@raise A e).
Proof. now intros db. Qed.

Lemma preserves_eval {A X} (part : database -> X) (r : result A) :
  preserves part (eval r).
Proof. destruct r; now intros db. Qed.

Lemma preserves_get {X} (part : database -> X) : preserves part get_database.
Proof. now intros db. Qed.

Lemma preserves_bind {A B X} (part : database -> X) (m : plpgsql A) (k : A -> plpgsql B) :
  preserves part m -> (forall a, preserves part (k a)) -> preserves part (bind m k).
Proof.
  intros Hm Hk db. unfold bind. specialize (Hm db).
  destruct (m db) as [a db1 n1|e db1 n1]; simpl in *; [|exact Hm].
  specialize (Hk a db1).
  destruct (k a db1) as [b db2 n2|e db2 n2]; simpl in *; congruence.
Qed.

Lemma preserves_for_each {A X} (part : database -> X) (rows : list A)
    (body : A -> plpgsql unit) :
  (forall x, preserves part (body x)) -> preserves part (for_each rows body).
Proof.
  intro H. induction rows as [|x rest IH]; simpl.
  - apply preserves_ret.
  - apply preserves_bind; [apply H | intros _; exact IH].
Qed.

Lemma silent_bind {A B} (m : plpgsql A) (k : A -> plpgsql B) :
  silent m -> (forall a, silent (k a)) -> silent (bind m k).
Proof.
  intros Hm Hk db. unfold bind. specialize (Hm db).
  destruct (m db) as [a db1 n1|e db1 n1]; simpl in *; [|exact Hm].
  specialize (Hk a db1). subst n1.
  destruct (k a db1) as [b db2 n2|e db2 n2]; simpl in *; exact Hk.
Qed.

Lemma silent_for_each {A} (rows : list A) (body : A -> plpgsql unit) :
  (forall x, silent (body x)) -> silent (for_each rows body).
Proof.
  intro H. induction rows as [|x rest IH]; simpl.
  - now intros db.
  - apply silent_bind; [apply H | intros _; exact IH].
Qed.

Lemma silent_eval {A} (r : result A) : silent (eval r).
Proof. destruct r; now intros db. Qed.

Lemma silent_ret {A} (a : A) : silent (ret a).
Proof. now intros db. Qed.

Lemma silent_raise {A} (e : sqlerror) : silent (@raise A e).
Proof. now intros db. Qed.

Lemma silent_get : silent get_database.
Proof. now intros db. Qed.

(** ** Frames of the row operations *)

Ltac run_rows :=
  unfold insert_land_block, insert_land_plot, insert_configuration,
    delete_land_plots, delete_land_blocks, bind, uuid_generate_v4,
    get_database, set_database, raise, ret; simpl.

Lemma insert_land_block_configurations pid nm descr now :
  preserves property_land_configurations (insert_land_block pid nm descr now).
Proof.
  intros db. run_rows. destruct nm; simpl; [|reflexivity].
  destruct (existsb _ _); simpl; [reflexivity|].
  destruct (references _ _); reflexivity.
Qed.

Lemma insert_land_plot_configurations b num a pr st descr now :
  preserves property_land_configurations (insert_land_plot b num a pr st descr now).
Proof.
  intros db. run_rows.
  destruct num, a, pr; simpl; try reflexivity.
  destruct (numeric_positive _); simpl; [|reflexivity].
  destruct (valid_status _); simpl; [|reflexivity].
  destruct (existsb _ _); simpl; [reflexivity|].
  destruct (existsb _ _); simpl; [reflexivity|].
  destruct (references _ _); reflexivity.
Qed.

Lemma delete_land_plots_configurations doomed :
  preserves property_land_configurations (delete_land_plots doomed).
Proof. now intros db. Qed.

Lemma delete_land_blocks_configurations doomed :
  preserves property_land_configurations (delete_land_blocks doomed).
Proof. now intros db. Qed.

Lemma insert_land_block_silent pid nm descr now :
  silent (insert_land_block pid nm descr now).
Proof.
  intros db. run_rows. destruct nm; simpl; [|reflexivity].
  destruct (existsb _ _); simpl; [reflexivity|].
  destruct (references _ _); reflexivity.
Qed.

Lemma insert_land_plot_silent b num a pr st descr now :
  silent (insert_land_plot b num a pr st descr now).
Proof.
  intros db. run_rows.
  destruct num, a, pr; simpl; try reflexivity.
  destruct (numeric_positive _); simpl; [|reflexivity].
  destruct (valid_status _); simpl; [|reflexivity].
  destruct (existsb _ _); simpl; [reflexivity|].
  destruct (existsb _ _); simpl; [reflexivity|].
  destruct (references _ _); reflexivity.
Qed.

Lemma delete_land_plots_silent doomed : silent (delete_land_plots doomed).
Proof. now intros db. Qed.

Lemma delete_land_blocks_silent doomed : silent (delete_land_blocks doomed).
Proof. now intros db. Qed.

Create HintDb frames.
#[local] Hint Resolve preserves_ret preserves_raise preserves_eval preserves_get
  insert_land_block_configurations insert_land_plot_configurations
  delete_land_plots_configurations delete_land_blocks_configurations : frames.
#[local] Hint Resolve silent_ret silent_raise silent_eval silent_get
  insert_land_block_silent insert_land_plot_silent
  delete_land_plots_silent delete_land_blocks_silent : frames.

(** Splits a block of statements into its steps and closes each step with
    the frame lemma of the row operation it calls. *)
Ltac frame :=
  repeat first
    [ solve [auto with frames]
    | apply preserves_bind; [|intro]
    | apply preserves_for_each; intro
    | apply silent_bind; [|intro]
    | apply silent_for_each; intro ].

Lemma apply_block_configurations pid now block :
  preserves property_land_configurations (apply_block pid now block).
Proof. unfold apply_block, apply_plot. frame. Qed.

Lemma apply_block_silent pid now block : silent (apply_block pid now block).
Proof. unfold apply_block, apply_plot. frame. Qed.

Lemma clear_configurations pid :
  preserves property_land_configurations (clear_blocks_and_plots pid).
Proof. unfold clear_blocks_and_plots. frame. Qed.

Lemma clear_silent pid : silent (clear_blocks_and_plots pid).
Proof. unfold clear_blocks_and_plots. frame. Qed.

#[local] Hint Resolve apply_block_configurations apply_block_silent
  clear_configurations clear_silent : frames.

(** The apply function never writes to the configurations table. *)
Lemma apply_configurations c now :
  preserves property_land_configurations (apply_property_land_configuration c now).
Proof.
  unfold apply_property_land_configuration.
  apply preserves_bind; [auto with frames|]. intros db0.
  destruct (find _ _) as [cfg|]; frame.
Qed.

(** The apply function sends no notice. *)
Lemma apply_silent c now : silent (apply_property_land_configuration c now).
Proof.
  unfold apply_property_land_configuration.
  apply silent_bind; [auto with frames|]. intros db0.
  destruct (find _ _) as [cfg|]; frame.
Qed.

(** ** Configurations: not found, rollback, the single active row *)

Lemma execute_state {A} (m : plpgsql A) (db : database) :
  state_after (execute m db) = db \/ state_after (execute m db) = reached (m db).
Proof. unfold execute. destruct (m db); [right | left]; reflexivity. Qed.

Lemma find_none_inactive (c : uuid) (l : list Configurations.row) :
  (forall cfg, In cfg l -> Configurations.id cfg = c -> Configurations.active cfg = false) ->
  find (fun r => N.eqb (Configurations.id r) c && Configurations.active r) l = None.
Proof.
  intro H. induction l as [|r l IH]; simpl; [reflexivity|].
  destruct (N.eqb_spec (Configurations.id r) c) as [E|E]; simpl.
  - rewrite (H r (or_introl eq_refl) E). apply IH. intros cfg Hin. apply H. now right.
  - apply IH. intros cfg Hin. apply H. now right.
Qed.

(** A loop that reaches a failing element stops there with its error. *)
Lemma for_each_raised {A} (body : A -> plpgsql unit) (processed rest : list A)
    (failing : A) :
  forall db db_k n_k e db_f n_f,
    for_each processed body db = Done tt db_k n_k ->
    body failing db_k = Raised e db_f n_f ->
    for_each (processed ++ failing :: rest) body db = Raised e db_f (n_k ++ n_f)%list.
Proof.
  induction processed as [|x processed IH]; intros db db_k n_k e db_f n_f Hdone Hfail.
  - simpl in Hdone. injection Hdone as <- <-. simpl. unfold bind. now rewrite Hfail.
  - simpl in Hdone. apply bind_done in Hdone as [[] [db1 [n1 [n2 [Hx [Hrest ->]]]]]].
    simpl. unfold bind at 1. rewrite Hx.
    rewrite (IH _ _ _ _ _ _ Hrest Hfail). now rewrite List.app_assoc.
Qed.

(** C1. [apply_property_land_configuration] raises "Configuration not found
    or not active" when no row with the given key is active, which covers
    the missing row. Whenever the call raises, the statement leaves the
    database, and so every block and plot that existed before, exactly as
    it was. And a failure at any block of the payload, after the old rows
    have been cleared and earlier blocks written, does make the call
    raise: nothing in the function catches it. *)
Theorem apply_not_found_or_rolled_back (c : uuid) (now : timestamptz) (db : database) :
  ((forall cfg, In cfg (property_land_configurations db) ->
                Configurations.id cfg = c -> Configurations.active cfg = false) ->
   execute (apply_property_land_configuration c now) db
   = (db, [], Err (raise_exception "Configuration not found or not active")))
  /\ (forall e,
        result_of (execute (apply_property_land_configuration c now) db) = Err e ->
        execute (apply_property_land_configuration c now) db = (db, [], Err e)
        /\ land_blocks (state_after (execute (apply_property_land_configuration c now) db))
           = land_blocks db
        /\ land_plots (state_after (execute (apply_property_land_configuration c now) db))
           = land_plots db)
  /\ (forall cfg processed failing rest db_k n_k e db_f n_f,
        find (fun r => N.eqb (Configurations.id r) c && Configurations.active r)
             (property_land_configurations db) = Some cfg ->
        jsonb_array_elements (Some (Configurations.blocks_data cfg))
        = Ok (processed ++ failing :: rest)%list ->
        for_each processed (apply_block (Configurations.property_id cfg) now)
          (reached (clear_blocks_and_plots (Configurations.property_id cfg) db))
        = Done tt db_k n_k ->
        apply_block (Configurations.property_id cfg) now failing db_k
        = Raised e db_f n_f ->
        execute (apply_property_land_configuration c now) db = (db, [], Err e)).
Proof.
  assert (Hrollback : forall e,
            result_of (execute (apply_property_land_configuration c now) db) = Err e ->
            execute (apply_property_land_configuration c now) db = (db, [], Err e)).
  { intros e. pose proof (apply_silent c now db) as Hs.
    unfold execute, result_of.
    destruct (apply_property_land_configuration c now db) as [a db' n|e' db' n]; simpl.
    - discriminate.
    - simpl in Hs. subst n. now intros [= <-]. }
  split; [|split].
  - intro H. unfold execute, apply_property_land_configuration, bind, get_database.
    rewrite (find_none_inactive c _ H). reflexivity.
  - intros e He. rewrite (Hrollback e He). repeat split.
  - intros cfg processed failing rest db_k n_k e db_f n_f F Hrows Hdone Hfail.
    apply Hrollback.
    unfold execute, result_of, apply_property_land_configuration.
    unfold bind at 1. unfold get_database at 1. rewrite F, Hrows.
    unfold bind at 1.
    destruct (clear_blocks_and_plots (Configurations.property_id cfg) db)
      as [[] db_c n_c|e_c db_c n_c] eqn:C.
    + simpl in Hdone. unfold eval, ret, bind.
      rewrite (for_each_raised _ _ _ _ _ _ _ _ _ _ Hdone Hfail). reflexivity.
    + exfalso. revert C.
      unfold clear_blocks_and_plots, delete_land_plots, delete_land_blocks,
        get_database, set_database, ret, bind.
      simpl. discriminate.
Qed.

(** The inactive configuration 21 is refused; the clashing layout fails at
    its second plot, after the old rows are gone and a block and a plot
    have been written, and none of that shows. *)
Lemma apply_not_found_or_rolled_back_witness :
  execute (apply_property_land_configuration 21 200) Sample.inventory
  = (Sample.inventory, [], Err (raise_exception "Configuration not found or not active"))
  /\ execute (apply_property_land_configuration 20 200) Sample.inventory_with_clash
     = (Sample.inventory_with_clash, [],
        Err (unique_violation "idx_land_plots_unique_plot_per_block")).
Proof.
  split.
  - apply (proj1 (apply_not_found_or_rolled_back 21 200 Sample.inventory)).
    intros cfg [<-|[<-|[]]]; [discriminate | reflexivity].
  - eapply (proj2 (proj2 (apply_not_found_or_rolled_back 20 200
                            Sample.inventory_with_clash))
              (Sample.configuration 20 Sample.clashing_layout true) [] _ []).
    + reflexivity.
    + reflexivity.
    + reflexivity.
    + vm_compute. reflexivity.
Defined.

(** What the rollback hides: the state the failing apply had reached. *)
Example apply_partial_state :
  map LandBlocks.name
      (land_blocks (reached (apply_property_land_configuration 20 200
                               Sample.inventory_with_clash))) = ["Block B"]
  /\ map LandPlots.plot_number
       (land_plots (reached (apply_property_land_configuration 20 200
                               Sample.inventory_with_clash))) = ["P001"].
Proof. split; reflexivity. Qed.

Lemma same_configurations_same_active (db1 db2 : database) :
  property_land_configurations db1 = property_land_configurations db2 ->
  forall p, active_configurations p db1 = active_configurations p db2.
Proof. intros H p. unfold active_configurations. now rewrite H. Qed.

Lemma execute_apply_configurations (c : uuid) (now : timestamptz) (db : database) :
  property_land_configurations
    (state_after (execute (apply_property_land_configuration c now) db))
  = property_land_configurations db.
Proof.
  destruct (execute_state (apply_property_land_configuration c now) db) as [E|E];
    rewrite E; [reflexivity | apply apply_configurations].
Qed.

Lemma single_element {A} (x : A) (l : list A) :
  In x l -> (List.length l <= 1)%nat -> l = [x].
Proof.
  destruct l as [|y [|z l]]; simpl; intros Hin Hlen.
  - contradiction.
  - destruct Hin as [->|[]]. reflexivity.
  - lia.
Qed.

(** C9, as the code has it. [apply_property_land_configuration] writes no
    configuration row. It runs only for a configuration that is already
    active, so after a successful apply that configuration is still active,
    and with at most one active configuration per property it is the only
    active one of its property. *)
Theorem apply_keeps_active_flags (c : uuid) (now : timestamptz) (db : database) :
  let x := execute (apply_property_land_configuration c now) db in
  property_land_configurations (state_after x) = property_land_configurations db
  /\ (forall r, result_of x = Ok r ->
        exists cfg,
          In cfg (property_land_configurations (state_after x))
          /\ Configurations.id cfg = c
          /\ Configurations.active cfg = true
          /\ (at_most_one_active db ->
              forall p, Configurations.property_id cfg = Some p ->
                        active_configurations p (state_after x) = [cfg])).
Proof.
  cbv zeta. split; [apply execute_apply_configurations|].
  intros r Hr.
  pose proof (execute_apply_configurations c now db) as Hsame.
  unfold execute, result_of in Hr.
  destruct (find (fun r => N.eqb (Configurations.id r) c && Configurations.active r)
                 (property_land_configurations db)) as [cfg|] eqn:F.
  - apply find_some in F as [Hin Hok]. apply andb_prop in Hok as [Hid Hact].
    exists cfg. rewrite Hsame. repeat split; auto.
    + now apply N.eqb_eq.
    + intros Hone p Hp.
      rewrite (same_configurations_same_active _ db Hsame).
      apply single_element; [|apply Hone].
      unfold active_configurations. apply filter_In. split; [exact Hin|].
      rewrite Hact, Hp. simpl. apply N.eqb_refl.
  - exfalso. revert Hr.
    unfold apply_property_land_configuration, bind, get_database. rewrite F.
    simpl. discriminate.
Qed.

Lemma apply_keeps_active_flags_witness :
  exists cfg,
    Configurations.id cfg = 20%N
    /\ active_configurations 1
         (state_after (execute (apply_property_land_configuration 20 200) Sample.inventory))
       = [cfg].
Proof.
  destruct (apply_keeps_active_flags 20 200 Sample.inventory) as [_ H].
  destruct (H true eq_refl) as [cfg [Hin [Hid [_ Hone]]]].
  exists cfg. split; [exact Hid|]. apply Hone.
  - intro p. unfold active_configurations. simpl.
    match goal with |- context [if ?b then _ else _] => destruct b end; simpl; lia.
  - destruct Hin as [<-|[<-|[]]]; [reflexivity | discriminate].
Defined.

(** C9 as stated fails: applying the inactive configuration 21 raises,
    leaves it inactive and leaves configuration 20 active. *)
Lemma apply_does_not_activate :
  let x := execute (apply_property_land_configuration 21 200) Sample.inventory in
  result_of x = Err (raise_exception "Configuration not found or not active")
  /\ map (fun cfg => (Configurations.id cfg, Configurations.is_active cfg))
         (property_land_configurations (state_after x))
     = [(20%N, Some true); (21%N, Some false)]
  /\ ~ (exists cfg, In cfg (property_land_configurations (state_after x))
                    /\ Configurations.id cfg = 21%N
                    /\ Configurations.active cfg = true).
Proof.
  cbv zeta. repeat split.
  intros [cfg [Hin [Hid Hact]]].
  destruct Hin as [<-|[<-|[]]]; discriminate.
Qed.

(** ** Snapshots keep one active configuration per property *)

(** The row written by the snapshot of property [p]. *)
Lemma create_outcome (arrival : scan_order) (p : uuid) (name : string)
    (now : timestamptz) (db : database) :
  let saved := execute (create_property_land_configuration arrival p name now) db in
  (exists e, result_of saved = Err e /\ state_after saved = db)
  \/ (exists stored,
        varchar 100 name = Ok stored
        /\ result_of saved = Ok (uuid_supply db)
        /\ property_land_configurations (state_after saved)
           = (map (fun c => if sql_eq N.eqb (Configurations.property_id c) (Some p)
                               && Configurations.active c
                            then Configurations.deactivate c now else c)
                  (property_land_configurations db)
              ++ [ {| Configurations.id := uuid_supply db;
                      Configurations.property_id := Some p;
                      Configurations.configuration_name := stored;
                      Configurations.blocks_data := current_blocks_json arrival p db;
                      Configurations.is_active := Some true;
                      Configurations.created_at := now;
                      Configurations.updated_at := now |} ])%list
        /\ land_blocks (state_after saved) = land_blocks db
        /\ land_plots (state_after saved) = land_plots db
        /\ notices_of saved = []).
Proof.
  unfold execute, create_property_land_configuration, deactivate_configurations,
    insert_configuration, bind, uuid_generate_v4, get_database, set_database,
    raise, ret, result_of, state_after, notices_of.
  cbn zeta. destruct (varchar 100 name) as [stored|e]; simpl.
  - destruct (existsb _ _); simpl.
    + left. eexists. split; reflexivity.
    + destruct (existsb (N.eqb p) (properties db)); simpl.
      * right. exists stored. repeat split.
      * left. eexists. split; reflexivity.
  - left. eexists. split; reflexivity.
Qed.

Lemma deactivated_none_active (p : uuid) (now : timestamptz) (l : list Configurations.row) :
  filter (fun c => Configurations.active c
                   && sql_eq N.eqb (Configurations.property_id c) (Some p))
         (map (fun c => if sql_eq N.eqb (Configurations.property_id c) (Some p)
                           && Configurations.active c
                        then Configurations.deactivate c now else c) l) = [].
Proof.
  induction l as [|c l IH]; simpl; [reflexivity|].
  destruct (sql_eq N.eqb (Configurations.property_id c) (Some p)) eqn:Ep;
    destruct (Configurations.active c) eqn:Ea; simpl; rewrite ?Ep, ?Ea; simpl; exact IH.
Qed.

Lemma deactivated_others_kept (p q : uuid) (now : timestamptz)
    (l : list Configurations.row) :
  q <> p ->
  filter (fun c => Configurations.active c
                   && sql_eq N.eqb (Configurations.property_id c) (Some q))
         (map (fun c => if sql_eq N.eqb (Configurations.property_id c) (Some p)
                           && Configurations.active c
                        then Configurations.deactivate c now else c) l)
  = filter (fun c => Configurations.active c
                     && sql_eq N.eqb (Configurations.property_id c) (Some q)) l.
Proof.
  intro Hq. induction l as [|c l IH]; simpl; [reflexivity|].
  destruct (sql_eq N.eqb (Configurations.property_id c) (Some p)
            && Configurations.active c) eqn:E.
  - apply andb_prop in E as [Ep Ea]. simpl. rewrite Ea, IH.
    destruct (Configurations.property_id c) as [k|]; simpl in *; [|discriminate].
    apply N.eqb_eq in Ep. subst k.
    destruct (N.eqb_spec p q); [congruence | reflexivity].
  - rewrite IH. reflexivity.
Qed.

Lemma create_keeps_one_active (arrival : scan_order) (p : uuid) (name : string)
    (now : timestamptz) (db : database) :
  at_most_one_active db ->
  at_most_one_active
    (state_after (execute (create_property_land_configuration arrival p name now) db)).
Proof.
  intro H.
  destruct (create_outcome arrival p name now db) as [[e [_ E]]|[stored [_ [_ [E _]]]]].
  - now rewrite E.
  - intro q. unfold active_configurations. rewrite E, filter_app. simpl.
    destruct (N.eqb_spec p q) as [<-|Hpq].
    + rewrite deactivated_none_active. simpl. lia.
    + rewrite deactivated_others_kept by congruence.
      rewrite List.app_nil_r. apply H.
Qed.

Lemma run_operation_keeps_one_active (arrival : scan_order) (db : database)
    (step : timestamptz * operation) :
  at_most_one_active db -> at_most_one_active (run_operation arrival db step).
Proof.
  intro H. destruct step as [now [p name|c]]; unfold run_operation; simpl.
  - now apply create_keeps_one_active.
  - intro q.
    rewrite (same_configurations_same_active _ db (execute_apply_configurations c now db)).
    apply H.
Qed.

(** C2. After any sequence of save and apply calls, a database that had at
    most one active configuration per property still has at most one; and
    a successful save leaves as the active configurations of its property
    exactly the one row it inserted: those that were active have been
    deactivated. *)
Theorem one_active_configuration (arrival : scan_order) (db : database) :
  at_most_one_active db ->
  (forall steps, at_most_one_active (run_operations arrival steps db))
  /\ (forall p name now key,
        result_of (execute (create_property_land_configuration arrival p name now) db)
        = Ok key ->
        exists cfg,
          active_configurations p
            (state_after
               (execute (create_property_land_configuration arrival p name now) db))
          = [cfg]
          /\ Configurations.id cfg = key).
Proof.
  intro H. split.
  - intros steps. revert db H. unfold run_operations.
    induction steps as [|step steps IH]; simpl; intros db H; [exact H|].
    apply IH. now apply run_operation_keeps_one_active.
  - intros p name now key Hk.
    destruct (create_outcome arrival p name now db)
      as [[e [He _]]|[stored [_ [Hr [E _]]]]].
    + rewrite He in Hk. discriminate.
    + rewrite Hr in Hk. injection Hk as <-.
      eexists. split.
      * unfold active_configurations. rewrite E, filter_app, deactivated_none_active.
        simpl. rewrite N.eqb_refl. reflexivity.
      * reflexivity.
Qed.

Lemma one_active_configuration_witness :
  at_most_one_active
    (run_operations Sample.reverse_order
       [(200%N, save_configuration 1 "Phase 2 Layout"); (300%N, apply_configuration 50)]
       Sample.inventory)
  /\ exists cfg,
       active_configurations 1
         (state_after
            (execute (create_property_land_configuration Sample.reverse_order 1
                        "Phase 2 Layout" 200)
               Sample.inventory)) = [cfg]
       /\ Configurations.id cfg = 50%N.
Proof.
  assert (H : at_most_one_active Sample.inventory).
  { intro p. unfold active_configurations. simpl.
    match goal with |- context [if ?b then _ else _] => destruct b end; simpl; lia. }
  split.
  - apply (proj1 (one_active_configuration Sample.reverse_order Sample.inventory H)).
  - apply (proj2 (one_active_configuration Sample.reverse_order Sample.inventory H)).
    reflexivity.
Defined.

(** ** Statistics of a property without plots *)

Lemma left_join_without_plots (blocks : list LandBlocks.row) (plots : list LandPlots.row) :
  (forall b, In b blocks ->
     filter (fun p => sql_eq N.eqb (Some (LandBlocks.id b)) (LandPlots.block_id p)) plots = []) ->
  left_join_plots blocks plots = map (fun b => (b, None)) blocks.
Proof.
  intro H. unfold left_join_plots.
  induction blocks as [|b blocks IH]; cbn [flat_map map]; [reflexivity|].
  rewrite (H b (or_introl eq_refl)). cbn [app]. f_equal.
  apply IH. intros b' Hb'. apply H. now right.
Qed.

Lemma count_null_side {B} (e : LandBlocks.row * option LandPlots.row -> option B)
    (blocks : list LandBlocks.row) :
  (forall b, e (b, None) = None) ->
  count e (map (fun b => (b, None)) blocks) = 0%Z.
Proof.
  intro H. unfold count. induction blocks as [|b blocks IH]; simpl; [reflexivity|].
  rewrite H. simpl. exact IH.
Qed.

Lemma non_null_null_side {B} (e : LandBlocks.row * option LandPlots.row -> option B)
    (blocks : list LandBlocks.row) :
  (forall b, e (b, None) = None) ->
  non_null e (map (fun b => (b, None)) blocks) = [].
Proof.
  intro H. induction blocks as [|b blocks IH]; simpl; [reflexivity|].
  rewrite H. exact IH.
Qed.

(** C10. [get_property_land_statistics] is a total function: it has a
    value, and raises nothing, for every property and database. For a
    property none of whose blocks has a plot, which includes the property
    without blocks, every plot count is zero and the total, average,
    minimum and maximum area are zero; the block count is the number of
    blocks, zero when there is none. *)
Theorem statistics_without_plots (p : uuid) (db : database) :
  (forall b, In b (blocks_of_property p db) -> plots_in_block (LandBlocks.id b) db = []) ->
  let s := get_property_land_statistics p db in
  total_plots s = 0%Z /\ available_plots s = 0%Z /\ booked_plots s = 0%Z
  /\ sold_plots s = 0%Z /\ reserved_plots s = 0%Z
  /\ total_area s = numeric_of_Z 0 /\ average_plot_size s = 0%Q
  /\ min_plot_size s = numeric_of_Z 0 /\ max_plot_size s = numeric_of_Z 0
  /\ total_blocks s
     = Z.of_nat (List.length (nodup N.eq_dec (map LandBlocks.id (blocks_of_property p db))))
  /\ (blocks_of_property p db = [] -> total_blocks s = 0%Z).
Proof.
  intros H s. subst s. unfold get_property_land_statistics.
  fold (blocks_of_property p db).
  rewrite (left_join_without_plots _ _ H).
  cbn [total_plots available_plots booked_plots sold_plots reserved_plots total_area
       average_plot_size min_plot_size max_plot_size total_blocks].
  rewrite !count_null_side by reflexivity.
  unfold avg_numeric.
  rewrite !non_null_null_side by reflexivity.
  rewrite map_map. cbn [fst sum_numeric min_numeric max_numeric coalesce].
  repeat split.
  intros ->. reflexivity.
Qed.

Lemma statistics_without_plots_witness :
  total_blocks (get_property_land_statistics 1 Sample.empty_block) = 1%Z
  /\ total_plots (get_property_land_statistics 1 Sample.empty_block) = 0%Z
  /\ total_area (get_property_land_statistics 1 Sample.empty_block) = numeric_of_Z 0.
Proof.
  assert (H : forall b, In b (blocks_of_property 1 Sample.empty_block) ->
                        plots_in_block (LandBlocks.id b) Sample.empty_block = []).
  { intros b _. reflexivity. }
  pose proof (statistics_without_plots 1 Sample.empty_block H) as S.
  cbv zeta in S.
  destruct S as [S1 [_ [_ [_ [_ [S2 [_ [_ [_ [S3 _]]]]]]]]]].
  split; [rewrite S3; reflexivity | split; [exact S1 | exact S2]].
Defined.

(** The scenario of the specification: one block with a plot of 1200 and a
    plot of 1500. *)
Example statistics_scenario :
  let s := get_property_land_statistics 1 Sample.inventory in
  total_blocks s = 1%Z /\ total_plots s = 2%Z /\ available_plots s = 1%Z
  /\ booked_plots s = 1%Z /\ total_area s = numeric_of_Z 2700
  /\ average_plot_size s = 1350%Q.
Proof. cbv zeta. repeat split. Qed.

(** ** Plot numbering *)

(** C4, at the input where the code departs from it. In a block whose
    highest plot number is P999 the next number is 1000, and
    [LPAD('1000', 3, '0')] keeps its first three characters: the function
    returns P100, not P1000. *)
Theorem next_plot_number_after_999 :
  get_next_plot_number 10 "P" Sample.full_block = Ok "P100"
  /\ get_next_plot_number 10 "P" Sample.full_block <> Ok "P1000".
Proof. split; [reflexivity | discriminate]. Qed.

(** ** Deleting a plot and its history *)

Lemma existsb_all_same (k : uuid) (ids : list uuid) (x : option uuid) :
  ids <> [] -> (forall i, In i ids -> i = k) ->
  existsb (fun i => sql_eq N.eqb x (Some i)) ids = sql_eq N.eqb x (Some k).
Proof.
  intros Hne Hall. induction ids as [|i ids IH]; [contradiction|].
  cbn [existsb]. rewrite (Hall i (or_introl eq_refl)).
  destruct ids as [|j ids].
  - cbn [existsb]. apply orb_false_r.
  - rewrite IH; [apply orb_diag | discriminate | intros; apply Hall; now right].
Qed.

(** C8, as the code has it. Deleting a plot deletes its history rows with
    it: the history that remains is the history of the other plots,
    unchanged and in the same order. *)
Theorem delete_plot_deletes_history (plot_id : uuid) (db : database) :
  (exists lp, In lp (land_plots db) /\ LandPlots.id lp = plot_id) ->
  land_plot_status_history (state_after (execute (delete_land_plot plot_id) db))
  = filter (fun h => negb (sql_eq N.eqb (StatusHistory.plot_id h) (Some plot_id)))
           (land_plot_status_history db).
Proof.
  intros [lp [Hin Hid]].
  unfold execute, delete_land_plot, delete_land_plots, bind, get_database,
    set_database, ret, state_after. simpl.
  apply filter_ext. intro h. f_equal.
  apply existsb_all_same.
  - intro E. apply (f_equal (@List.length _)) in E. rewrite length_map in E. simpl in E.
    apply length_zero_iff_nil in E.
    assert (Hf : In lp (filter (fun p => N.eqb (LandPlots.id p) plot_id) (land_plots db))).
    { apply filter_In. split; [exact Hin | now apply N.eqb_eq]. }
    rewrite E in Hf. contradiction.
  - intros i Hi. apply in_map_iff in Hi as [r [<- Hr]].
    apply filter_In in Hr as [_ Hr]. now apply N.eqb_eq.
Qed.

Lemma delete_plot_deletes_history_witness :
  land_plot_status_history (state_after (execute (delete_land_plot 11) Sample.inventory))
  = [].
Proof.
  rewrite (delete_plot_deletes_history 11 Sample.inventory).
  - reflexivity.
  - exists (Sample.plot 11 "P001" 1200 "available"). split; [now left | reflexivity].
Defined.

(** C8 as stated fails: plot 11 has a history row, and after the plot is
    deleted no history row is left, neither with the plot reference nor
    with a null in its place. *)
Lemma delete_plot_history_not_kept :
  In Sample.history_entry (land_plot_status_history Sample.inventory)
  /\ StatusHistory.plot_id Sample.history_entry = Some 11%N
  /\ ~ (exists h,
          In h (land_plot_status_history
                  (state_after (execute (delete_land_plot 11) Sample.inventory)))
          /\ StatusHistory.id h = StatusHistory.id Sample.history_entry).
Proof.
  split; [now left|]. split; [reflexivity|].
  intros [h [Hin _]]. exact Hin.
Qed.

(** ** The status tracker *)

Lemma insert_status_history_frame pid old_s new_s at_time db :
  land_plots (reached (insert_status_history pid old_s new_s at_time db)) = land_plots db.
Proof.
  unfold insert_status_history, bind, uuid_generate_v4, get_database, set_database,
    raise, ret.
  simpl. destruct (land_plot_status_history_structure db); simpl; try reflexivity.
  destruct new_s; simpl; [|reflexivity].
  destruct (references _ _); reflexivity.
Qed.

(** The tracker returns the new row and raises nothing, in any state of the
    history table; it leaves the plots as they are. *)
Lemma tracker_never_raises (TG_OP : string) (OLD NEW : LandPlots.row)
    (now : timestamptz) (db : database) :
  exists db' notices,
    track_plot_status_changes TG_OP OLD NEW now db = Done NEW db' notices
    /\ land_plots db' = land_plots db.
Proof.
  unfold track_plot_status_changes.
  destruct (negb (String.eqb TG_OP "UPDATE")); [now exists db, []|].
  unfold bind, begin_exception.
  set (body := if is_not_null (LandPlots.status OLD) || is_not_null (LandPlots.status NEW)
               then _ else _).
  assert (Hframe : land_plots (reached (body db)) = land_plots db).
  { unfold body. destruct (_ || _); [|reflexivity].
    destruct (is_distinct_from _ _ _); [apply insert_status_history_frame | reflexivity]. }
  destruct (body db) as [[] db1 n1|e db1 n1]; simpl in Hframe.
  - simpl. now exists db1, (n1 ++ [])%list.
  - destruct e; simpl; eexists; eexists; split; reflexivity.
Qed.

Lemma updated_keys (plot_id : uuid) (s : option string) (now : timestamptz)
    (plots : list LandPlots.row) :
  map LandPlots.id
      (map (fun p => if N.eqb (LandPlots.id p) plot_id
                     then LandPlots.set_status p s now else p) plots)
  = map LandPlots.id plots.
Proof.
  rewrite map_map. apply map_ext. intro p.
  destruct (N.eqb (LandPlots.id p) plot_id); reflexivity.
Qed.

Lemma found_plot (plot_id : uuid) (plots : list LandPlots.row) (OLD : LandPlots.row) :
  find (fun p => N.eqb (LandPlots.id p) plot_id) plots = Some OLD ->
  LandPlots.id OLD = plot_id /\ existsb (N.eqb plot_id) (map LandPlots.id plots) = true.
Proof.
  intro F. apply find_some in F as [Hin Hid]. apply N.eqb_eq in Hid. split; [exact Hid|].
  apply existsb_exists. exists plot_id. split; [|apply N.eqb_refl].
  apply in_map_iff. now exists OLD.
Qed.

Lemma update_land_plot_status_found (plot_id : uuid) (new_status : option string)
    (now : timestamptz) (db : database) (OLD : LandPlots.row) :
  find (fun p => N.eqb (LandPlots.id p) plot_id) (land_plots db) = Some OLD ->
  valid_status new_status = true ->
  forall db2 n,
    track_plot_status_changes "UPDATE" OLD (LandPlots.set_status OLD new_status now) now
      (with_land_plots db
         (map (fun p => if N.eqb (LandPlots.id p) plot_id
                        then LandPlots.set_status p new_status now else p)
              (land_plots db)))
    = Done (LandPlots.set_status OLD new_status now) db2 n ->
    execute (update_land_plot_status plot_id new_status now) db = (db2, n, Ok true).
Proof.
  intros F V db2 n T.
  unfold execute, update_land_plot_status, bind, get_database, set_database, ret.
  rewrite F, V. cbn [negb]. rewrite T. simpl. now rewrite List.app_nil_r.
Qed.

(** C6. The tracker returns normally in every state of the history table:
    it raises nothing to the update that fired it. So a status update of an
    existing plot to an admissible status succeeds, and the plot carries
    the new status afterwards. When the status changes and the history row
    cannot be written, because the table is gone, its columns are missing,
    or the row is refused, the history is left as it was and one warning is
    sent as a notice. *)
Theorem tracker_failure_is_swallowed (now : timestamptz) (db : database) :
  (forall TG_OP OLD NEW,
     exists db' notices,
       track_plot_status_changes TG_OP OLD NEW now db = Done NEW db' notices
       /\ land_plots db' = land_plots db)
  /\ (forall plot_id new_status OLD,
        find (fun p => N.eqb (LandPlots.id p) plot_id) (land_plots db) = Some OLD ->
        valid_status new_status = true ->
        let x := execute (update_land_plot_status plot_id new_status now) db in
        result_of x = Ok true
        /\ land_plots (state_after x)
           = map (fun p => if N.eqb (LandPlots.id p) plot_id
                           then LandPlots.set_status p new_status now else p)
                 (land_plots db)
        /\ (is_distinct_from String.eqb (LandPlots.status OLD) new_status = true ->
            land_plot_status_history_structure db <> history_ready \/ new_status = None ->
            land_plot_status_history (state_after x) = land_plot_status_history db
            /\ exists warning, notices_of x = [warning])).
Proof.
  split; [intros; apply tracker_never_raises|].
  intros plot_id new_status OLD F V. cbv zeta.
  set (db1 := with_land_plots db
                (map (fun p => if N.eqb (LandPlots.id p) plot_id
                               then LandPlots.set_status p new_status now else p)
                     (land_plots db))).
  set (NEW := LandPlots.set_status OLD new_status now).
  destruct (tracker_never_raises "UPDATE" OLD NEW now db1) as [db2 [n [T Hp]]].
  rewrite (update_land_plot_status_found _ _ _ _ _ F V db2 n T).
  split; [reflexivity|]. split; [exact Hp|].
  intros Hd Hfail. unfold state_after, notices_of. simpl.
  revert T.
  unfold track_plot_status_changes, begin_exception, insert_status_history,
    uuid_generate_v4, get_database, set_database, raise, raise_notice, ret, bind.
  cbn [negb String.eqb Ascii.eqb Bool.eqb].
  replace (LandPlots.status NEW) with new_status by reflexivity.
  rewrite Hd.
  assert (Hnn : is_not_null (LandPlots.status OLD) || is_not_null new_status = true).
  { destruct (LandPlots.status OLD), new_status; try reflexivity. discriminate. }
  rewrite Hnn.
  replace (land_plot_status_history_structure db1)
    with (land_plot_status_history_structure db) by reflexivity.
  destruct (land_plot_status_history_structure db) eqn:S.
  - simpl. intros [= <- <-]. split; [reflexivity | now eexists].
  - simpl. intros [= <- <-]. split; [reflexivity | now eexists].
  - destruct Hfail as [Hfail|Hfail]; [congruence|]. subst new_status.
    simpl. intros [= <- <-]. split; [reflexivity | now eexists].
Qed.

Lemma tracker_failure_is_swallowed_witness :
  result_of (execute (update_land_plot_status 11 (Some "sold") 200)
               Sample.inventory_without_history) = Ok true
  /\ land_plot_status_history
       (state_after (execute (update_land_plot_status 11 (Some "sold") 200)
                       Sample.inventory_without_history)) = []
  /\ exists warning,
       notices_of (execute (update_land_plot_status 11 (Some "sold") 200)
                     Sample.inventory_without_history) = [warning].
Proof.
  pose proof (proj2 (tracker_failure_is_swallowed 200 Sample.inventory_without_history)
                11%N (Some "sold") (Sample.plot 11 "P001" 1200 "available")
                eq_refl eq_refl) as H.
  cbv zeta in H. destruct H as [H1 [_ H3]].
  split; [exact H1|].
  apply H3; [reflexivity | left; discriminate].
Defined.

(** C7, as the code has it. With the history table in place, an update to
    a status that differs from the stored one appends exactly one entry,
    which carries the plot, the old and the new status and the time of the
    update; an update to the stored status appends none, whatever the
    state of the history table. *)
Theorem history_entry_when_status_changes (plot_id : uuid) (new_status : string)
    (now : timestamptz) (db : database) (OLD : LandPlots.row) :
  find (fun p => N.eqb (LandPlots.id p) plot_id) (land_plots db) = Some OLD ->
  valid_status (Some new_status) = true ->
  let x := execute (update_land_plot_status plot_id (Some new_status) now) db in
  (land_plot_status_history_structure db = history_ready ->
   LandPlots.status OLD <> Some new_status ->
   land_plot_status_history (state_after x)
   = (land_plot_status_history db
      ++ [ {| StatusHistory.id := uuid_supply db;
              StatusHistory.plot_id := Some plot_id;
              StatusHistory.previous_status := None;
              StatusHistory.new_status := new_status;
              StatusHistory.changed_by := None;
              StatusHistory.change_reason := None;
              StatusHistory.changed_at := Some now;
              StatusHistory.old_status := LandPlots.status OLD |} ])%list)
  /\ (LandPlots.status OLD = Some new_status ->
      land_plot_status_history (state_after x) = land_plot_status_history db).
Proof.
  intros F V. cbv zeta.
  destruct (found_plot _ _ _ F) as [Hid Hkey].
  set (db1 := with_land_plots db
                (map (fun p => if N.eqb (LandPlots.id p) plot_id
                               then LandPlots.set_status p (Some new_status) now else p)
                     (land_plots db))).
  set (NEW := LandPlots.set_status OLD (Some new_status) now).
  destruct (tracker_never_raises "UPDATE" OLD NEW now db1) as [db2 [n [T Hp]]].
  rewrite (update_land_plot_status_found _ _ _ _ _ F V db2 n T).
  unfold state_after. simpl. revert T.
  unfold track_plot_status_changes, begin_exception, insert_status_history,
    uuid_generate_v4, get_database, set_database, raise, raise_notice, ret, bind.
  cbn [negb String.eqb Ascii.eqb Bool.eqb].
  replace (LandPlots.status NEW) with (Some new_status) by reflexivity.
  replace (LandPlots.id NEW) with plot_id by (symmetry; exact Hid).
  cbn [is_not_null]. rewrite orb_true_r.
  split.
  - intros S Hne. revert T.
    assert (Hd : is_distinct_from String.eqb (LandPlots.status OLD) (Some new_status) = true).
    { destruct (LandPlots.status OLD) as [o|]; simpl; [|reflexivity].
      destruct (String.eqb_spec o new_status); [congruence | reflexivity]. }
    rewrite Hd.
    replace (land_plot_status_history_structure db1)
      with (land_plot_status_history_structure db) by reflexivity.
    rewrite S. unfold references.
    replace (land_plots db1)
      with (map (fun p => if N.eqb (LandPlots.id p) plot_id
                          then LandPlots.set_status p (Some new_status) now else p)
                (land_plots db)) by reflexivity.
    rewrite updated_keys, Hkey. simpl. intros [= <- <-]. reflexivity.
  - intros Heq. revert T. rewrite Heq. cbn [is_distinct_from].
    rewrite String.eqb_refl. simpl. intros [= <- <-]. reflexivity.
Qed.

Lemma history_entry_when_status_changes_witness :
  List.length
    (land_plot_status_history
       (state_after (execute (update_land_plot_status 11 (Some "sold") 200)
                       Sample.inventory))) = 2%nat
  /\ land_plot_status_history
       (state_after (execute (update_land_plot_status 11 (Some "available") 200)
                       Sample.inventory))
     = land_plot_status_history Sample.inventory.
Proof.
  split.
  - pose proof (history_entry_when_status_changes 11 "sold" 200 Sample.inventory
                  (Sample.plot 11 "P001" 1200 "available") eq_refl eq_refl) as H.
    cbv zeta in H. destruct H as [H _].
    rewrite H; [reflexivity | reflexivity | discriminate].
  - pose proof (history_entry_when_status_changes 11 "available" 200 Sample.inventory
                  (Sample.plot 11 "P001" 1200 "available") eq_refl eq_refl) as H.
    cbv zeta in H. destruct H as [_ H].
    apply H. reflexivity.
Defined.

(** C7 as stated fails: with the history table dropped, the update of plot
    11 from available to sold changes the status and appends no entry. *)
Lemma status_change_without_entry :
  let x := execute (update_land_plot_status 11 (Some "sold") 200)
             Sample.inventory_without_history in
  map LandPlots.status (land_plots Sample.inventory_without_history)
  = [Some "available"; Some "booked"]
  /\ map LandPlots.status (land_plots (state_after x)) = [Some "sold"; Some "booked"]
  /\ ~ (exists entry,
          land_plot_status_history (state_after x)
          = (land_plot_status_history Sample.inventory_without_history ++ [entry])%list).
Proof.
  cbv zeta. split; [reflexivity|]. split; [reflexivity|].
  intros [entry H]. discriminate H.
Qed.

(** ** Booking a plot of [property_plots] *)

Lemma booking_statement_history p_plot_id p_status p_user_id now :
  preserves land_plot_status_history
    (update_plot_booking_statement p_plot_id p_status p_user_id now).
Proof.
  intros db. unfold update_plot_booking_statement, bind, get_database, set_database,
    raise, ret. simpl.
  destruct (_ && _); reflexivity.
Qed.

Lemma booking_history p_plot_id p_status p_user_id now :
  preserves land_plot_status_history
    (update_plot_booking p_plot_id p_status p_user_id now).
Proof.
  unfold update_plot_booking. apply preserves_bind.
  - apply booking_statement_history.
  - intros n. apply preserves_bind; [apply preserves_eval|].
    intros b. apply preserves_eval.
Qed.




(** How the call itself ends: [v_success > 0] compares a BOOLEAN with an
    INTEGER, so the function raises after its update and the statement
    leaves the plot as it was. *)
Example booking_call_raises :
  execute (update_plot_booking 40 "sold" (Some 2%N) 200) Sample.inventory
  = (Sample.inventory, [],
     Err (undefined_function "operator does not exist: boolean > integer")).
Proof. reflexivity. Qed.

(** ** Apply, then snapshot *)

Lemma insert_land_block_done pid nm descr now db k db' n :
  insert_land_block pid nm descr now db = Done k db' n ->
  exists block_name,
    nm = Some block_name /\ k = uuid_supply db
    /\ land_blocks db'
       = (land_blocks db ++
          [ {| LandBlocks.id := uuid_supply db;
               LandBlocks.property_id := pid;
               LandBlocks.name := block_name;
               LandBlocks.description := descr;
               LandBlocks.created_at := now;
               LandBlocks.updated_at := now |} ])%list
    /\ land_plots db' = land_plots db
    /\ properties db' = properties db
    /\ uuid_supply db' = N.succ (uuid_supply db).
Proof.
  run_rows. destruct nm as [block_name|]; simpl; [|discriminate].
  destruct (existsb _ _); simpl; [discriminate|].
  destruct (references _ _); simpl; [|discriminate].
  intros [= <- <- <-]. exists block_name. repeat split.
Qed.

Lemma insert_land_plot_done b num a pr st descr now db k db' n :
  insert_land_plot b num a pr st descr now db = Done k db' n ->
  exists number plot_area plot_price,
    num = Some number /\ a = Some plot_area /\ pr = Some plot_price
    /\ land_plots db'
       = (land_plots db ++
          [ {| LandPlots.id := uuid_supply db;
               LandPlots.block_id := b;
               LandPlots.plot_number := number;
               LandPlots.area := plot_area;
               LandPlots.price := plot_price;
               LandPlots.status := st;
               LandPlots.description := descr;
               LandPlots.created_at := now;
               LandPlots.updated_at := now |} ])%list
    /\ land_blocks db' = land_blocks db
    /\ properties db' = properties db
    /\ uuid_supply db' = N.succ (uuid_supply db).
Proof.
  run_rows. destruct num as [number|], a as [plot_area|], pr as [plot_price|];
    simpl; try discriminate.
  destruct (numeric_positive _); simpl; [|discriminate].
  destruct (valid_status _); simpl; [|discriminate].
  destruct (existsb _ _); simpl; [discriminate|].
  destruct (existsb _ _); simpl; [discriminate|].
  destruct (references _ _); simpl; [|discriminate].
  intros [= <- <- <-]. exists number, plot_area, plot_price. repeat split.
Qed.

Lemma filter_block_other (j k : uuid) (rows : list LandPlots.row) :
  Forall (fun r => LandPlots.block_id r = Some k) rows -> j <> k ->
  filter (fun lp => sql_eq N.eqb (Some j) (LandPlots.block_id lp)) rows = [].
Proof.
  intros H Hjk. induction H as [|r rows Hr _ IH]; cbn [filter]; [reflexivity|].
  rewrite Hr. change (sql_eq N.eqb (Some j) (Some k)) with (N.eqb j k).
  destruct (N.eqb_spec j k); [contradiction | exact IH].
Qed.

Lemma filter_block_same (k : uuid) (rows : list LandPlots.row) :
  Forall (fun r => LandPlots.block_id r = Some k) rows ->
  filter (fun lp => sql_eq N.eqb (Some k) (LandPlots.block_id lp)) rows = rows.
Proof.
  intros H. induction H as [|r rows Hr _ IH]; cbn [filter]; [reflexivity|].
  rewrite Hr. change (sql_eq N.eqb (Some k) (Some k)) with (N.eqb k k).
  rewrite N.eqb_refl, IH. reflexivity.
Qed.

Lemma filter_block_fresh (k : uuid) (plots : list LandPlots.row) :
  (forall p j, In p plots -> LandPlots.block_id p = Some j -> (j < k)%N) ->
  filter (fun lp => sql_eq N.eqb (Some k) (LandPlots.block_id lp)) plots = [].
Proof.
  intro H. induction plots as [|p plots IH]; cbn [filter]; [reflexivity|].
  destruct (LandPlots.block_id p) as [j|] eqn:E.
  - pose proof (H p j (or_introl eq_refl) E) as Hj.
    change (sql_eq N.eqb (Some k) (Some j)) with (N.eqb k j).
    destruct (N.eqb_spec k j); [lia|]. apply IH. intros q i Hq. apply H. now right.
  - change (sql_eq N.eqb (Some k) (@None uuid)) with false.
    apply IH. intros q i Hq. apply H. now right.
Qed.

(** *** Assignments to [VARCHAR(n)] *)

Lemma take_short (n : nat) (s : string) :
  (String.length s <= n)%nat -> string_take n s = s.
Proof.
  revert n. induction s as [|c s IH]; intros n H.
  - now destruct n.
  - destruct n as [|n]; simpl in *; [lia|]. f_equal. apply IH. lia.
Qed.

(** A text that fits is stored as it is. *)
Lemma varchar_fits (n : nat) (s : string) :
  (String.length s <= n)%nat -> varchar n s = Ok s.
Proof. intro H. unfold varchar. apply Nat.leb_le in H. now rewrite H. Qed.

(** What is stored is the text cut to the width. *)
Lemma varchar_cut (n : nat) (s stored : string) :
  varchar n s = Ok stored -> stored = string_take n s.
Proof.
  unfold varchar. destruct (Nat.leb_spec (String.length s) n) as [H|H].
  - intros [= <-]. symmetry. now apply take_short.
  - destruct (all_blank _); [now intros [= <-] | discriminate].
Qed.

(** The assignment raises exactly on a text that is too long by more than
    spaces. *)
Lemma varchar_accepts (n : nat) (s : string) :
  (String.length s <= n)%nat \/ all_blank (string_drop n s) = true ->
  varchar n s = Ok (string_take n s).
Proof.
  unfold varchar. destruct (Nat.leb_spec (String.length s) n) as [H|H].
  - intros _. now rewrite take_short.
  - intros [H'|H']; [lia|]. now rewrite H'.
Qed.

Lemma varchar_refuses (n : nat) (s : string) :
  (n < String.length s)%nat -> all_blank (string_drop n s) = false ->
  varchar n s
  = Err (string_data_right_truncation
           ("value too long for type character varying("
            ++ NilZero.string_of_uint (Nat.to_uint n) ++ ")")).
Proof.
  intros H H'. unfold varchar.
  destruct (Nat.leb_spec (String.length s) n); [lia|]. now rewrite H'.
Qed.

Lemma varchar_length (n : nat) (s stored : string) :
  varchar n s = Ok stored -> (String.length stored <= n)%nat.
Proof.
  intro H. apply varchar_cut in H. subst stored.
  revert s. induction n as [|n IH]; intros [|c s]; simpl; try lia.
  specialize (IH s). lia.
Qed.

Lemma assign_varchar_fits (n : nat) (s : option string) :
  fits n s = true -> assign_varchar n s = Ok s.
Proof.
  destruct s as [v|]; simpl; [|reflexivity].
  intro H. apply Nat.leb_le in H. now rewrite (varchar_fits n v H).
Qed.

Lemma assign_varchar_cut (n : nat) (s stored : option string) :
  assign_varchar n s = Ok stored -> stored = cut n s.
Proof.
  destruct s as [v|]; simpl; [|now intros [= <-]].
  destruct (varchar n v) as [w|e] eqn:E; simpl; [|discriminate].
  intros [= <-]. now rewrite (varchar_cut n v w E).
Qed.

Lemma cut_fits (n : nat) (s : option string) : fits n s = true -> cut n s = s.
Proof.
  destruct s as [v|]; simpl; [|reflexivity].
  intro H. apply Nat.leb_le in H. now rewrite take_short.
Qed.

Lemma stored_plot_fits (a : plot_attributes) : plot_fits a = true -> stored_plot a = a.
Proof.
  unfold plot_fits, stored_plot. intro H.
  apply andb_prop in H as [H Hs]. apply andb_prop in H as [Hn Hp].
  rewrite !cut_fits by assumption. now destruct a.
Qed.

Lemma stored_block_fits (a : block_attributes) :
  block_fits a = true -> stored_block a = a.
Proof.
  unfold block_fits, stored_block. intro H. apply andb_prop in H as [Hn Hp].
  rewrite cut_fits by assumption.
  replace (map stored_plot (plots_of a)) with (plots_of a); [now destruct a|].
  rewrite forallb_forall in Hp. symmetry. rewrite <- (map_id (plots_of a)) at 2.
  apply map_ext_in. intros x Hx. apply stored_plot_fits. now apply Hp.
Qed.

Lemma stored_blocks_fit (attributes : list block_attributes) :
  forallb block_fits attributes = true -> map stored_block attributes = attributes.
Proof.
  intro H. rewrite forallb_forall in H. rewrite <- (map_id attributes) at 2.
  apply map_ext_in. intros x Hx. apply stored_block_fits. now apply H.
Qed.

(** The steps of one turn of the outer loop that returned. *)
Lemma apply_block_steps (pid : option uuid) (now : timestamptz) (block : jsonb)
    (db db' : database) (n : list string) :
  apply_block pid now block db = Done tt db' n ->
  exists stored k db1 n1 rows n2,
    assign_varchar 100 (jsonb_get_text (Some block) "name") = Ok stored
    /\ insert_land_block pid stored (jsonb_get_text (Some block) "description") now db
       = Done k db1 n1
    /\ jsonb_array_elements (jsonb_get (Some block) "plots") = Ok rows
    /\ for_each rows (apply_plot k now) db1 = Done tt db' n2.
Proof.
  intro H. unfold apply_block in H.
  apply bind_done in H as [stored [db0 [n0 [n0' [Hstored [H _]]]]]].
  apply eval_done in Hstored as [Hstored [-> _]].
  apply bind_done in H as [k [db1 [n1 [n2 [Hb [H _]]]]]].
  apply bind_done in H as [rows [db1' [n3 [n4 [Hrows [Hloop _]]]]]].
  apply eval_done in Hrows as [Hrows [-> _]].
  now exists stored, k, db1, n1, rows, n4.
Qed.

Section ApplyLoops.

(** The property whose configuration is applied and the time of the call. *)
Variables (p : uuid) (now : timestamptz).

(** One turn of the inner loop: the values the insert receives. *)
Lemma apply_plot_done (k : uuid) (x : jsonb) (db db' : database) (n : list string) :
  apply_plot k now x db = Done tt db' n ->
  exists a key m,
    plot_attributes_of x = Ok a
    /\ insert_land_plot (Some k) (plot_number_of (stored_plot a)) (area_of a)
         (price_of (stored_plot a)) (status_of (stored_plot a)) (description_of a)
         now db
       = Done key db' m.
Proof.
  intro H. unfold apply_plot in H.
  apply bind_done in H as [number [db0 [m1 [m2 [Hnumber [H _]]]]]].
  apply eval_done in Hnumber as [Hnumber [-> _]].
  apply bind_done in H as [a [db0 [m3 [m4 [Hcast [H _]]]]]].
  apply eval_done in Hcast as [Hcast [-> _]].
  apply bind_done in H as [price [db0 [m5 [m6 [Hprice [H _]]]]]].
  apply eval_done in Hprice as [Hprice [-> _]].
  apply bind_done in H as [status [db0 [m7 [m8 [Hstatus [H _]]]]]].
  apply eval_done in Hstatus as [Hstatus [-> _]].
  apply bind_done in H as [key [db2 [m9 [m10 [Hins [Hret _]]]]]].
  injection Hret as <- _.
  apply assign_varchar_cut in Hnumber, Hprice, Hstatus. subst number price status.
  eexists. exists key, m9. split.
  - unfold plot_attributes_of. rewrite Hcast. cbn [result_bind]. reflexivity.
  - exact Hins.
Qed.

(** The inner loop appends one plot per element of the payload, in order,
    each with the attributes the payload gives it, the texts cut to the
    widths of their columns. *)
Lemma apply_plots_done (k : uuid) (rows : list jsonb) :
  forall db db' n,
    for_each rows (apply_plot k now) db = Done tt db' n ->
    exists new_rows attributes,
      land_plots db' = (land_plots db ++ new_rows)%list
      /\ land_blocks db' = land_blocks db
      /\ properties db' = properties db
      /\ (uuid_supply db <= uuid_supply db')%N
      /\ Forall (fun r => LandPlots.block_id r = Some k) new_rows
      /\ result_map plot_attributes_of rows = Ok attributes
      /\ map live_plot_attributes new_rows = map stored_plot attributes.
Proof.
  induction rows as [|x rest IH]; intros db db' n H.
  - simpl in H. injection H as <- <-.
    exists [], []. rewrite List.app_nil_r. repeat split; [lia | constructor].
  - simpl in H.
    apply bind_done in H as [[] [db1 [n1 [n2 [Hx [Hrest _]]]]]].
    apply apply_plot_done in Hx as [a [key [m [Hread Hins]]]].
    apply insert_land_plot_done in Hins
      as [number [plot_area [plot_price [Hn [Ha [Hp [Hplots [Hblocks [Hprops Hsupply]]]]]]]]].
    destruct (IH _ _ _ Hrest)
      as [more [attributes [Hplots' [Hblocks' [Hprops' [Hsupply' [Hall [Hattrs Hlive]]]]]]]].
    eexists (_ :: more), (a :: attributes). repeat split.
    + rewrite Hplots', Hplots, <- List.app_assoc. reflexivity.
    + congruence.
    + congruence.
    + lia.
    + constructor; [reflexivity | exact Hall].
    + cbn [result_map]. rewrite Hread. cbn [result_bind]. rewrite Hattrs. reflexivity.
    + cbn [map]. rewrite Hlive. f_equal.
      unfold live_plot_attributes, stored_plot in *. cbn in *.
      rewrite <- Hn, <- Ha, <- Hp. reflexivity.
Qed.

(** One turn of the outer loop appends one block with its plots to the
    live attributes of the property and keeps the keys below the supply. *)
Lemma apply_block_done (block : jsonb) (db db' : database) (n : list string) :
  keys_below_supply db ->
  apply_block (Some p) now block db = Done tt db' n ->
  exists a,
    block_attributes_of block = Ok a
    /\ live_attributes p db' = (live_attributes p db ++ [stored_block a])%list
    /\ keys_below_supply db'
    /\ properties db' = properties db.
Proof.
  intros [Kb Kp] H. unfold apply_block in H.
  apply bind_done in H as [stored [db0 [n0 [n0' [Hstored [H _]]]]]].
  apply eval_done in Hstored as [Hstored [-> _]].
  apply assign_varchar_cut in Hstored.
  apply bind_done in H as [k [db1 [n1 [n2 [Hb [H _]]]]]].
  apply insert_land_block_done in Hb
    as [block_name [Hname [Hk [Hblocks [Hplots [Hprops Hsupply]]]]]].
  apply bind_done in H as [rows [db1' [n3 [n4 [Hrows [Hloop _]]]]]].
  apply eval_done in Hrows as [Hrows [-> _]].
  apply apply_plots_done in Hloop
    as [new_rows [attributes [Hplots' [Hblocks' [Hprops' [Hsupply' [Hall [Hattrs Hlive]]]]]]]].
  rewrite Hplots in Hplots'. rewrite Hblocks in Hblocks'.
  eexists. split; [|split; [|split]].
  - unfold block_attributes_of. rewrite Hrows. cbn [result_bind].
    rewrite Hattrs. cbn [result_bind]. reflexivity.
  - unfold live_attributes, blocks_of_property.
    rewrite Hblocks', filter_app, map_app. cbn [filter LandBlocks.property_id sql_eq].
    rewrite N.eqb_refl. cbn [map]. f_equal.
    + apply map_ext_in. intros lb Hlb. apply filter_In in Hlb as [Hlb _].
      unfold live_block_attributes, plots_in_block. rewrite Hplots', filter_app.
      rewrite (filter_block_other (LandBlocks.id lb) k new_rows Hall).
      * now rewrite List.app_nil_r.
      * specialize (Kb lb Hlb). subst k. lia.
    + unfold live_block_attributes, plots_in_block. cbn [LandBlocks.id LandBlocks.name
        LandBlocks.description].
      rewrite Hplots', filter_app. subst k.
      rewrite (filter_block_fresh (uuid_supply db) (land_plots db) Kp).
      rewrite (filter_block_same (uuid_supply db) new_rows Hall).
      unfold stored_block. cbn [name_of block_description_of plots_of].
      cbn [app]. rewrite Hlive, <- Hstored, Hname. reflexivity.
  - split.
    + intros b Hb. rewrite Hblocks' in Hb. apply in_app_iff in Hb as [Hb|[<-|[]]].
      * specialize (Kb b Hb). lia.
      * cbn. lia.
    + intros q j Hq Hj. rewrite Hplots' in Hq. apply in_app_iff in Hq as [Hq|Hq].
      * specialize (Kp q j Hq Hj). lia.
      * rewrite Forall_forall in Hall. rewrite (Hall q Hq) in Hj.
        injection Hj as <-. subst k. lia.
  - congruence.
Qed.

Lemma apply_blocks_done (blocks : list jsonb) :
  forall db db' n,
    keys_below_supply db ->
    for_each blocks (apply_block (Some p) now) db = Done tt db' n ->
    exists attributes,
      result_map block_attributes_of blocks = Ok attributes
      /\ live_attributes p db'
         = (live_attributes p db ++ map stored_block attributes)%list
      /\ properties db' = properties db.
Proof.
  induction blocks as [|x rest IH]; intros db db' n K H.
  - simpl in H. injection H as <- <-. exists []. now rewrite List.app_nil_r.
  - simpl in H.
    apply bind_done in H as [[] [db1 [n1 [n2 [Hx [Hrest _]]]]]].
    destruct (apply_block_done x db db1 n1 K Hx) as [a [Ha [Hlive [K1 Hprops]]]].
    destruct (IH _ _ _ K1 Hrest) as [more [Hmore [Hlive' Hprops']]].
    exists (a :: more). split; [|split].
    + cbn [result_map]. rewrite Ha. cbn [result_bind]. rewrite Hmore. reflexivity.
    + rewrite Hlive', Hlive, <- List.app_assoc. reflexivity.
    + congruence.
Qed.

End ApplyLoops.

Lemma jsonb_text_of_text (o : option string) : jsonb_text (jsonb_of_text o) = o.
Proof. destruct o; reflexivity. Qed.

Lemma coalesce_jsonb_agg (rows : list jsonb) :
  coalesce (jsonb_agg rows) (JArr []) = JArr rows.
Proof. destruct rows; reflexivity. Qed.

(** Reading a plot object of a snapshot gives the attributes of the row. *)
Lemma plot_attributes_of_object (lp : LandPlots.row) :
  plot_attributes_of (plot_object lp) = Ok (live_plot_attributes lp).
Proof.
  unfold plot_attributes_of, plot_object, jsonb_get_text, jsonb_get.
  cbn [assoc String.eqb Ascii.eqb Bool.eqb].
  rewrite !jsonb_text_of_text.
  cbn [jsonb_text jsonb_out cast_numeric]. rewrite numeric_in_out.
  reflexivity.
Qed.

Lemma plot_attributes_of_objects (plots : list LandPlots.row) :
  result_map plot_attributes_of (map plot_object plots)
  = Ok (map live_plot_attributes plots).
Proof.
  induction plots as [|lp plots IH]; cbn [map result_map]; [reflexivity|].
  rewrite plot_attributes_of_object. cbn [result_bind]. rewrite IH. reflexivity.
Qed.

Lemma block_attributes_of_object (arrival : scan_order) (db : database)
    (lb : LandBlocks.row) :
  block_attributes_of (block_object arrival db lb)
  = Ok (listed_block_attributes arrival db lb).
Proof.
  unfold block_attributes_of, block_object, jsonb_get_text, jsonb_get.
  cbn [assoc String.eqb Ascii.eqb Bool.eqb].
  unfold plots_data. rewrite coalesce_jsonb_agg. cbn [jsonb_array_elements result_bind].
  rewrite plot_attributes_of_objects. cbn [result_bind].
  rewrite jsonb_text_of_text. reflexivity.
Qed.

(** Reading the payload of a snapshot gives the live attributes in the
    order in which the rows reached the aggregates. *)
Lemma payload_of_current_blocks (arrival : scan_order) (p : uuid) (db : database) :
  payload_attributes (current_blocks_json arrival p db)
  = Ok (listed_attributes arrival p db).
Proof.
  unfold payload_attributes, current_blocks_json. rewrite coalesce_jsonb_agg.
  cbn [jsonb_array_elements result_bind].
  unfold listed_attributes. fold (blocks_of_property p db).
  induction (blocks_in_order arrival (blocks_of_property p db)) as [|lb blocks IH];
    cbn [map result_map]; [reflexivity|].
  rewrite block_attributes_of_object. cbn [result_bind]. rewrite IH. reflexivity.
Qed.

Lemma same_block_refl (a : block_attributes) : same_block a a.
Proof. repeat split. apply Permutation_refl. Qed.

Lemma same_layout_refl (x : list block_attributes) : same_layout x x.
Proof.
  exists x. split; [apply Permutation_refl|].
  induction x; constructor; [apply same_block_refl | assumption].
Qed.

(** What a snapshot lists is what the tables hold, up to the order of the
    blocks and of the plots of a block. *)
Lemma listed_same_layout (arrival : scan_order) (p : uuid) (db : database) :
  same_layout (listed_attributes arrival p db) (live_attributes p db).
Proof.
  unfold listed_attributes, live_attributes.
  exists (map (listed_block_attributes arrival db) (blocks_of_property p db)). split.
  - apply Permutation_map, blocks_rearranged.
  - induction (blocks_of_property p db) as [|lb blocks IH]; cbn [map]; constructor.
    + repeat split. cbn [plots_of listed_block_attributes live_block_attributes].
      apply Permutation_map, plots_rearranged.
    + exact IH.
Qed.

Lemma filter_none_existsb {A} (f : A -> bool) (l : list A) :
  filter f l = [] -> existsb f l = false.
Proof.
  induction l as [|x l IH]; simpl; [reflexivity|].
  destruct (f x); [discriminate | exact IH].
Qed.

(** A snapshot of a property that exists, under a name that can be
    assigned to the column, succeeds. *)
Lemma create_succeeds (arrival : scan_order) (p : uuid) (name stored : string)
    (now : timestamptz) (db : database) :
  In p (properties db) ->
  varchar 100 name = Ok stored ->
  let saved := execute (create_property_land_configuration arrival p name now) db in
  result_of saved = Ok (uuid_supply db)
  /\ property_land_configurations (state_after saved)
     = (map (fun c => if sql_eq N.eqb (Configurations.property_id c) (Some p)
                         && Configurations.active c
                      then Configurations.deactivate c now else c)
            (property_land_configurations db)
        ++ [ {| Configurations.id := uuid_supply db;
                Configurations.property_id := Some p;
                Configurations.configuration_name := stored;
                Configurations.blocks_data := current_blocks_json arrival p db;
                Configurations.is_active := Some true;
                Configurations.created_at := now;
                Configurations.updated_at := now |} ])%list.
Proof.
  intros Hp Hname.
  assert (Hr : existsb (N.eqb p) (properties db) = true).
  { apply existsb_exists. exists p. split; [exact Hp | apply N.eqb_refl]. }
  unfold execute, create_property_land_configuration, deactivate_configurations,
    insert_configuration, uuid_generate_v4, get_database, set_database,
    raise, ret, result_of, state_after, bind.
  cbn zeta. rewrite Hname. simpl.
  rewrite (filter_none_existsb _ _
             (deactivated_none_active p now (property_land_configurations db))).
  rewrite Hr. simpl. split; reflexivity.
Qed.

Lemma filter_filter_negb {A} (f : A -> bool) (l : list A) :
  filter f (filter (fun x => negb (f x)) l) = [].
Proof.
  induction l as [|x l IH]; simpl; [reflexivity|].
  destruct (f x) eqn:E; simpl; [exact IH | rewrite E; exact IH].
Qed.

(** The teardown of [apply_property_land_configuration]: the two deletes
    leave no block of the property, draw no key and keep the properties. *)
Lemma teardown_done (p : uuid) (db db' : database) (n : list string) :
  keys_below_supply db ->
  clear_blocks_and_plots (Some p) db = Done tt db' n ->
  blocks_of_property p db' = []
  /\ keys_below_supply db'
  /\ properties db' = properties db.
Proof.
  intros [Kb Kp].
  unfold clear_blocks_and_plots, delete_land_blocks, delete_land_plots, get_database,
    set_database, ret, bind.
  simpl. intros [= <- <-]. split; [|split].
  - unfold blocks_of_property. simpl. apply filter_filter_negb.
  - split; simpl.
    + intros b Hb. apply filter_In in Hb as [Hb _]. now apply Kb.
    + intros q j Hq. apply filter_In in Hq as [Hq _]. apply filter_In in Hq as [Hq _].
      now apply Kp.
  - reflexivity.
Qed.




(** The order of a snapshot is not that of the payload it was applied
    from when the rows reach the aggregates in another order. *)
Example round_trip_may_reorder :
  let db := Sample.inventory_with_wide_layout in
  let applied := execute (apply_property_land_configuration 20 200) db in
  let saved :=
    execute (create_property_land_configuration Sample.reverse_order 1 "Phase 1 again" 300)
      (state_after applied) in
  exists earlier snapshot original copy,
    property_land_configurations (state_after saved) = (earlier ++ [snapshot])%list
    /\ payload_attributes Sample.wide_layout = Ok original
    /\ payload_attributes (Configurations.blocks_data snapshot) = Ok copy
    /\ map name_of original = [Some "Block B"; Some "Block C"]
    /\ map name_of copy = [Some "Block C"; Some "Block B"]
    /\ copy = rev (map (fun a => {| name_of := name_of a;
                                    block_description_of := block_description_of a;
                                    plots_of := rev (plots_of a) |}) original).
Proof.
  cbv zeta. eexists [_]. eexists. eexists. eexists.
  split; [vm_compute; reflexivity|]. split; [vm_compute; reflexivity|].
  split; [vm_compute; reflexivity|]. repeat split.
Qed.

(** ** Plot numbering below one thousand *)

Lemma fill_cycle_zeros (k : nat) :
  fill_cycle k EmptyString "0" = zeros k /\ fill_cycle k "0" "0" = zeros k.
Proof.
  induction k as [|k [IH1 IH2]]; simpl; [split; reflexivity|].
  rewrite IH1. split; reflexivity.
Qed.

Lemma short_numbers (n : Z) :
  (0 <= n < 1000)%Z -> (String.length (integer_out n) <= 3)%nat.
Proof.
  intro H.
  assert (C : forallb (fun k => (String.length (integer_out (Z.of_nat k)) <=? 3)%nat)
                      (seq 0 1000) = true) by (vm_compute; reflexivity).
  rewrite forallb_forall in C.
  specialize (C (Z.to_nat n)).
  rewrite Z2Nat.id in C by lia.
  apply Nat.leb_le, C, in_seq. lia.
Qed.

(** Where the next number has at most three digits the function does what
    its comment says: the prefix, then the number with leading zeros up to
    three digits. The prefix is a literal pattern, the case the embedding
    of the match covers. *)
Lemma next_plot_number_below_1000 (input_block_id : uuid) (plot_prefix : string)
    (db : database) (suffixes : list Z) :
  literal_pattern plot_prefix = true ->
  result_map (plot_number_suffix plot_prefix)
    (filter (fun p => sql_eq N.eqb (LandPlots.block_id p) (Some input_block_id))
            (land_plots db)) = Ok suffixes ->
  (0 <= coalesce (max_int suffixes) 0 < 999)%Z ->
  get_next_plot_number input_block_id plot_prefix db
  = Ok (plot_prefix
        ++ zeros (3 - String.length (integer_out (coalesce (max_int suffixes) 0 + 1)%Z))
        ++ integer_out (coalesce (max_int suffixes) 0 + 1)%Z).
Proof.
  intros _ Hs Hm. unfold get_next_plot_number. rewrite Hs. cbn [result_bind].
  unfold int4_add.
  replace (in_int4 (coalesce (max_int suffixes) 0 + 1)%Z) with true.
  2:{ symmetry. unfold in_int4, int4_min, int4_max.
      apply andb_true_intro. split; apply Z.leb_le; lia. }
  cbn [result_bind]. unfold lpad.
  pose proof (short_numbers (coalesce (max_int suffixes) 0 + 1)%Z ltac:(lia)) as L.
  replace (3 <? String.length (integer_out (coalesce (max_int suffixes) 0 + 1)%Z))%nat
    with false by (symmetry; apply Nat.ltb_ge; exact L).
  now rewrite (proj2 (fill_cycle_zeros _)).
Qed.

(** A block without plots starts at 001; the sample block continues at
    003. *)
Example next_plot_number_samples :
  get_next_plot_number 10 "P" Sample.empty_block = Ok "P001"
  /\ get_next_plot_number 10 "P" Sample.inventory = Ok "P003".
Proof. split; reflexivity. Qed.

(** * Proofs for the other functions *)

(** ** Facts about filters *)

Lemma filter_all_true {A} (f : A -> bool) (l : list A) :
  (forall x, In x l -> f x = true) -> filter f l = l.
Proof.
  induction l as [|x l IH]; intro H; simpl; [reflexivity|].
  rewrite (H x (or_introl eq_refl)), IH; [reflexivity|].
  intros y Hy. apply H. now right.
Qed.

Lemma filter_all_false {A} (f : A -> bool) (l : list A) :
  (forall x, In x l -> f x = false) -> filter f l = [].
Proof.
  induction l as [|x l IH]; intro H; simpl; [reflexivity|].
  rewrite (H x (or_introl eq_refl)). apply IH.
  intros y Hy. apply H. now right.
Qed.

Lemma sql_eq_uuid_sym (a b : option uuid) : sql_eq N.eqb a b = sql_eq N.eqb b a.
Proof. destruct a, b; simpl; try reflexivity. apply N.eqb_sym. Qed.

(** ** Copies of a configuration *)

(** What a call of [duplicate_property_land_configuration] with a name
    does when the source exists. *)
Lemma duplicate_found (src : uuid) (name : string) (now : timestamptz) (db : database)
    (source : Configurations.row) :
  find (fun c => N.eqb (Configurations.id c) src) (property_land_configurations db)
  = Some source ->
  duplicate_property_land_configuration src (Some name) now db
  = match varchar 100 name with
    | Err e => Raised e db []
    | Ok stored =>
        if negb (references (properties db) (Configurations.property_id source))
        then Raised (foreign_key_violation "property_land_configurations_property_id_fkey")
               (with_uuid_supply db (N.succ (uuid_supply db))) []
        else Done (uuid_supply db)
               (with_configurations (with_uuid_supply db (N.succ (uuid_supply db)))
                  (property_land_configurations db
                   ++ [inactive_copy source (uuid_supply db) stored now])%list) []
    end.
Proof.
  intro F.
  unfold duplicate_property_land_configuration, bind at 1, get_database.
  rewrite F.
  unfold eval.
  destruct (varchar 100 name) as [stored|e]; [|reflexivity].
  unfold insert_configuration, uuid_generate_v4, get_database, set_database, raise, ret,
    bind.
  cbn [sql_eq Bool.eqb andb properties with_uuid_supply property_land_configurations
       uuid_supply].
  destruct (negb (references (properties db) (Configurations.property_id source)));
    reflexivity.
Qed.

(** X1. A copy of a configuration that does not exist is refused with
    'Source configuration not found', whatever the new name, and nothing
    changes. *)
Theorem duplicate_of_missing_source (src : uuid) (name : option string)
    (now : timestamptz) (db : database) :
  (forall c, In c (property_land_configurations db) -> Configurations.id c <> src) ->
  execute (duplicate_property_land_configuration src name now) db
  = (db, [], Err (raise_exception "Source configuration not found")).
Proof.
  intro H.
  assert (F : find (fun c => N.eqb (Configurations.id c) src)
                   (property_land_configurations db) = None).
  { destruct (find _ _) as [c|] eqn:E; [|reflexivity].
    apply find_some in E as [Hin Hid]. apply N.eqb_eq in Hid.
    now apply H in Hin. }
  unfold execute, duplicate_property_land_configuration, bind, get_database.
  rewrite F. reflexivity.
Qed.

Lemma duplicate_of_missing_source_witness :
  execute (duplicate_property_land_configuration 99 (Some "Copy") 200) Sample.inventory
  = (Sample.inventory, [], Err (raise_exception "Source configuration not found")).
Proof.
  apply duplicate_of_missing_source.
  intros c [<-|[<-|[]]]; discriminate.
Defined.

(** X2. A copy of an existing configuration whose property still exists,
    the source active or not. The new name is assigned to [VARCHAR(100)].
    A name of at most one hundred characters, or one whose excess over one
    hundred characters is all spaces, gives a copy: the call returns the
    key of a row that is added after the rows of the table, which stay as
    they were; the row has the first hundred characters of the name, the
    whole of a name that is no longer, as its name, the property and the
    payload of the source, and it is not active. A longer name whose
    excess is not all spaces is refused: the call raises the error of the
    assignment and nothing changes. *)
Theorem duplicate_adds_inactive_copy (src : uuid) (name : string) (now : timestamptz)
    (db : database) (source : Configurations.row) :
  find (fun c => N.eqb (Configurations.id c) src) (property_land_configurations db)
  = Some source ->
  references (properties db) (Configurations.property_id source) = true ->
  let copied := execute (duplicate_property_land_configuration src (Some name) now) db in
  ((String.length name <= 100)%nat \/ all_blank (string_drop 100 name) = true ->
   result_of copied = Ok (uuid_supply db)
   /\ property_land_configurations (state_after copied)
      = (property_land_configurations db
         ++ [inactive_copy source (uuid_supply db) (string_take 100 name) now])%list)
  /\ ((String.length name <= 100)%nat -> string_take 100 name = name)
  /\ ((100 < String.length name)%nat -> all_blank (string_drop 100 name) = false ->
      copied
      = (db, [],
         Err (string_data_right_truncation
                "value too long for type character varying(100)"))).
Proof.
  intros F R. cbv zeta. unfold execute.
  rewrite (duplicate_found src name now db source F), R. split; [|split].
  - intro H. rewrite (varchar_accepts 100 name H). split; reflexivity.
  - apply take_short.
  - intros H H'. rewrite (varchar_refuses 100 name H H'). reflexivity.
Qed.

Lemma duplicate_adds_inactive_copy_witness :
  result_of (execute (duplicate_property_land_configuration 20 (Some "Copy") 200)
               Sample.inventory) = Ok 50%N
  /\ property_land_configurations
       (state_after (execute (duplicate_property_land_configuration 20 (Some "Copy") 200)
                       Sample.inventory))
     = [ Sample.configuration 20 Sample.layout true;
         Sample.configuration 21 Sample.layout false;
         {| Configurations.id := 50;
            Configurations.property_id := Some 1%N;
            Configurations.configuration_name := "Copy";
            Configurations.blocks_data := Sample.layout;
            Configurations.is_active := Some false;
            Configurations.created_at := 200;
            Configurations.updated_at := 200 |} ].
Proof.
  apply (proj1 (duplicate_adds_inactive_copy 20 "Copy" 200 Sample.inventory
                  (Sample.configuration 20 Sample.layout true) eq_refl eq_refl)).
  left. simpl. lia.
Defined.

(** A name of one hundred and one characters is cut when it ends in a
    space and refused when it does not. *)
Example duplicate_under_long_names :
  let padded := execute (duplicate_property_land_configuration 20
                           (Some Sample.padded_name) 200) Sample.inventory in
  let long := execute (duplicate_property_land_configuration 20
                         (Some (Sample.padded_name ++ "!")) 200) Sample.inventory in
  result_of padded = Ok 50%N
  /\ map Configurations.configuration_name
         (property_land_configurations (state_after padded))
     = ["Phase 1 Layout"; "Phase 1 Layout"; string_take 100 Sample.padded_name]
  /\ long = (Sample.inventory, [],
             Err (string_data_right_truncation
                    "value too long for type character varying(100)")).
Proof. cbv zeta. repeat split; vm_compute; reflexivity. Qed.

(** The state after a call of [duplicate_property_land_configuration]:
    the state before, or that state with one inactive configuration
    more. *)
Lemma duplicate_state (src : uuid) (name : option string) (now : timestamptz)
    (db : database) :
  let after := state_after (execute (duplicate_property_land_configuration src name now) db) in
  after = db
  \/ exists copy,
       Configurations.is_active copy = Some false
       /\ after = with_configurations (with_uuid_supply db (N.succ (uuid_supply db)))
                    (property_land_configurations db ++ [copy])%list.
Proof.
  cbv zeta.
  destruct (find (fun c => N.eqb (Configurations.id c) src)
                 (property_land_configurations db)) as [source|] eqn:F.
  - destruct name as [name|].
    + unfold execute. rewrite (duplicate_found src name now db source F).
      destruct (varchar 100 name) as [stored|e]; [|now left].
      destruct (negb (references (properties db) (Configurations.property_id source))).
      * now left.
      * right. eexists. split; [|reflexivity]. reflexivity.
    + left. unfold execute, duplicate_property_land_configuration, bind, get_database.
      rewrite F. reflexivity.
  - left. unfold execute, duplicate_property_land_configuration, bind, get_database.
    rewrite F. reflexivity.
Qed.

(** X3. Copying never touches the live inventory or the active flags:
    after any call, successful or not, every property has the active
    configurations it had, and the blocks, the plots and the status history
    are as before. *)
Theorem duplicate_keeps_active_and_inventory (src : uuid) (name : option string)
    (now : timestamptz) (db : database) :
  let after := state_after (execute (duplicate_property_land_configuration src name now) db) in
  (forall p, active_configurations p after = active_configurations p db)
  /\ land_blocks after = land_blocks db
  /\ land_plots after = land_plots db
  /\ land_plot_status_history after = land_plot_status_history db.
Proof.
  cbv zeta.
  destruct (duplicate_state src name now db) as [-> | [copy [Hc ->]]].
  - repeat split.
  - repeat split. intro p. unfold active_configurations.
    cbn [property_land_configurations with_configurations].
    rewrite filter_app. cbn [filter]. unfold Configurations.active at 2.
    rewrite Hc. cbn [sql_eq Bool.eqb andb]. apply List.app_nil_r.
Qed.

(** X4. A copy cannot be applied. The copy is inactive and
    [apply_property_land_configuration] looks for an active row with the
    key: applying the key a successful copy returned raises 'Configuration
    not found or not active'. *)
Theorem duplicate_cannot_be_applied (src key : uuid) (name : option string)
    (now later : timestamptz) (db : database) :
  configuration_keys_below_supply db ->
  result_of (execute (duplicate_property_land_configuration src name now) db) = Ok key ->
  result_of
    (execute (apply_property_land_configuration key later)
       (state_after (execute (duplicate_property_land_configuration src name now) db)))
  = Err (raise_exception "Configuration not found or not active").
Proof.
  intros K Hres.
  assert (Hkey : key = uuid_supply db
          /\ exists copy,
               Configurations.is_active copy = Some false
               /\ state_after (execute (duplicate_property_land_configuration src name now) db)
                  = with_configurations (with_uuid_supply db (N.succ (uuid_supply db)))
                      (property_land_configurations db ++ [copy])%list).
  { revert Hres. unfold execute.
    destruct (find (fun c => N.eqb (Configurations.id c) src)
                   (property_land_configurations db)) as [source|] eqn:F.
    - destruct name as [name|].
      + rewrite (duplicate_found src name now db source F).
        destruct (varchar 100 name) as [stored|e]; [|discriminate].
        destruct (negb (references (properties db) (Configurations.property_id source)));
          [discriminate|].
        intros [= <-]. split; [reflexivity|]. eexists. split; [|reflexivity]. reflexivity.
      + unfold duplicate_property_land_configuration, bind, get_database.
        rewrite F. discriminate.
    - unfold duplicate_property_land_configuration, bind, get_database.
      rewrite F. discriminate. }
  destruct Hkey as [-> [copy [Hc ->]]].
  assert (F : find (fun c => N.eqb (Configurations.id c) (uuid_supply db)
                             && Configurations.active c)
                   (property_land_configurations db ++ [copy])%list = None).
  { destruct (find _ _) as [c|] eqn:E; [|reflexivity].
    apply find_some in E as [Hin Hc']. apply andb_prop in Hc' as [Hid Hact].
    apply in_app_iff in Hin as [Hin|[<-|[]]].
    - apply K in Hin. apply N.eqb_eq in Hid. lia.
    - unfold Configurations.active in Hact. rewrite Hc in Hact. discriminate. }
  unfold execute, apply_property_land_configuration, bind, get_database.
  cbn [property_land_configurations with_configurations].
  rewrite F. reflexivity.
Qed.

Lemma duplicate_cannot_be_applied_witness :
  result_of
    (execute (apply_property_land_configuration 50 300)
       (state_after (execute (duplicate_property_land_configuration 20 (Some "Copy") 200)
                       Sample.inventory)))
  = Err (raise_exception "Configuration not found or not active").
Proof.
  apply (duplicate_cannot_be_applied 20 50 (Some "Copy") 200 300 Sample.inventory).
  - intros c [<-|[<-|[]]]; reflexivity.
  - reflexivity.
Defined.

(** ** Deleting a block *)

(** The cascade of the second delete finds no plot: the first delete has
    removed the plots of the block. *)
Lemma no_plot_left (k : uuid) (ids : list uuid) (plots : list LandPlots.row) :
  (forall i, In i ids -> i = k) ->
  filter (fun p => existsb (fun j => sql_eq N.eqb (LandPlots.block_id p) (Some j)) ids)
         (filter (fun p => negb (sql_eq N.eqb (LandPlots.block_id p) (Some k))) plots)
  = [].
Proof.
  intro H. apply filter_all_false. intros p Hp.
  apply filter_In in Hp as [_ Hp]. apply negb_true_iff in Hp.
  induction ids as [|i ids IH]; [reflexivity|].
  cbn [existsb]. rewrite (H i (or_introl eq_refl)). unfold uuid in *.
  rewrite Hp. cbn [orb].
  apply IH. intros j Hj. apply H. now right.
Qed.

Lemma filter_negb_none {A} (f : A -> bool) (l : list A) :
  filter f l = [] -> filter (fun x => negb (f x)) l = l.
Proof.
  intro H. apply filter_all_true. intros x Hx.
  destruct (f x) eqn:E; [|reflexivity].
  assert (In x (filter f l)) by (apply filter_In; now split).
  rewrite H in *. contradiction.
Qed.

(** What [delete_land_block_safely] does to a block that exists. *)
Lemma delete_block_found (k : uuid) (db : database) :
  existsb (fun b => N.eqb (LandBlocks.id b) k) (land_blocks db) = true ->
  delete_land_block_safely k db
  = Done true
      (with_land_blocks
         (with_history
            (with_land_plots db
               (filter (fun p => negb (sql_eq N.eqb (LandPlots.block_id p) (Some k)))
                       (land_plots db)))
            (history_without (plots_in_block k db) db))
         (filter (fun b => negb (N.eqb (LandBlocks.id b) k)) (land_blocks db)))
      [].
Proof.
  intro E.
  unfold delete_land_block_safely, bind at 1, get_database. rewrite E. cbn [negb].
  unfold delete_land_blocks, delete_land_plots, get_database, set_database, ret, bind.
  cbn [land_plots land_blocks land_plot_status_history with_history with_land_plots
       with_land_blocks app].
  assert (Hids : forall i,
             In i (map LandBlocks.id
                     (filter (fun b => N.eqb (LandBlocks.id b) k) (land_blocks db))) ->
             i = k).
  { intros i Hi. apply in_map_iff in Hi as [b [<- Hb]].
    apply filter_In in Hb as [_ Hb]. now apply N.eqb_eq. }
  rewrite (filter_negb_none _ _ (no_plot_left k _ (land_plots db) Hids)).
  rewrite (no_plot_left k _ (land_plots db) Hids).
  cbn [map existsb negb].
  rewrite (filter_all_true (fun _ : StatusHistory.row => true)) by reflexivity.
  f_equal. unfold with_land_blocks, with_history, with_land_plots. cbn.
  f_equal. unfold history_without, plots_in_block.
  apply filter_ext. intro h. f_equal.
  rewrite (filter_ext (fun lp => sql_eq N.eqb (Some k) (LandPlots.block_id lp))
                      (fun p => sql_eq N.eqb (LandPlots.block_id p) (Some k)))
    by (intro; apply sql_eq_uuid_sym).
  induction (filter _ (land_plots db)) as [|x l IH]; [reflexivity|].
  cbn [map existsb]. now rewrite IH.
Qed.

(** What [delete_land_block_safely] does when no block has the key. *)
Lemma delete_block_absent (k : uuid) (db : database) :
  existsb (fun b => N.eqb (LandBlocks.id b) k) (land_blocks db) = false ->
  delete_land_block_safely k db = Done false db [].
Proof.
  intro E. unfold delete_land_block_safely, bind, get_database. rewrite E. reflexivity.
Qed.

(** X5. [delete_land_block_safely] on a key that is not the key of a block
    returns false and changes nothing. *)
Theorem delete_missing_block (k : uuid) (db : database) :
  (forall b, In b (land_blocks db) -> LandBlocks.id b <> k) ->
  execute (delete_land_block_safely k) db = (db, [], Ok false).
Proof.
  intro H.
  assert (E : existsb (fun b => N.eqb (LandBlocks.id b) k) (land_blocks db) = false).
  { destruct (existsb _ _) eqn:E; [|reflexivity].
    apply existsb_exists in E as [b [Hb Hk]]. apply N.eqb_eq in Hk.
    now apply H in Hb. }
  unfold execute. rewrite (delete_block_absent k db E). reflexivity.
Qed.

Lemma delete_missing_block_witness :
  execute (delete_land_block_safely 99) Sample.inventory = (Sample.inventory, [], Ok false).
Proof.
  apply delete_missing_block. intros b [<-|[]]. discriminate.
Defined.

(** X6. [delete_land_block_safely] on the key of a block returns true. The
    block is gone and so are its plots and, through the cascade of the
    history table, the status history of those plots; the other blocks,
    the other plots and the other history rows stay, in their order; the
    saved configurations are not touched. *)
Theorem delete_block_takes_plots_and_history (k : uuid) (db : database) :
  (exists b, In b (land_blocks db) /\ LandBlocks.id b = k) ->
  let deleted := execute (delete_land_block_safely k) db in
  result_of deleted = Ok true
  /\ land_blocks (state_after deleted)
     = filter (fun b => negb (N.eqb (LandBlocks.id b) k)) (land_blocks db)
  /\ land_plots (state_after deleted)
     = filter (fun p => negb (sql_eq N.eqb (LandPlots.block_id p) (Some k))) (land_plots db)
  /\ land_plot_status_history (state_after deleted)
     = history_without (plots_in_block k db) db
  /\ property_land_configurations (state_after deleted) = property_land_configurations db.
Proof.
  intros [b [Hb Hk]]. cbv zeta.
  assert (E : existsb (fun b => N.eqb (LandBlocks.id b) k) (land_blocks db) = true).
  { apply existsb_exists. exists b. split; [exact Hb | now apply N.eqb_eq]. }
  unfold execute. rewrite (delete_block_found k db E). repeat split.
Qed.

Lemma delete_block_takes_plots_and_history_witness :
  let deleted := execute (delete_land_block_safely 10) Estate.two_properties in
  result_of deleted = Ok true
  /\ land_blocks (state_after deleted) = [Estate.block_z]
  /\ land_plots (state_after deleted) = [Estate.plot_z]
  /\ land_plot_status_history (state_after deleted) = []
  /\ property_land_configurations (state_after deleted)
     = property_land_configurations Estate.two_properties.
Proof.
  apply (delete_block_takes_plots_and_history 10 Estate.two_properties).
  exists Sample.block_a. split; [now left | reflexivity].
Defined.

(** X7. Deleting the same block a second time returns false and changes
    nothing: after the first call, whatever it returned, no block has the
    key. *)
Theorem delete_block_twice (k : uuid) (db : database) :
  execute (delete_land_block_safely k)
    (state_after (execute (delete_land_block_safely k) db))
  = (state_after (execute (delete_land_block_safely k) db), [], Ok false).
Proof.
  set (after := state_after (execute (delete_land_block_safely k) db)).
  assert (E : existsb (fun b => N.eqb (LandBlocks.id b) k) (land_blocks after) = false).
  { subst after. unfold execute.
    destruct (existsb (fun b => N.eqb (LandBlocks.id b) k) (land_blocks db)) eqn:E.
    - rewrite (delete_block_found k db E).
      cbn [state_after fst land_blocks with_land_blocks].
      destruct (existsb _ (filter _ _)) eqn:T; [|reflexivity].
      apply existsb_exists in T as [b [Hb Hk]].
      apply filter_In in Hb as [_ Hb]. rewrite Hk in Hb. discriminate.
    - rewrite (delete_block_absent k db E). exact E. }
  unfold execute. rewrite (delete_block_absent k after E). reflexivity.
Qed.

(** ** Listing the plots of a block *)

Section Ordering.

Variable text_le : string -> string -> bool.
Hypothesis text_le_total : forall a b, text_le a b = true \/ text_le b a = true.

Lemma insert_by_permutation {A} (key : A -> string) (x : A) (l : list A) :
  Permutation (insert_by text_le key x l) (x :: l).
Proof.
  induction l as [|y l IH]; simpl; [apply Permutation_refl|].
  destruct (text_le (key x) (key y)); [apply Permutation_refl|].
  apply perm_trans with (y :: x :: l); [now apply perm_skip | apply perm_swap].
Qed.

Lemma order_by_permutation {A} (key : A -> string) (l : list A) :
  Permutation (order_by text_le key l) l.
Proof.
  induction l as [|x l IH]; simpl; [apply perm_nil|].
  apply perm_trans with (x :: order_by text_le key l);
    [apply insert_by_permutation | now apply perm_skip].
Qed.

Lemma insert_by_head {A} (key : A -> string) (a x : A) (l : list A) :
  HdRel (fun u v => text_le (key u) (key v) = true) a l ->
  text_le (key a) (key x) = true ->
  HdRel (fun u v => text_le (key u) (key v) = true) a (insert_by text_le key x l).
Proof.
  intros H Hax. destruct l as [|y l]; simpl; [now constructor|].
  destruct (text_le (key x) (key y)); constructor; [exact Hax|].
  now inversion H.
Qed.

Lemma insert_by_sorted {A} (key : A -> string) (x : A) (l : list A) :
  Sorted (fun u v => text_le (key u) (key v) = true) l ->
  Sorted (fun u v => text_le (key u) (key v) = true) (insert_by text_le key x l).
Proof.
  induction 1 as [|a l Hs IH Hd]; simpl; [repeat constructor|].
  destruct (text_le (key x) (key a)) eqn:E.
  - constructor; [now constructor | now constructor].
  - constructor; [exact IH|]. apply insert_by_head; [exact Hd|].
    destruct (text_le_total (key a) (key x)) as [T|T]; [exact T | congruence].
Qed.

Lemma order_by_sorted {A} (key : A -> string) (l : list A) :
  Sorted (fun u v => text_le (key u) (key v) = true) (order_by text_le key l).
Proof.
  induction l as [|x l IH]; simpl; [constructor | now apply insert_by_sorted].
Qed.

End Ordering.

Lemma sorted_map {A B} (f : A -> B) (R : B -> B -> Prop) (l : list A) :
  Sorted (fun u v => R (f u) (f v)) l -> Sorted R (map f l).
Proof.
  induction 1 as [|a l Hs IH Hd]; simpl; constructor; [exact IH|].
  destruct Hd; simpl; now constructor.
Qed.

(** X8. Despite its name [get_available_plots_for_block] does not look at
    the status: it returns every plot of the block exactly once, booked,
    sold and blocked plots included, each with its own number, area, price
    and status, in the order of the plot numbers. The order of the
    collation is any total order. *)
Theorem available_plots_are_all_plots (text_le : string -> string -> bool)
    (block : uuid) (db : database) :
  (forall a b, text_le a b = true \/ text_le b a = true) ->
  let listed := get_available_plots_for_block text_le block db in
  Permutation listed
    (map (fun plots =>
            {| AvailablePlot.plot_id := LandPlots.id plots;
               AvailablePlot.plot_number := LandPlots.plot_number plots;
               AvailablePlot.area := LandPlots.area plots;
               AvailablePlot.price := LandPlots.price plots;
               AvailablePlot.status := LandPlots.status plots |})
         (filter (fun plots => sql_eq N.eqb (LandPlots.block_id plots) (Some block))
                 (land_plots db)))
  /\ Sorted (fun u v => text_le (AvailablePlot.plot_number u) (AvailablePlot.plot_number v)
                        = true) listed
  /\ (forall lp, In lp (land_plots db) -> LandPlots.block_id lp = Some block ->
                 In (LandPlots.id lp, LandPlots.status lp)
                    (map (fun r => (AvailablePlot.plot_id r, AvailablePlot.status r)) listed)).
Proof.
  intro total. cbv zeta. unfold get_available_plots_for_block.
  split; [|split].
  - apply Permutation_map, order_by_permutation.
  - apply sorted_map with
      (R := fun u v => text_le (AvailablePlot.plot_number u) (AvailablePlot.plot_number v)
                       = true).
    cbn [AvailablePlot.plot_number].
    apply (order_by_sorted text_le total LandPlots.plot_number).
  - intros lp Hin Hb. rewrite map_map. cbn [AvailablePlot.plot_id AvailablePlot.status].
    apply in_map_iff. exists lp. split; [reflexivity|].
    apply (Permutation_in lp (Permutation_sym (order_by_permutation text_le _ _))).
    apply filter_In. split; [exact Hin|]. rewrite Hb. cbn [sql_eq]. apply N.eqb_refl.
Qed.

Lemma available_plots_are_all_plots_witness :
  let listed := get_available_plots_for_block String.leb 10 Sample.inventory in
  Permutation listed
    (map (fun plots =>
            {| AvailablePlot.plot_id := LandPlots.id plots;
               AvailablePlot.plot_number := LandPlots.plot_number plots;
               AvailablePlot.area := LandPlots.area plots;
               AvailablePlot.price := LandPlots.price plots;
               AvailablePlot.status := LandPlots.status plots |})
         (filter (fun plots => sql_eq N.eqb (LandPlots.block_id plots) (Some 10%N))
                 (land_plots Sample.inventory)))
  /\ Sorted (fun u v => String.leb (AvailablePlot.plot_number u) (AvailablePlot.plot_number v)
                        = true) listed
  /\ (forall lp, In lp (land_plots Sample.inventory) -> LandPlots.block_id lp = Some 10%N ->
                 In (LandPlots.id lp, LandPlots.status lp)
                    (map (fun r => (AvailablePlot.plot_id r, AvailablePlot.status r)) listed)).
Proof.
  apply (available_plots_are_all_plots String.leb 10 Sample.inventory).
  exact String.leb_total.
Defined.

(** ** Looking a block up by its name *)

Lemma filter_andb {A} (f g : A -> bool) (l : list A) :
  filter (fun x => f x && g x) l = filter g (filter f l).
Proof.
  induction l as [|x l IH]; simpl; [reflexivity|].
  destruct (f x); simpl; [|exact IH]. destruct (g x); now rewrite IH.
Qed.

(** In a list without two elements of the same key, the elements that a
    test picks out are one element when the test fixes the key. *)
Lemma filter_unique {A B} (f : A -> B) (g : A -> bool) (l : list A) (b : A) :
  NoDup (map f l) -> In b l -> g b = true ->
  (forall x, In x l -> g x = true -> f x = f b) ->
  filter g l = [b].
Proof.
  induction l as [|x l IH]; intros N Hb Gb H; [contradiction|].
  cbn [map] in N. inversion N as [|? ? Hx Nl]; subst.
  destruct Hb as [->|Hb].
  - cbn [filter]. rewrite Gb. f_equal. apply filter_all_false.
    intros y Hy. destruct (g y) eqn:Gy; [|reflexivity].
    exfalso. apply Hx. rewrite <- (H y (or_intror Hy) Gy). now apply in_map.
  - cbn [filter]. destruct (g x) eqn:Gx.
    + exfalso. apply Hx. rewrite (H x (or_introl eq_refl) Gx). now apply in_map.
    + apply IH; auto. intros y Hy. apply H. now right.
Qed.

Lemma same_group_refl (b : LandBlocks.row) : same_group b b = true.
Proof.
  unfold same_group. rewrite N.eqb_refl, String.eqb_refl.
  destruct (LandBlocks.description b); simpl; [now rewrite String.eqb_refl | reflexivity].
Qed.

Lemma group_heads_one (b : LandBlocks.row) (sides : list (option LandPlots.row)) :
  sides <> [] -> group_heads (map (fun s => (b, s)) sides) = [b].
Proof.
  induction sides as [|s sides IH]; intro H; [contradiction|].
  cbn [map group_heads fst]. f_equal.
  destruct sides as [|t sides]; [reflexivity|].
  rewrite IH by discriminate. cbn [filter]. now rewrite same_group_refl.
Qed.

Lemma group_of_one (b : LandBlocks.row) (sides : list (option LandPlots.row)) :
  filter (fun r : LandBlocks.row * option LandPlots.row => same_group b (fst r))
         (map (fun s => (b, s)) sides)
  = map (fun s => (b, s)) sides.
Proof.
  apply filter_all_true. intros r Hr. apply in_map_iff in Hr as [s [<- _]].
  apply same_group_refl.
Qed.

Lemma count_plot_side {B} (b : LandBlocks.row) (e : LandPlots.row -> option B)
    (plots : list LandPlots.row) :
  count (fun r : LandBlocks.row * option LandPlots.row =>
           match snd r with Some p => e p | None => None end)
        (map (fun s => (b, s)) (map Some plots))
  = Z.of_nat (List.length (filter (fun p => is_not_null (e p)) plots)).
Proof.
  unfold count. f_equal. induction plots as [|p plots IH]; [reflexivity|].
  cbn [map filter snd]. destruct (e p); cbn [is_not_null List.length]; now rewrite IH.
Qed.

(** The rows of the join for one block. *)
Lemma left_join_one (b : LandBlocks.row) (plots : list LandPlots.row) :
  left_join_plots [b] plots
  = map (fun s => (b, s))
        (match filter (fun p => sql_eq N.eqb (Some (LandBlocks.id b)) (LandPlots.block_id p))
                      plots with
         | [] => [None]
         | matched => map Some matched
         end).
Proof.
  unfold left_join_plots. cbn [flat_map]. rewrite List.app_nil_r.
  destruct (filter _ plots); [reflexivity|]. now rewrite map_map.
Qed.

(** The blocks of a property that have a given name. *)
Lemma blocks_named (p : uuid) (name : string) (db : database) :
  filter (fun blocks =>
            sql_eq N.eqb (LandBlocks.property_id blocks) (Some p)
            && String.eqb (LandBlocks.name blocks) name)
         (land_blocks db)
  = filter (fun blocks => String.eqb (LandBlocks.name blocks) name) (blocks_of_property p db).
Proof. apply filter_andb. Qed.

(** X9. Under the unique index on block names, looking up a block of a
    property by its exact name returns one row: the key, name and
    description of the block, the number of its plots and the number of its
    plots whose status is 'available'. *)
Theorem block_by_name_found (p : uuid) (b : LandBlocks.row) (db : database) :
  unique_block_names db ->
  In b (land_blocks db) ->
  LandBlocks.property_id b = Some p ->
  get_land_block_by_name p (LandBlocks.name b) db
  = [ {| BlockSummary.block_id := LandBlocks.id b;
         BlockSummary.block_name := LandBlocks.name b;
         BlockSummary.block_description := LandBlocks.description b;
         BlockSummary.total_plots :=
           Z.of_nat (List.length (plots_in_block (LandBlocks.id b) db));
         BlockSummary.available_plots :=
           Z.of_nat (List.length
                       (filter (fun lp => sql_eq String.eqb (LandPlots.status lp)
                                            (Some "available"))
                               (plots_in_block (LandBlocks.id b) db))) |} ].
Proof.
  intros U Hb Hp. unfold get_land_block_by_name. cbv zeta.
  rewrite blocks_named.
  rewrite (filter_unique (fun x => lower (LandBlocks.name x)) _ _ b (U p)).
  - rewrite left_join_one. fold (plots_in_block (LandBlocks.id b) db).
    remember (match plots_in_block (LandBlocks.id b) db with
              | [] => [None]
              | matched => map Some matched
              end) as sides eqn:S.
    assert (Hs : sides <> [])
      by (subst sides; destruct (plots_in_block (LandBlocks.id b) db); discriminate).
    rewrite (group_heads_one b sides Hs). cbn [map]. rewrite group_of_one.
    subst sides.
    destruct (plots_in_block (LandBlocks.id b) db) as [|lp plots] eqn:E; [reflexivity|].
    f_equal. f_equal.
    + rewrite (count_plot_side b (fun q => Some (LandPlots.id q))).
      cbn [is_not_null]. now rewrite filter_all_true by reflexivity.
    + unfold case_status.
      rewrite (count_plot_side b
                 (fun q => if sql_eq String.eqb (LandPlots.status q) (Some "available")
                           then Some 1%Z else None)).
      f_equal. f_equal. apply filter_ext. intro q.
      now destruct (sql_eq String.eqb (LandPlots.status q) (Some "available")).
  - apply filter_In. split; [exact Hb|]. rewrite Hp. cbn [sql_eq]. apply N.eqb_refl.
  - apply String.eqb_refl.
  - intros x _ Hx. apply String.eqb_eq in Hx. now rewrite Hx.
Qed.

(** The sample with two properties satisfies the unique index on block
    names. *)
Ltac sample_names :=
  let p := fresh "p" in
  intro p; unfold blocks_of_property, Estate.two_properties;
  cbn [land_blocks filter];
  repeat match goal with |- context [if ?c then _ else _] => destruct c end;
  repeat constructor; simpl; intuition discriminate.

Lemma block_by_name_found_witness :
  get_land_block_by_name 1 "Block A" Estate.two_properties
  = [ {| BlockSummary.block_id := 10;
         BlockSummary.block_name := "Block A";
         BlockSummary.block_description := None;
         BlockSummary.total_plots := 2;
         BlockSummary.available_plots := 1 |} ].
Proof.
  apply (block_by_name_found 1 Sample.block_a Estate.two_properties).
  - sample_names.
  - now left.
  - reflexivity.
Defined.

Lemma nodup_map_injective {A B} (f : A -> B) (l : list A) (x y : A) :
  NoDup (map f l) -> In x l -> In y l -> f x = f y -> x = y.
Proof.
  induction l as [|a l IH]; intros N Hx Hy E; [contradiction|].
  cbn [map] in N. inversion N as [|? ? Ha Nl]; subst.
  destruct Hx as [->|Hx], Hy as [->|Hy].
  - reflexivity.
  - exfalso. apply Ha. rewrite E. now apply in_map.
  - exfalso. apply Ha. rewrite <- E. now apply in_map.
  - now apply IH.
Qed.

(** X10. The lookup compares names exactly, the unique index compares
    them up to case. So for a name that differs from the name of a block of
    the property only in the case of its letters, the lookup returns no
    row, and a block of that name still cannot be inserted: the insert
    raises the unique violation. *)
Theorem block_by_name_is_case_sensitive (p : uuid) (b : LandBlocks.row) (name : string)
    (description : option string) (now : timestamptz) (db : database) :
  unique_block_names db ->
  In b (land_blocks db) ->
  LandBlocks.property_id b = Some p ->
  lower name = lower (LandBlocks.name b) ->
  name <> LandBlocks.name b ->
  get_land_block_by_name p name db = []
  /\ result_of (execute (insert_land_block (Some p) (Some name) description now) db)
     = Err (unique_violation "idx_land_blocks_unique_name_per_property").
Proof.
  intros U Hb Hp Hl Hn.
  assert (Hbp : In b (blocks_of_property p db)).
  { apply filter_In. split; [exact Hb|]. rewrite Hp. cbn [sql_eq]. apply N.eqb_refl. }
  split.
  - unfold get_land_block_by_name. cbv zeta. rewrite blocks_named.
    rewrite (filter_all_false _ (blocks_of_property p db)); [reflexivity|].
    intros x Hx. destruct (String.eqb (LandBlocks.name x) name) eqn:E; [|reflexivity].
    apply String.eqb_eq in E. exfalso. apply Hn. rewrite <- E. f_equal.
    apply (nodup_map_injective (fun r => lower (LandBlocks.name r)) _ x b (U p) Hx Hbp).
    now rewrite E.
  - assert (E : existsb
                  (fun r => sql_eq N.eqb (LandBlocks.property_id r) (Some p)
                            && String.eqb (lower (LandBlocks.name r)) (lower name))
                  (land_blocks db) = true).
    { apply existsb_exists. exists b. split; [exact Hb|].
      rewrite Hp, Hl. cbn [sql_eq]. now rewrite N.eqb_refl, String.eqb_refl. }
    unfold execute, insert_land_block, uuid_generate_v4, get_database, bind.
    cbn [land_blocks with_uuid_supply]. rewrite E. reflexivity.
Qed.

Lemma block_by_name_is_case_sensitive_witness :
  get_land_block_by_name 1 "block a" Estate.two_properties = []
  /\ result_of (execute (insert_land_block (Some 1%N) (Some "block a") None 200)
                  Estate.two_properties)
     = Err (unique_violation "idx_land_blocks_unique_name_per_property").
Proof.
  apply (block_by_name_is_case_sensitive 1 Sample.block_a "block a" None 200
           Estate.two_properties).
  - sample_names.
  - now left.
  - reflexivity.
  - reflexivity.
  - discriminate.
Defined.

(** ** Bulk insertion *)

(** X11. With [land_blocks] as the schema creates it,
    [bulk_insert_blocks_and_plots] inserts nothing. Its insert into
    [land_blocks] names a column [total_plots] that the table does not
    have, so an input with at least one block raises at the first block,
    whatever the block holds, and the database is left as it was. Only an
    empty array and a null input return, with the empty array. *)
Theorem bulk_insert_inserts_nothing (p : uuid) (now : timestamptz) (db : database) :
  (forall block blocks,
     execute (bulk_insert_blocks_and_plots p (Some (JArr (block :: blocks))) now) db
     = (db, [], Err (undefined_column "total_plots")))
  /\ execute (bulk_insert_blocks_and_plots p (Some (JArr [])) now) db
     = (db, [], Ok (Some (JArr [])))
  /\ execute (bulk_insert_blocks_and_plots p None now) db
     = (db, [], Ok (Some (JArr []))).
Proof. repeat split. Qed.

(** ** Price formats *)

Lemma take_drop_while (f : ascii -> bool) (s : string) :
  take_while f s ++ drop_while f s = s.
Proof.
  induction s as [|c s IH]; simpl; [reflexivity|].
  destruct (f c); simpl; [now rewrite IH | reflexivity].
Qed.

Lemma take_while_digits (s : string) : all_digits (take_while is_digit s) = true.
Proof.
  induction s as [|c s IH]; simpl; [reflexivity|].
  destruct (is_digit c) eqn:E; simpl; [now rewrite E | reflexivity].
Qed.

Lemma take_while_spaces (s : string) : all_spaces (take_while is_space s) = true.
Proof.
  induction s as [|c s IH]; simpl; [reflexivity|].
  destruct (is_space c) eqn:E; simpl; [now rewrite E | reflexivity].
Qed.

Lemma drop_while_stops (f : ascii -> bool) (s : string) : stops f (drop_while f s).
Proof.
  induction s as [|c s IH]; simpl; [exact I|].
  destruct (f c) eqn:E; [exact IH | exact E].
Qed.

Lemma drop_while_digits_append (a t : string) :
  all_digits a = true -> stops is_digit t -> drop_while is_digit (a ++ t) = t.
Proof.
  intros Ha Ht. induction a as [|c a IH]; cbn [append drop_while].
  - destruct t as [|c t]; [reflexivity|]. cbn [stops] in Ht. cbn [drop_while].
    now rewrite Ht.
  - cbn [all_digits all_spaces] in Ha. apply andb_prop in Ha as [Hc Ha].
    rewrite Hc. now apply IH.
Qed.

Lemma drop_while_spaces_append (a t : string) :
  all_spaces a = true -> stops is_space t -> drop_while is_space (a ++ t) = t.
Proof.
  intros Ha Ht. induction a as [|c a IH]; cbn [append drop_while].
  - destruct t as [|c t]; [reflexivity|]. cbn [stops] in Ht. cbn [drop_while].
    now rewrite Ht.
  - cbn [all_digits all_spaces] in Ha. apply andb_prop in Ha as [Hc Ha].
    rewrite Hc. now apply IH.
Qed.

Lemma shorter_rest (f : ascii -> bool) (s : string) :
  (String.length (drop_while f s) =? String.length s)%nat = false ->
  take_while f s <> EmptyString.
Proof.
  intros H E. rewrite <- (take_drop_while f s) in H at 2. rewrite E in H.
  simpl in H. now rewrite Nat.eqb_refl in H.
Qed.

Lemma longer_whole (a t : string) :
  a <> EmptyString ->
  (String.length t =? String.length (a ++ t))%nat = false.
Proof.
  intro H. apply Nat.eqb_neq. rewrite length_append.
  destruct a; [contradiction | simpl; lia].
Qed.

(** A number at the head of a text, and what follows it. *)
Lemma after_number_some (s rest : string) :
  after_number s = Some rest ->
  exists whole fraction,
    s = whole ++ fraction ++ rest
    /\ whole <> EmptyString /\ all_digits whole = true
    /\ (fraction = EmptyString
        \/ exists decimals,
             fraction = String "." decimals
             /\ decimals <> EmptyString /\ all_digits decimals = true).
Proof.
  unfold after_number.
  destruct (String.length (drop_while is_digit s) =? String.length s)%nat eqn:L;
    [discriminate|].
  pose proof (shorter_rest _ _ L) as Hw.
  pose proof (take_drop_while is_digit s) as Hs.
  destruct (drop_while is_digit s) as [|c fraction] eqn:R.
  - intros [= <-]. exists (take_while is_digit s), EmptyString.
    repeat split;
      [cbn [append]; symmetry; exact Hs | exact Hw | apply take_while_digits | now left].
  - destruct (Ascii.eqb c ".") eqn:P.
    + apply Ascii.eqb_eq in P. subst c.
      destruct (String.length (drop_while is_digit fraction) =? String.length fraction)%nat
        eqn:L'; [discriminate|].
      intros [= <-].
      exists (take_while is_digit s), (String "." (take_while is_digit fraction)).
      repeat split.
      * cbn [append]. rewrite take_drop_while. symmetry. exact Hs.
      * exact Hw.
      * apply take_while_digits.
      * right. exists (take_while is_digit fraction).
        repeat split; [now apply shorter_rest | apply take_while_digits].
    + intros [= <-]. exists (take_while is_digit s), EmptyString.
      repeat split;
      [cbn [append]; symmetry; exact Hs | exact Hw | apply take_while_digits | now left].
Qed.

(** The number at the head of a text is found when what follows it starts
    neither with a digit nor with a point. *)
Lemma after_number_append (whole fraction rest : string) :
  whole <> EmptyString -> all_digits whole = true ->
  (fraction = EmptyString
   \/ exists decimals,
        fraction = String "." decimals
        /\ decimals <> EmptyString /\ all_digits decimals = true) ->
  stops is_digit rest ->
  stops (fun c => Ascii.eqb c ".") rest ->
  after_number (whole ++ fraction ++ rest) = Some rest.
Proof.
  intros Hw Dw Hf Sd Sp. unfold after_number.
  destruct Hf as [-> | [decimals [-> [Hd Dd]]]].
  - cbn [append]. rewrite (drop_while_digits_append whole rest Dw Sd).
    rewrite (longer_whole whole rest Hw).
    destruct rest as [|c rest]; [reflexivity|].
    simpl in Sp. now rewrite Sp.
  - rewrite (drop_while_digits_append whole (String "." decimals ++ rest) Dw)
      by reflexivity.
    rewrite (longer_whole whole _ Hw). cbn [append].
    change (Ascii.eqb "." ".") with true. cbv iota.
    rewrite (drop_while_digits_append decimals rest Dd Sd).
    now rewrite (longer_whole decimals rest Hd).
Qed.

Lemma first_digit (s rest : string) :
  after_number s = Some rest ->
  exists c s', s = String c s' /\ is_digit c = true.
Proof.
  unfold after_number. destruct s as [|c s]; [discriminate|].
  cbn [drop_while]. destruct (is_digit c) eqn:E.
  - intros _. now exists c, s.
  - now rewrite Nat.eqb_refl.
Qed.

Lemma class_of_char (c : ascii) :
  (is_digit c = true -> Ascii.eqb c "$" = false /\ lower_char c = c)
  /\ (is_space c = true -> lower_char c = c)
  /\ (Ascii.eqb c "." = true -> lower_char c = c).
Proof.
  destruct c as [[] [] [] [] [] [] [] []]; vm_compute; repeat split; discriminate.
Qed.

(** A unit starts with a letter. *)
Lemma unit_head (unit : string) :
  In (lower unit) price_units ->
  stops is_digit unit /\ stops is_space unit /\ stops (fun c => Ascii.eqb c ".") unit.
Proof.
  intro H. destruct unit as [|c r]; [repeat split|].
  destruct (class_of_char c) as [Hd [Hs Hp]].
  cbn [lower] in H.
  assert (L : In (lower_char c) ["l"; "c"; "k"; "t"; "m"; "b"]%char).
  { unfold price_units in H. cbn [In] in H.
    repeat (destruct H as [H|H]; [injection H as <- _; cbn; tauto|]).
    contradiction. }
  repeat split; cbn [stops].
  - destruct (is_digit c) eqn:E; [|reflexivity].
    destruct (Hd eq_refl) as [_ Hl]. rewrite Hl in L. exfalso.
    cbn [In] in L. repeat (destruct L as [L|L]; [subst c; discriminate E|]). exact L.
  - destruct (is_space c) eqn:E; [|reflexivity].
    rewrite (Hs eq_refl) in L. exfalso.
    cbn [In] in L. repeat (destruct L as [L|L]; [subst c; discriminate E|]). exact L.
  - destruct (Ascii.eqb c ".") eqn:E; [|reflexivity].
    rewrite (Hp eq_refl) in L. exfalso.
    cbn [In] in L. repeat (destruct L as [L|L]; [subst c; discriminate E|]). exact L.
Qed.

Lemma space_is_no_digit (c : ascii) :
  is_space c = true -> is_digit c = false /\ Ascii.eqb c "." = false.
Proof.
  destruct c as [[] [] [] [] [] [] [] []]; vm_compute; intro; try discriminate; now split.
Qed.

(** What follows the number in an amount: white space and a unit. *)
Lemma tail_stops (spaces unit : string) :
  all_spaces spaces = true ->
  unit = EmptyString \/ In (lower unit) price_units ->
  stops is_digit (spaces ++ unit)
  /\ stops (fun c => Ascii.eqb c ".") (spaces ++ unit)
  /\ stops is_space unit.
Proof.
  intros Hs Hu.
  assert (U : stops is_digit unit /\ stops is_space unit
              /\ stops (fun c => Ascii.eqb c ".") unit).
  { destruct Hu as [->|Hu]; [repeat split | now apply unit_head]. }
  destruct U as [U1 [U2 U3]].
  destruct spaces as [|c spaces]; [now repeat split|].
  simpl in Hs. apply andb_prop in Hs as [Hc _].
  destruct (space_is_no_digit c Hc) as [H1 H2]. now repeat split.
Qed.

Lemma units_found (unit : string) :
  existsb (String.eqb unit) price_units = true <-> In unit price_units.
Proof.
  rewrite existsb_exists. split.
  - intros [u [Hu E]]. apply String.eqb_eq in E. now subst.
  - intro H. exists unit. split; [exact H | apply String.eqb_refl].
Qed.

Lemma length_zero (s : string) : (String.length s =? 0)%nat = true <-> s = EmptyString.
Proof. destruct s; simpl; split; congruence. Qed.

(** The second pattern accepts the texts of the amount format and no
    other. *)
Lemma matches_amount_format (s : string) :
  matches_amount s = true <-> amount_format s.
Proof.
  split.
  - unfold matches_amount.
    set (body := match s with
                 | String c r => if Ascii.eqb c "$" then r else s
                 | EmptyString => s
                 end).
    assert (Hbody : exists dollar, s = dollar ++ body
                                   /\ (dollar = EmptyString \/ dollar = "$")).
    { subst body. destruct s as [|c r]; [exists EmptyString; auto|].
      destruct (Ascii.eqb c "$") eqn:E.
      - apply Ascii.eqb_eq in E. subst c. exists "$". auto.
      - exists EmptyString. auto. }
    destruct Hbody as [dollar [Hs Hdollar]].
    destruct (after_number body) as [rest|] eqn:A; [|discriminate].
    intro H.
    destruct (after_number_some body rest A) as [whole [fraction [Hb [Hw [Dw Hf]]]]].
    exists dollar, whole, fraction, (take_while is_space rest), (drop_while is_space rest).
    rewrite take_drop_while. rewrite <- Hb.
    repeat split; try assumption.
    + apply take_while_spaces.
    + apply orb_prop in H as [H|H].
      * left. apply length_zero in H.
        destruct (drop_while is_space rest); [reflexivity | discriminate H].
      * right. now apply units_found.
  - intros [dollar [whole [fraction [spaces [unit [Hs [Hd [Hw [Dw [Hf [Sp Hu]]]]]]]]]]].
    destruct (tail_stops spaces unit Sp Hu) as [T1 [T2 T3]].
    pose proof (after_number_append whole fraction (spaces ++ unit) Hw Dw Hf T1 T2) as A.
    unfold matches_amount.
    assert (B : match s with
                | String c r => if Ascii.eqb c "$" then r else s
                | EmptyString => s
                end = whole ++ fraction ++ spaces ++ unit).
    { destruct Hd as [-> | ->]; subst s; cbn [append].
      - destruct whole as [|c whole]; [contradiction|]. cbn [append].
        simpl in Dw. apply andb_prop in Dw as [Dc _].
        destruct (class_of_char c) as [Hc _]. destruct (Hc Dc) as [-> _]. reflexivity.
      - reflexivity. }
    rewrite B, A. rewrite (drop_while_spaces_append spaces unit Sp T3).
    destruct Hu as [-> | Hu]; [reflexivity|].
    apply orb_true_intro. right. now apply units_found.
Qed.

(** The first pattern accepts nothing the second does not accept. *)
Lemma numeric_is_amount (s : string) :
  matches_numeric s = true -> matches_amount s = true.
Proof.
  unfold matches_numeric, matches_amount.
  destruct (after_number s) as [rest|] eqn:A; [|discriminate].
  intro H. apply length_zero in H. subst rest.
  destruct (first_digit s EmptyString A) as [c [s' [-> Hc]]].
  destruct (class_of_char c) as [Hd _]. destruct (Hd Hc) as [-> _].
  rewrite A. reflexivity.
Qed.

(** X12. The numeric pattern of [validate_plot_price] is redundant: every
    text it accepts is accepted by the pattern for amounts. The function
    accepts a price exactly when it is null, blank, or matches the pattern
    for amounts. *)
Theorem numeric_pattern_is_redundant (price_input : option string) :
  validate_plot_price price_input
  = match price_input with
    | None => true
    | Some s => blank s || matches_amount s
    end.
Proof.
  destruct price_input as [s|]; [|reflexivity].
  unfold validate_plot_price.
  destruct (blank s); [reflexivity|]. cbn [orb].
  destruct (matches_numeric s) eqn:N.
  - now rewrite (numeric_is_amount s N).
  - now destruct (matches_amount s).
Qed.

(** X13. The prices [validate_plot_price] accepts. A price that is not
    null is accepted exactly when it is blank or is made of an optional
    dollar sign, one or more digits, optionally a point and one or more
    digits, optional white space, and optionally one of the units, written
    in any case. Nothing may precede the number or follow the unit: a
    leading blank, a sign, a currency name or a separator of thousands
    makes the price invalid. *)
Theorem accepted_prices (s : string) :
  validate_plot_price (Some s) = true <-> blank s = true \/ amount_format s.
Proof.
  rewrite <- matches_amount_format. unfold validate_plot_price.
  destruct (blank s); [tauto|].
  destruct (matches_numeric s) eqn:N.
  - rewrite (numeric_is_amount s N). tauto.
  - destruct (matches_amount s); intuition discriminate.
Qed.

(** ** Plot numbering: allocation *)

Lemma integer_out_nonneg (z : Z) :
  (0 <= z)%Z -> integer_out z = NilZero.string_of_uint (N.to_uint (Z.to_N z)).
Proof. intro H. destruct z; [reflexivity | reflexivity | lia]. Qed.

Lemma prefix_append (p x : string) : String.prefix p (p ++ x) = true.
Proof.
  induction p as [|c p IH]; simpl; [now destruct x|].
  destruct (ascii_dec c c); [exact IH | contradiction].
Qed.

Lemma drop_append (p x : string) : string_drop (String.length p) (p ++ x) = x.
Proof. induction p as [|c p IH]; simpl; [now destruct x | exact IH]. Qed.

Lemma not_empty_length (s : string) :
  s <> EmptyString -> (String.length s =? 0)%nat = false.
Proof. destruct s; [contradiction | reflexivity]. Qed.

Lemma append_not_empty (a b : string) : b <> EmptyString -> a ++ b <> EmptyString.
Proof. destruct a; [trivial | discriminate]. Qed.

(** A plot number made of the prefix, zeros and the numeral of [n] has the
    suffix [n]. *)
Lemma suffix_of_padded (prefix : string) (k : nat) (n : Z) (p : LandPlots.row) :
  (0 <= n <= int4_max)%Z ->
  LandPlots.plot_number p = prefix ++ zeros k ++ integer_out n ->
  plot_number_suffix prefix p = Ok n.
Proof.
  intros Hn Hp. unfold plot_number_suffix, matches_prefix_digits, substring_from.
  rewrite Hp, prefix_append, Nat.add_sub, drop_append.
  rewrite integer_out_nonneg by lia.
  rewrite not_empty_length by (apply append_not_empty, decimal_not_empty).
  rewrite all_digits_append, all_digits_zeros, all_digits_decimal.
  cbn [andb negb]. unfold int4_in.
  rewrite digits_value_zeros by apply decimal_not_empty.
  rewrite digits_value_decimal, Z2N.id by lia.
  replace (in_int4 n) with true; [reflexivity|].
  symmetry. unfold in_int4, int4_min. apply andb_true_intro.
  split; apply Z.leb_le; lia.
Qed.

Lemma lpad_below_1000 (n : Z) :
  (0 <= n < 1000)%Z ->
  lpad (integer_out n) 3 "0" = zeros (3 - String.length (integer_out n)) ++ integer_out n.
Proof.
  intro H. unfold lpad.
  replace (3 <? String.length (integer_out n))%nat with false
    by (symmetry; apply Nat.ltb_ge, short_numbers; exact H).
  now rewrite (proj2 (fill_cycle_zeros _)).
Qed.

Lemma result_map_app {A B} (f : A -> result B) (l1 l2 : list A) (y1 y2 : list B) :
  result_map f l1 = Ok y1 -> result_map f l2 = Ok y2 ->
  result_map f (l1 ++ l2)%list = Ok (y1 ++ y2)%list.
Proof.
  revert y1. induction l1 as [|x l1 IH]; intros y1 H1 H2; simpl in *.
  - injection H1 as <-. exact H2.
  - destruct (f x) as [y|e]; [|discriminate]. cbn [result_bind] in *.
    destruct (result_map f l1) as [ys|e]; [|discriminate]. cbn [result_bind] in *.
    injection H1 as <-. now rewrite (IH ys eq_refl H2).
Qed.

Lemma result_map_in {A B} (f : A -> result B) (l : list A) (ys : list B) (x : A) :
  result_map f l = Ok ys -> In x l -> exists y, f x = Ok y /\ In y ys.
Proof.
  revert ys. induction l as [|a l IH]; intros ys H Hx; [contradiction|].
  simpl in H. destruct (f a) as [y|e] eqn:Fa; [|discriminate]. cbn [result_bind] in H.
  destruct (result_map f l) as [ys'|e]; [|discriminate]. cbn [result_bind] in H.
  injection H as <-. destruct Hx as [->|Hx].
  - exists y. split; [exact Fa | now left].
  - destruct (IH ys' eq_refl Hx) as [y' [Hy Hin]]. exists y'. split; [exact Hy | now right].
Qed.

Lemma result_map_values {A B} (f : A -> result B) (l : list A) (ys : list B) (y : B) :
  result_map f l = Ok ys -> In y ys -> exists x, In x l /\ f x = Ok y.
Proof.
  revert ys. induction l as [|a l IH]; intros ys H Hy; simpl in H.
  - injection H as <-. contradiction.
  - destruct (f a) as [y'|e] eqn:Fa; [|discriminate]. cbn [result_bind] in H.
    destruct (result_map f l) as [ys'|e]; [|discriminate]. cbn [result_bind] in H.
    injection H as <-. destruct Hy as [->|Hy].
    + exists a. split; [now left | exact Fa].
    + destruct (IH ys' eq_refl Hy) as [x [Hx Fx]]. exists x. split; [now right | exact Fx].
Qed.

Lemma max_int_bound (l : list Z) (y : Z) :
  In y l -> exists m, max_int l = Some m /\ (y <= m)%Z.
Proof.
  induction l as [|a l IH]; intro H; [contradiction|]. simpl.
  destruct H as [->|H].
  - destruct (max_int l) as [m|]; eexists; (split; [reflexivity | lia]).
  - destruct (IH H) as [m [-> Hm]]. eexists. split; [reflexivity | lia].
Qed.

Lemma max_int_member (l : list Z) (m : Z) : max_int l = Some m -> In m l.
Proof.
  revert m. induction l as [|a l IH]; intros m H; [discriminate|]. simpl in H.
  destruct (max_int l) as [m'|].
  - injection H as <-. destruct (Z.max_spec a m') as [[_ ->]|[_ ->]];
      [right; now apply IH | now left].
  - injection H as <-. now left.
Qed.

Lemma max_int_last (l : list Z) (x : Z) :
  max_int (l ++ [x])%list
  = Some (match max_int l with Some m => Z.max m x | None => x end).
Proof.
  induction l as [|a l IH]; [reflexivity|].
  cbn [app max_int]. rewrite IH.
  destruct (max_int l); f_equal; lia.
Qed.

(** The suffix of a plot number is never negative. *)
Lemma suffix_not_negative (prefix : string) (p : LandPlots.row) (v : Z) :
  plot_number_suffix prefix p = Ok v -> (0 <= v)%Z.
Proof.
  unfold plot_number_suffix, int4_in.
  destruct (matches_prefix_digits _ _); [|intros [= <-]; lia].
  destruct (digits_value _) as [n|]; [|discriminate].
  destruct (in_int4 _); [|discriminate]. intros [= <-]. lia.
Qed.

Lemma highest_not_negative (prefix : string) (plots : list LandPlots.row)
    (suffixes : list Z) :
  result_map (plot_number_suffix prefix) plots = Ok suffixes ->
  (0 <= coalesce (max_int suffixes) 0)%Z.
Proof.
  intro H. destruct (max_int suffixes) as [m|] eqn:M; [|simpl; lia].
  apply max_int_member in M.
  destruct (result_map_values _ _ _ _ H M) as [p [_ Hp]].
  simpl. now apply suffix_not_negative in Hp.
Qed.

(** The number the function returns, as long as the successor of the
    highest suffix fits 32 bits. *)
Lemma next_plot_number_value (b : uuid) (prefix : string) (db : database)
    (suffixes : list Z) :
  result_map (plot_number_suffix prefix)
    (filter (fun p => sql_eq N.eqb (LandPlots.block_id p) (Some b)) (land_plots db))
  = Ok suffixes ->
  (coalesce (max_int suffixes) 0 < int4_max)%Z ->
  get_next_plot_number b prefix db
  = Ok (prefix ++ lpad (integer_out (coalesce (max_int suffixes) 0 + 1)%Z) 3 "0").
Proof.
  intros Hs Hm. pose proof (highest_not_negative _ _ _ Hs) as H0.
  unfold get_next_plot_number. rewrite Hs. cbn [result_bind]. unfold int4_add.
  replace (in_int4 (coalesce (max_int suffixes) 0 + 1)%Z) with true; [reflexivity|].
  symmetry. unfold in_int4, int4_min. unfold int4_max in *.
  apply andb_true_intro. split; apply Z.leb_le; lia.
Qed.

(** X14. For a prefix of letters and digits, the prefixes that stand for
    themselves in the pattern the function builds: when the suffixes of
    the plots of the block are all read and the highest is below 999, the
    number [get_next_plot_number] returns is new: no plot of the block has
    it as its plot number. The comparison is the exact one; the unique
    index of the table compares up to case. *)
Theorem next_plot_number_is_unused (b : uuid) (prefix : string) (db : database)
    (suffixes : list Z) :
  literal_pattern prefix = true ->
  result_map (plot_number_suffix prefix)
    (filter (fun p => sql_eq N.eqb (LandPlots.block_id p) (Some b)) (land_plots db))
  = Ok suffixes ->
  (coalesce (max_int suffixes) 0 < 999)%Z ->
  exists number,
    get_next_plot_number b prefix db = Ok number
    /\ forall p, In p (land_plots db) -> LandPlots.block_id p = Some b ->
                 LandPlots.plot_number p <> number.
Proof.
  intros _ Hs Hm. pose proof (highest_not_negative _ _ _ Hs) as H0.
  eexists. split.
  - apply (next_plot_number_value b prefix db suffixes Hs). unfold int4_max. lia.
  - intros p Hp Hb E.
    rewrite lpad_below_1000 in E by lia.
    apply (suffix_of_padded prefix) in E; [|unfold int4_max; lia].
    assert (Hin : In p (filter (fun p => sql_eq N.eqb (LandPlots.block_id p) (Some b))
                               (land_plots db))).
    { apply filter_In. split; [exact Hp|]. rewrite Hb. cbn [sql_eq]. apply N.eqb_refl. }
    destruct (result_map_in _ _ _ _ Hs Hin) as [y [Hy Hys]].
    rewrite E in Hy. injection Hy as <-.
    destruct (max_int_bound _ _ Hys) as [m [Hmax Hle]].
    rewrite Hmax in Hle. simpl in Hle. lia.
Qed.

Lemma next_plot_number_is_unused_witness :
  exists number,
    get_next_plot_number 10 "P" Sample.inventory = Ok number
    /\ forall p, In p (land_plots Sample.inventory) -> LandPlots.block_id p = Some 10%N ->
                 LandPlots.plot_number p <> number.
Proof.
  apply (next_plot_number_is_unused 10 "P" Sample.inventory [1; 2]%Z).
  - reflexivity.
  - reflexivity.
  - simpl. lia.
Defined.

(** The unique index can still refuse the number: a plot p001 does not
    match the prefix P and is not counted, and P001 clashes with it. *)
Example next_plot_number_clashes_up_to_case :
  let db := with_land_plots Sample.inventory [Sample.plot 11 "p001" 1200 "available"] in
  get_next_plot_number 10 "P" db = Ok "P001"
  /\ result_of (execute (insert_land_plot (Some 10%N) (Some "P001")
                           (Some (numeric_of_Z 900)) (Some "15 lakhs") (Some "available")
                           None 200) db)
     = Err (unique_violation "idx_land_plots_unique_plot_per_block").
Proof. split; reflexivity. Qed.

(** X15. Allocation counts up. For a prefix of letters and digits: when
    the suffixes of the plots of the block are all read, the highest is
    below 998, and the number the function returns is given to a new plot
    of the block, the next call returns the number after it. *)
Theorem next_plot_number_counts_up (b : uuid) (prefix : string) (db : database)
    (suffixes : list Z) (area : option numeric) (price status description : option string)
    (now : timestamptz) (key : uuid) :
  literal_pattern prefix = true ->
  result_map (plot_number_suffix prefix)
    (filter (fun p => sql_eq N.eqb (LandPlots.block_id p) (Some b)) (land_plots db))
  = Ok suffixes ->
  (coalesce (max_int suffixes) 0 < 998)%Z ->
  let highest := coalesce (max_int suffixes) 0%Z in
  let number := prefix ++ lpad (integer_out (highest + 1)%Z) 3 "0" in
  let inserted :=
    execute (insert_land_plot (Some b) (Some number) area price status description now) db in
  result_of inserted = Ok key ->
  get_next_plot_number b prefix db = Ok number
  /\ get_next_plot_number b prefix (state_after inserted)
     = Ok (prefix ++ lpad (integer_out (highest + 2)%Z) 3 "0").
Proof.
  intros _ Hs Hm. cbv zeta. intro Hres.
  pose proof (highest_not_negative _ _ _ Hs) as H0.
  split; [apply (next_plot_number_value b prefix db suffixes Hs); unfold int4_max; lia|].
  unfold execute in *.
  destruct (insert_land_plot _ _ _ _ _ _ _ db) as [k db' n|e db' n] eqn:I; [|discriminate].
  cbn [state_after fst].
  apply insert_land_plot_done in I
    as [number [plot_area [plot_price [Hn [_ [_ [Hplots _]]]]]]].
  injection Hn as <-.
  set (m := coalesce (max_int suffixes) 0%Z) in *.
  assert (Hs' : result_map (plot_number_suffix prefix)
                  (filter (fun p => sql_eq N.eqb (LandPlots.block_id p) (Some b))
                          (land_plots db'))
                = Ok (suffixes ++ [(m + 1)%Z])%list).
  { rewrite Hplots, filter_app. apply result_map_app; [exact Hs|].
    cbn [filter LandPlots.block_id sql_eq]. rewrite N.eqb_refl. cbn [result_map].
    rewrite (suffix_of_padded prefix (3 - String.length (integer_out (m + 1)%Z)) (m + 1)%Z).
    - reflexivity.
    - unfold int4_max. lia.
    - cbn [LandPlots.plot_number]. now rewrite lpad_below_1000 by lia. }
  assert (Hmax : coalesce (max_int (suffixes ++ [(m + 1)%Z])%list) 0%Z = (m + 1)%Z).
  { rewrite max_int_last. subst m.
    destruct (max_int suffixes) as [h|]; cbn [coalesce] in *; lia. }
  rewrite (next_plot_number_value b prefix db' _ Hs'); rewrite Hmax.
  - now replace (m + 1 + 1)%Z with (m + 2)%Z by lia.
  - unfold int4_max. lia.
Qed.

Lemma next_plot_number_counts_up_witness :
  get_next_plot_number 10 "P" Sample.inventory = Ok "P003"
  /\ get_next_plot_number 10 "P"
       (state_after
          (execute (insert_land_plot (Some 10%N) (Some "P003") (Some (numeric_of_Z 900))
                      (Some "15 lakhs") (Some "available") None 200) Sample.inventory))
     = Ok "P004".
Proof.
  apply (next_plot_number_counts_up 10 "P" Sample.inventory [1; 2]%Z
           (Some (numeric_of_Z 900)) (Some "15 lakhs") (Some "available") None 200 50).
  - reflexivity.
  - reflexivity.
  - simpl. lia.
  - reflexivity.
Defined.

(** ** Plot numbering: the bounds *)

Lemma of_uint_acc_bound (d : Decimal.uint) :
  forall acc,
    (Z.pos (Pos.of_uint_acc d acc)
     < (Z.pos acc + 1) * 10 ^ Z.of_nat (Decimal.nb_digits d))%Z.
Proof.
  induction d; intro acc; cbn [Decimal.nb_digits Pos.of_uint_acc];
    try (rewrite Nat2Z.inj_succ, Z.pow_succ_r by lia;
         match goal with
         | |- (Z.pos (Pos.of_uint_acc _ ?a) < _)%Z =>
             pose proof (IHd a) as B
         end;
         assert (0 < 10 ^ Z.of_nat (Decimal.nb_digits d))%Z by (apply Z.pow_pos_nonneg; lia);
         nia).
  rewrite Z.pow_0_r. lia.
Qed.

Lemma of_uint_bound (d : Decimal.uint) :
  (Z.of_N (N.of_uint d) < 10 ^ Z.of_nat (Decimal.nb_digits d))%Z.
Proof.
  unfold N.of_uint.
  induction d; cbn [Decimal.nb_digits Pos.of_uint];
    try (rewrite Nat2Z.inj_succ, Z.pow_succ_r by lia;
         assert (0 < 10 ^ Z.of_nat (Decimal.nb_digits d))%Z by (apply Z.pow_pos_nonneg; lia)).
  - simpl. lia.
  - lia.
  - pose proof (of_uint_acc_bound d 1). cbn [Z.of_N]. lia.
  - pose proof (of_uint_acc_bound d 2). cbn [Z.of_N]. lia.
  - pose proof (of_uint_acc_bound d 3). cbn [Z.of_N]. lia.
  - pose proof (of_uint_acc_bound d 4). cbn [Z.of_N]. lia.
  - pose proof (of_uint_acc_bound d 5). cbn [Z.of_N]. lia.
  - pose proof (of_uint_acc_bound d 6). cbn [Z.of_N]. lia.
  - pose proof (of_uint_acc_bound d 7). cbn [Z.of_N]. lia.
  - pose proof (of_uint_acc_bound d 8). cbn [Z.of_N]. lia.
  - pose proof (of_uint_acc_bound d 9). cbn [Z.of_N]. lia.
Qed.

Lemma length_string_of_uint (d : Decimal.uint) :
  String.length (NilEmpty.string_of_uint d) = Decimal.nb_digits d.
Proof. induction d; simpl; congruence. Qed.

(** A number of four digits or more has a numeral of four characters or
    more. *)
Lemma long_numbers (n : Z) :
  (1000 <= n)%Z -> (3 < String.length (integer_out n))%nat.
Proof.
  intro H. rewrite integer_out_nonneg by lia.
  pose proof (of_uint_bound (N.to_uint (Z.to_N n))) as B.
  rewrite DecimalN.Unsigned.of_to, Z2N.id in B by lia.
  unfold NilZero.string_of_uint.
  destruct (N.to_uint (Z.to_N n)) eqn:E;
    try (rewrite <- E in *; rewrite length_string_of_uint;
         destruct (le_lt_dec (Decimal.nb_digits (N.to_uint (Z.to_N n))) 3) as [L|L];
         [|exact L];
         exfalso;
         assert (10 ^ Z.of_nat (Decimal.nb_digits (N.to_uint (Z.to_N n))) <= 10 ^ 3)%Z
           by (apply Z.pow_le_mono_r; lia);
         lia).
  simpl in B. lia.
Qed.

Lemma append_cancel (p a b : string) : p ++ a = p ++ b -> a = b.
Proof. induction p as [|c p IH]; simpl; [trivial | intros [= H]; auto]. Qed.

(** X16. From 999 on the function does not count up. For a prefix of
    letters and digits: when the suffixes of the plots of the block are
    all read and the highest is 999 or more and below 2147483647, the
    number returned is the prefix and the first three digits of the
    successor: a number of three digits that is not the successor. *)
Theorem next_plot_number_from_999 (b : uuid) (prefix : string) (db : database)
    (suffixes : list Z) :
  literal_pattern prefix = true ->
  result_map (plot_number_suffix prefix)
    (filter (fun p => sql_eq N.eqb (LandPlots.block_id p) (Some b)) (land_plots db))
  = Ok suffixes ->
  (999 <= coalesce (max_int suffixes) 0 < int4_max)%Z ->
  let successor := (coalesce (max_int suffixes) 0 + 1)%Z in
  get_next_plot_number b prefix db = Ok (prefix ++ string_take 3 (integer_out successor))
  /\ get_next_plot_number b prefix db <> Ok (prefix ++ integer_out successor).
Proof.
  intros _ Hs Hm. cbv zeta.
  rewrite (next_plot_number_value b prefix db suffixes Hs) by lia.
  pose proof (long_numbers (coalesce (max_int suffixes) 0 + 1)%Z ltac:(lia)) as L.
  unfold lpad. replace (3 <? _)%nat with true by (symmetry; now apply Nat.ltb_lt).
  split; [reflexivity|].
  remember (string_take 3 (integer_out (coalesce (max_int suffixes) 0 + 1)%Z))
    as first_three eqn:C.
  intros [= E]. apply append_cancel in E.
  apply (f_equal String.length) in E. rewrite C, length_take in E; lia.
Qed.

Lemma next_plot_number_from_999_witness :
  get_next_plot_number 10 "P" Sample.full_block = Ok "P100"
  /\ get_next_plot_number 10 "P" Sample.full_block <> Ok "P1000".
Proof.
  apply (next_plot_number_from_999 10 "P" Sample.full_block [1; 999]%Z).
  - reflexivity.
  - reflexivity.
  - unfold int4_max. simpl. lia.
Defined.

Lemma digit_is_parsed (c : ascii) (d : Decimal.uint) :
  is_digit c = true -> uint_of_char c (Some d) <> None.
Proof.
  destruct c as [[] [] [] [] [] [] [] []]; vm_compute; intro; discriminate.
Qed.

Lemma digits_are_parsed (s : string) :
  all_digits s = true -> NilEmpty.uint_of_string s <> None.
Proof.
  induction s as [|c s IH]; cbn [all_digits NilEmpty.uint_of_string]; [discriminate|].
  intro H. apply andb_prop in H as [Hc Hs].
  destruct (NilEmpty.uint_of_string s) as [d|]; [|now apply IH in Hs].
  now apply digit_is_parsed.
Qed.

Lemma digits_have_value (s : string) :
  s <> EmptyString -> all_digits s = true -> exists n, digits_value s = Some n.
Proof.
  intros Hs Hd. unfold digits_value, NilZero.uint_of_string.
  destruct s as [|c s]; [contradiction|].
  pose proof (digits_are_parsed _ Hd) as P.
  destruct (NilEmpty.uint_of_string (String c s)) as [d|]; [|contradiction].
  eexists. reflexivity.
Qed.

(** The suffix of a plot number is read, or is out of range. *)
Lemma suffix_or_out_of_range (prefix : string) (p : LandPlots.row) :
  (exists v, plot_number_suffix prefix p = Ok v)
  \/ (exists message,
        plot_number_suffix prefix p = Err (numeric_value_out_of_range message)).
Proof.
  unfold plot_number_suffix, matches_prefix_digits, substring_from.
  rewrite Nat.add_sub.
  destruct (String.prefix prefix (LandPlots.plot_number p)); [|left; now eexists].
  destruct (String.length _ =? 0)%nat eqn:L; [left; now eexists|].
  destruct (all_digits _) eqn:D; [|left; now eexists].
  cbn [andb negb]. unfold int4_in.
  destruct (digits_have_value _ ltac:(intro E; rewrite E in L; discriminate L) D) as [n ->].
  destruct (in_int4 (Z.of_N n)); [left; now eexists | right; now eexists].
Qed.

(** A scan in which every row is read or fails in one way, and some row
    fails, fails in that way. *)
Lemma result_map_first_error {A B} (f : A -> result B) (l : list A)
    (kind : sqlerror -> Prop) :
  (forall x, In x l -> (exists y, f x = Ok y) \/ (exists e, f x = Err e /\ kind e)) ->
  (exists x e, In x l /\ f x = Err e) ->
  exists e, result_map f l = Err e /\ kind e.
Proof.
  induction l as [|a l IH]; intros H [x [e [Hx Fx]]]; [contradiction|].
  cbn [result_map].
  destruct (H a (or_introl eq_refl)) as [[y Fa]|[e' [Fa Ke]]]; rewrite Fa.
  - cbn [result_bind]. destruct IH as [e' [E Ke]].
    + intros z Hz. apply H. now right.
    + destruct Hx as [->|Hx]; [congruence|]. now exists x, e.
    + rewrite E. now exists e'.
  - now exists e'.
Qed.

(** X17. One plot number beyond the range of INTEGER stops the numbering
    of its block. For a prefix of letters and digits: when a plot of the
    block has the prefix followed by digits whose value exceeds
    2147483647, every call for that block and prefix raises the error of
    a numeric value out of range. Its message quotes the digits of the
    plot the scan met. *)
Theorem next_plot_number_out_of_range (b : uuid) (prefix digits : string) (v : N)
    (p : LandPlots.row) (db : database) :
  literal_pattern prefix = true ->
  In p (land_plots db) ->
  LandPlots.block_id p = Some b ->
  LandPlots.plot_number p = prefix ++ digits ->
  all_digits digits = true ->
  digits_value digits = Some v ->
  (int4_max < Z.of_N v)%Z ->
  exists message,
    get_next_plot_number b prefix db = Err (numeric_value_out_of_range message).
Proof.
  intros _ Hp Hb Hn Hd Hv Hmax. unfold get_next_plot_number.
  destruct (result_map_first_error (plot_number_suffix prefix)
              (filter (fun x => sql_eq N.eqb (LandPlots.block_id x) (Some b))
                      (land_plots db))
              (fun e => exists message, e = numeric_value_out_of_range message))
    as [e [E [message ->]]].
  - intros x _.
    destruct (suffix_or_out_of_range prefix x) as [Hv'|[message Hm]]; [now left|].
    right. eexists. split; [exact Hm | now exists message].
  - exists p. eexists. split.
    + apply filter_In. split; [exact Hp|]. rewrite Hb. cbn [sql_eq]. apply N.eqb_refl.
    + unfold plot_number_suffix, matches_prefix_digits, substring_from.
      rewrite Hn, prefix_append, Nat.add_sub, drop_append, Hd.
      assert (E : digits <> EmptyString) by (intros ->; discriminate Hv).
      rewrite (not_empty_length _ E). cbn [andb negb]. unfold int4_in. rewrite Hv.
      replace (in_int4 (Z.of_N v)) with false; [reflexivity|].
      symmetry. unfold in_int4. apply andb_false_iff. right. apply Z.leb_gt. exact Hmax.
  - rewrite E. now exists message.
Qed.

Lemma next_plot_number_out_of_range_witness :
  exists message,
    get_next_plot_number 10 "P"
      (with_land_plots Sample.inventory [Sample.plot 11 "P2147483648" 1200 "available"])
    = Err (numeric_value_out_of_range message).
Proof.
  apply (next_plot_number_out_of_range 10 "P" "2147483648" 2147483648
           (Sample.plot 11 "P2147483648" 1200 "available")).
  - reflexivity.
  - now left.
  - reflexivity.
  - reflexivity.
  - reflexivity.
  - reflexivity.
  - unfold int4_max. lia.
Defined.

(** The message names the text that was cast. *)
Example next_plot_number_out_of_range_message :
  get_next_plot_number 10 "P"
    (with_land_plots Sample.inventory [Sample.plot 11 "P2147483648" 1200 "available"])
  = Err (numeric_value_out_of_range
           ("value " ++ quoted "2147483648" ++ " is out of range for type integer")).
Proof. reflexivity. Qed.

(** ** Booking never returns *)

(** X18. [update_plot_booking] never returns a value. [v_success] is a
    BOOLEAN that receives the row count, and the function ends on
    [v_success > 0], a comparison of a BOOLEAN with an INTEGER for which
    there is no operator. So every call raises, whatever the plot, the
    status and the user, and the statement that made the call leaves the
    database as it was: no booking is ever recorded through this
    function. *)
Theorem booking_never_returns (p_plot_id : uuid) (p_status : string)
    (p_user_id : option uuid) (now : timestamptz) (db : database) :
  exists e,
    execute (update_plot_booking p_plot_id p_status p_user_id now) db = (db, [], Err e).
Proof.
  unfold execute, update_plot_booking, update_plot_booking_statement, bind, get_database,
    set_database, raise, ret.
  destruct (existsb _ _ && negb _); [eexists; reflexivity|].
  cbn [app].
  destruct (assign_boolean _) as [v|e]; cbn [eval]; [|eexists; reflexivity].
  unfold ret. cbn [sql_gt eval]. eexists. reflexivity.
Qed.

(** ** Snapshots *)

(** X19. What a snapshot needs: a name that can be assigned to
    [VARCHAR(100)] and a property that exists. The name is assigned first:
    for a name of more than one hundred characters whose excess is not all
    spaces the call raises the error of the assignment. For any other
    name and a property that exists
    [create_property_land_configuration] succeeds in every state of the
    inventory and of the configurations: the active configuration of the
    property is set aside first, so the unique index cannot refuse the new
    one; and for a property that does not exist the call raises the
    foreign key violation. A call that raises changes nothing, and in
    every case the blocks, the plots and the status history are left as
    they were. *)
Theorem snapshot_needs_name_and_property (arrival : scan_order) (p : uuid)
    (name : string) (now : timestamptz) (db : database) :
  let saved := execute (create_property_land_configuration arrival p name now) db in
  result_of saved
  = (if (String.length name <=? 100)%nat || all_blank (string_drop 100 name)
     then
       if existsb (N.eqb p) (properties db) then Ok (uuid_supply db)
       else Err (foreign_key_violation "property_land_configurations_property_id_fkey")
     else Err (string_data_right_truncation
                 "value too long for type character varying(100)"))
  /\ (forall e, result_of saved = Err e -> state_after saved = db)
  /\ land_blocks (state_after saved) = land_blocks db
  /\ land_plots (state_after saved) = land_plots db
  /\ land_plot_status_history (state_after saved) = land_plot_status_history db.
Proof.
  cbv zeta.
  unfold execute, create_property_land_configuration, deactivate_configurations,
    insert_configuration, uuid_generate_v4, get_database, set_database,
    raise, ret, result_of, state_after, bind.
  cbn zeta.
  assert (V : varchar 100 name
              = if (String.length name <=? 100)%nat || all_blank (string_drop 100 name)
                then Ok (string_take 100 name)
                else Err (string_data_right_truncation
                            "value too long for type character varying(100)")).
  { destruct (Nat.leb_spec (String.length name) 100) as [H|H]; cbn [orb].
    - apply varchar_accepts. now left.
    - destruct (all_blank (string_drop 100 name)) eqn:B.
      + apply varchar_accepts. now right.
      + now apply varchar_refuses. }
  rewrite V.
  destruct ((String.length name <=? 100)%nat || all_blank (string_drop 100 name)); simpl.
  - rewrite (filter_none_existsb _ _
               (deactivated_none_active p now (property_land_configurations db))).
    destruct (existsb (N.eqb p) (properties db)); simpl; repeat split.
    intros e H. discriminate H.
  - repeat split.
Qed.

(** A name of at most one hundred characters is stored as it is, one of
    one hundred and one is cut when it ends in a space and refused when it
    does not. *)
Example snapshot_names :
  (forall name, (String.length name <= 100)%nat -> varchar 100 name = Ok name)
  /\ varchar 100 Sample.padded_name = Ok (string_take 100 Sample.padded_name)
  /\ result_of (execute (create_property_land_configuration Sample.table_order 1
                           (Sample.padded_name ++ "!") 200) Sample.inventory)
     = Err (string_data_right_truncation
              "value too long for type character varying(100)").
Proof. split; [exact (varchar_fits 100)|]. split; vm_compute; reflexivity. Qed.

(** ** Statistics *)

Lemma length_filter_app {A} (f : A -> bool) (l1 l2 : list A) :
  List.length (filter f (l1 ++ l2)%list)
  = (List.length (filter f l1) + List.length (filter f l2))%nat.
Proof. now rewrite filter_app, length_app. Qed.

Lemma count_app {A B} (e : A -> option B) (l1 l2 : list A) :
  count e (l1 ++ l2)%list = (count e l1 + count e l2)%Z.
Proof. unfold count. rewrite length_filter_app. lia. Qed.

Lemma count_cons {A B} (e : A -> option B) (x : A) (l : list A) :
  count e (x :: l) = ((if is_not_null (e x) then 1 else 0) + count e l)%Z.
Proof.
  unfold count. cbn [filter]. destruct (is_not_null (e x)); cbn [List.length]; lia.
Qed.

(** A row of the join is counted under at most one status, and only when
    it has a plot. *)
Lemma one_status_per_row (r : LandBlocks.row * option LandPlots.row) :
  ((if is_not_null (case_status "available" r) then 1 else 0)
   + (if is_not_null (case_status "booked" r) then 1 else 0)
   + (if is_not_null (case_status "sold" r) then 1 else 0)
   + (if is_not_null (case_status "reserved" r) then 1 else 0)
   <= (if is_not_null (option_map LandPlots.id (snd r)) then 1 else 0))%Z.
Proof.
  unfold case_status. destruct (snd r) as [lp|]; cbn [option_map is_not_null]; [|lia].
  destruct (LandPlots.status lp) as [s|]; cbn [sql_eq is_not_null]; [|lia].
  destruct (String.eqb_spec s "available") as [->|]; [cbn; lia|].
  destruct (String.eqb_spec s "booked") as [->|]; [cbn; lia|].
  destruct (String.eqb_spec s "sold") as [->|]; [cbn; lia|].
  destruct (String.eqb s "reserved"); cbn; lia.
Qed.

Lemma status_counts_bounded (rows : list (LandBlocks.row * option LandPlots.row)) :
  (0 <= count (case_status "available") rows
   /\ 0 <= count (case_status "booked") rows
   /\ 0 <= count (case_status "sold") rows
   /\ 0 <= count (case_status "reserved") rows
   /\ count (case_status "available") rows + count (case_status "booked") rows
      + count (case_status "sold") rows + count (case_status "reserved") rows
      <= count (fun r => option_map LandPlots.id (snd r)) rows)%Z.
Proof.
  induction rows as [|r rows IH].
  - unfold count. simpl. lia.
  - rewrite !count_cons. pose proof (one_status_per_row r).
    repeat match goal with |- context [if ?c then _ else _] => destruct c end; lia.
Qed.

(** The rows of the join that are counted under a status are the plots of
    the blocks with that status. *)
Lemma left_join_status_count (wanted : string) (blocks : list LandBlocks.row)
    (plots : list LandPlots.row) :
  count (case_status wanted) (left_join_plots blocks plots)
  = Z.of_nat
      (List.length
         (filter (fun lp => sql_eq String.eqb (LandPlots.status lp) (Some wanted))
            (flat_map
               (fun b => filter (fun p => sql_eq N.eqb (Some (LandBlocks.id b))
                                            (LandPlots.block_id p)) plots)
               blocks))).
Proof.
  induction blocks as [|a blocks IH]; [reflexivity|].
  unfold left_join_plots in *. cbn [flat_map].
  rewrite count_app, IH, filter_app, length_app, Nat2Z.inj_add. f_equal.
  destruct (filter _ plots) as [|q qs]; [reflexivity|].
  unfold count. f_equal.
  induction (q :: qs) as [|x l IHl]; [reflexivity|].
  cbn [map filter]. unfold case_status at 1. cbn [snd].
  destruct (sql_eq String.eqb (LandPlots.status x) (Some wanted));
    cbn [is_not_null List.length]; now rewrite IHl.
Qed.

Lemma length_filter_cons {A} (f : A -> bool) (x : A) (l : list A) :
  List.length (filter f (x :: l))
  = ((if f x then 1 else 0) + List.length (filter f l))%nat.
Proof. cbn [filter]. now destruct (f x). Qed.

(** A status is one of the four that are counted, or none of them. *)
Lemma one_class_per_status (s : option string) :
  ((if sql_eq String.eqb s (Some "available") then 1 else 0)
   + (if sql_eq String.eqb s (Some "booked") then 1 else 0)
   + (if sql_eq String.eqb s (Some "sold") then 1 else 0)
   + (if sql_eq String.eqb s (Some "reserved") then 1 else 0)
   + (if negb (counted_status s) then 1 else 0) = 1)%nat.
Proof.
  destruct s as [s|]; [|reflexivity].
  unfold counted_status. cbn [sql_eq existsb].
  destruct (String.eqb_spec s "available") as [->|]; [reflexivity|].
  destruct (String.eqb_spec s "booked") as [->|]; [reflexivity|].
  destruct (String.eqb_spec s "sold") as [->|]; [reflexivity|].
  destruct (String.eqb s "reserved"); reflexivity.
Qed.

(** Every plot has one of the four statuses that are counted, or none of
    them. *)
Lemma plots_by_status (plots : list LandPlots.row) :
  List.length plots
  = (List.length (filter (fun lp => sql_eq String.eqb (LandPlots.status lp)
                                      (Some "available")) plots)
     + List.length (filter (fun lp => sql_eq String.eqb (LandPlots.status lp)
                                        (Some "booked")) plots)
     + List.length (filter (fun lp => sql_eq String.eqb (LandPlots.status lp)
                                        (Some "sold")) plots)
     + List.length (filter (fun lp => sql_eq String.eqb (LandPlots.status lp)
                                        (Some "reserved")) plots)
     + List.length (filter (fun lp => negb (counted_status (LandPlots.status lp)))
                           plots))%nat.
Proof.
  induction plots as [|x plots IH]; [reflexivity|].
  rewrite !length_filter_cons. pose proof (one_class_per_status (LandPlots.status x)).
  cbn [List.length]. lia.
Qed.

Lemma nodup_filter_map {A B} (f : A -> B) (g : A -> bool) (l : list A) :
  NoDup (map f l) -> NoDup (map f (filter g l)).
Proof.
  induction l as [|x l IH]; cbn [map filter]; intro N; [constructor|].
  inversion N as [|? ? Hx Nl]; subst.
  destruct (g x); cbn [map]; [|now apply IH].
  constructor; [|now apply IH].
  intro H. apply Hx. apply in_map_iff in H as [y [E Hy]].
  apply filter_In in Hy as [Hy _]. rewrite <- E. now apply in_map.
Qed.

(** The rows of the join: each block of the list, once or more. *)
Lemma left_join_blocks (blocks : list LandBlocks.row) (plots : list LandPlots.row)
    (b : LandBlocks.row) :
  In b (map fst (left_join_plots blocks plots)) <-> In b blocks.
Proof.
  induction blocks as [|a blocks IH]; [simpl; tauto|].
  unfold left_join_plots in *. cbn [flat_map]. rewrite map_app, in_app_iff, IH.
  cbn [In].
  assert (H : In b (map fst
                      match filter (fun p => sql_eq N.eqb (Some (LandBlocks.id a))
                                               (LandPlots.block_id p)) plots with
                      | [] => [(a, None)]
                      | matched => map (fun p => (a, Some p)) matched
                      end) <-> a = b).
  { destruct (filter _ plots) as [|q qs]; [simpl; tauto|].
    rewrite map_map. cbn [fst map In]. split; [|now left].
    intros [H|H]; [exact H|]. apply in_map_iff in H as [x [H _]]. exact H. }
  tauto.
Qed.

Lemma left_join_plot_count (blocks : list LandBlocks.row) (plots : list LandPlots.row) :
  count (fun r : LandBlocks.row * option LandPlots.row => option_map LandPlots.id (snd r))
        (left_join_plots blocks plots)
  = Z.of_nat
      (List.length
         (flat_map
            (fun b => filter (fun p => sql_eq N.eqb (Some (LandBlocks.id b))
                                         (LandPlots.block_id p)) plots)
            blocks)).
Proof.
  induction blocks as [|a blocks IH]; [reflexivity|].
  unfold left_join_plots in *. cbn [flat_map]. rewrite count_app, IH, length_app.
  rewrite Nat2Z.inj_add. f_equal.
  destruct (filter _ plots) as [|q qs]; [reflexivity|].
  unfold count. rewrite filter_all_true.
  - now rewrite length_map.
  - intros r Hr. apply in_map_iff in Hr as [x [<- _]]. reflexivity.
Qed.

(** X20. What the four status counters of the statistics count. Each is
    the number of plots of the blocks of the property whose status is
    exactly that word. A plot with another status, as a blocked one, or
    with no status is in none of them: the plots of the property are those
    four numbers and the number of such plots together. *)
Theorem statistics_status_counts (p : uuid) (db : database) :
  let s := get_property_land_statistics p db in
  let plots :=
    flat_map (fun b => plots_in_block (LandBlocks.id b) db) (blocks_of_property p db) in
  let having wanted :=
    Z.of_nat (List.length
                (filter (fun lp => sql_eq String.eqb (LandPlots.status lp) (Some wanted))
                        plots)) in
  available_plots s = having "available"
  /\ booked_plots s = having "booked"
  /\ sold_plots s = having "sold"
  /\ reserved_plots s = having "reserved"
  /\ (total_plots s
      = available_plots s + booked_plots s + sold_plots s + reserved_plots s
        + Z.of_nat (List.length
                      (filter (fun lp => negb (counted_status (LandPlots.status lp)))
                              plots)))%Z.
Proof.
  cbv zeta. unfold get_property_land_statistics.
  cbn [available_plots booked_plots sold_plots reserved_plots total_plots].
  fold (blocks_of_property p db).
  rewrite !left_join_status_count, left_join_plot_count.
  repeat (split; [reflexivity|]).
  unfold plots_in_block.
  rewrite (plots_by_status
             (flat_map
                (fun b => filter (fun lp => sql_eq N.eqb (Some (LandBlocks.id b))
                                              (LandPlots.block_id lp)) (land_plots db))
                (blocks_of_property p db))) at 1.
  lia.
Qed.

(** A blocked plot is counted among the plots and under no status. *)
Example statistics_leave_blocked_plots_out :
  let s := get_property_land_statistics 1
             (with_land_plots Sample.inventory
                [Sample.plot 11 "P001" 1200 "available"; Sample.plot 12 "P002" 1500 "blocked"]) in
  total_plots s = 2%Z
  /\ (available_plots s + booked_plots s + sold_plots s + reserved_plots s = 1)%Z.
Proof. split; reflexivity. Qed.

(** X21. What the statistics count. With the primary key of the blocks in
    force, [total_blocks] is the number of blocks of the property, blocks
    without plots included, and [total_plots] is the number of plots of
    those blocks. *)
Theorem statistics_totals (p : uuid) (db : database) :
  unique_block_keys db ->
  let s := get_property_land_statistics p db in
  total_blocks s = Z.of_nat (List.length (blocks_of_property p db))
  /\ total_plots s
     = Z.of_nat
         (List.length
            (flat_map (fun b => plots_in_block (LandBlocks.id b) db)
                      (blocks_of_property p db))).
Proof.
  intro U. cbv zeta. unfold get_property_land_statistics.
  cbn [total_blocks total_plots].
  fold (blocks_of_property p db). split.
  - f_equal. rewrite <- (length_map LandBlocks.id (blocks_of_property p db)).
    apply Permutation_length. apply NoDup_Permutation.
    + apply NoDup_nodup.
    + apply nodup_filter_map. exact U.
    + intro k. rewrite nodup_In, <- (map_map fst LandBlocks.id).
      rewrite !in_map_iff. split; intros [b [E Hb]]; exists b; (split; [exact E|]).
      * now apply left_join_blocks in Hb.
      * now apply left_join_blocks.
  - apply left_join_plot_count.
Qed.

Lemma statistics_totals_witness :
  let s := get_property_land_statistics 1 Estate.two_properties in
  total_blocks s = 1%Z /\ total_plots s = 2%Z.
Proof.
  apply (statistics_totals 1 Estate.two_properties).
  unfold unique_block_keys. simpl. repeat constructor; simpl; intuition discriminate.
Defined.

(** ** Apply: what it installs, what it keeps, what it deletes *)

Lemma insert_land_block_history pid nm descr now :
  preserves land_plot_status_history (insert_land_block pid nm descr now).
Proof.
  intros db. run_rows. destruct nm; simpl; [|reflexivity].
  destruct (existsb _ _); simpl; [reflexivity|].
  destruct (references _ _); reflexivity.
Qed.

Lemma insert_land_plot_history b num a pr st descr now :
  preserves land_plot_status_history (insert_land_plot b num a pr st descr now).
Proof.
  intros db. run_rows.
  destruct num, a, pr; simpl; try reflexivity.
  destruct (numeric_positive _); simpl; [|reflexivity].
  destruct (valid_status _); simpl; [|reflexivity].
  destruct (existsb _ _); simpl; [reflexivity|].
  destruct (existsb _ _); simpl; [reflexivity|].
  destruct (references _ _); reflexivity.
Qed.

#[local] Hint Resolve insert_land_block_history insert_land_plot_history : frames.

Lemma apply_block_history pid now block :
  preserves land_plot_status_history (apply_block pid now block).
Proof. unfold apply_block, apply_plot. frame. Qed.

Lemma existsb_map {A B} (f : B -> bool) (g : A -> B) (l : list A) :
  existsb f (map g l) = existsb (fun x => f (g x)) l.
Proof. induction l as [|x l IH]; simpl; [reflexivity | now rewrite IH]. Qed.

Lemma filter_true {A} (l : list A) : filter (fun _ => true) l = l.
Proof. apply filter_all_true. reflexivity. Qed.

(** The cascade of the delete of the blocks finds no plot: the delete
    before it has removed the plots of those blocks. *)
Lemma cascade_finds_nothing (mine : list LandBlocks.row) (plots : list LandPlots.row) :
  filter (fun p => existsb (fun k => sql_eq N.eqb (LandPlots.block_id p) (Some k))
                     (map LandBlocks.id mine))
         (filter (fun p => negb (existsb
                                   (fun b => sql_eq N.eqb (LandPlots.block_id p)
                                               (Some (LandBlocks.id b)))
                                   mine))
                 plots)
  = [].
Proof.
  rewrite (filter_ext _
             (fun p => existsb (fun b => sql_eq N.eqb (LandPlots.block_id p)
                                           (Some (LandBlocks.id b))) mine)).
  - apply filter_filter_negb.
  - intro x.
    apply (existsb_map (fun k => sql_eq N.eqb (LandPlots.block_id x) (Some k))
             LandBlocks.id mine).
Qed.

(** The teardown of [apply_property_land_configuration] always succeeds.
    It removes the blocks of the property, their plots and the history of
    those plots, and nothing else. *)
Lemma teardown_state (pid : option uuid) (db : database) :
  clear_blocks_and_plots pid db
  = Done tt
      (with_land_blocks
         (with_history
            (with_land_plots db
               (filter
                  (fun x =>
                     negb (existsb
                             (fun b => sql_eq N.eqb (LandPlots.block_id x)
                                         (Some (LandBlocks.id b)))
                             (filter (fun b => sql_eq N.eqb (LandBlocks.property_id b) pid)
                                     (land_blocks db))))
                  (land_plots db)))
            (history_without (plots_of_property pid db) db))
         (filter (fun b => negb (sql_eq N.eqb (LandBlocks.property_id b) pid))
                 (land_blocks db)))
      [].
Proof.
  unfold clear_blocks_and_plots, delete_land_blocks, delete_land_plots, get_database,
    set_database, ret, bind.
  cbn [land_plots land_blocks land_plot_status_history with_history with_land_plots
       with_land_blocks app].
  rewrite (filter_negb_none _ _ (cascade_finds_nothing _ (land_plots db))).
  rewrite (cascade_finds_nothing _ (land_plots db)).
  cbn [map existsb negb]. rewrite filter_true.
  f_equal. unfold with_land_blocks, with_history, with_land_plots. cbn.
  f_equal. unfold history_without, plots_of_property.
  apply filter_ext. intro h. f_equal.
  apply (existsb_map (fun k => sql_eq N.eqb (StatusHistory.plot_id h) (Some k))
           LandPlots.id).
Qed.

(** The steps of a call of [apply_property_land_configuration] that
    returned. *)
Lemma apply_done (c : uuid) (now : timestamptz) (db db1 : database)
    (cfg : Configurations.row) (r : bool) (n : list string) :
  find (fun x => N.eqb (Configurations.id x) c && Configurations.active x)
       (property_land_configurations db) = Some cfg ->
  apply_property_land_configuration c now db = Done r db1 n ->
  exists cleared rows,
    clear_blocks_and_plots (Configurations.property_id cfg) db = Done tt cleared []
    /\ jsonb_array_elements (Some (Configurations.blocks_data cfg)) = Ok rows
    /\ for_each rows (apply_block (Configurations.property_id cfg) now) cleared
       = Done tt db1 n.
Proof.
  intros F A. unfold apply_property_land_configuration in A.
  apply bind_done in A as [db0 [db0' [n1 [n2 [Hget [A Hn]]]]]].
  injection Hget as <- <- <-. rewrite F in A.
  apply bind_done in A as [[] [cleared [nB [nB' [Hclear [A Hn2]]]]]].
  rewrite teardown_state in Hclear. injection Hclear as <- <-.
  apply bind_done in A as [rows [dbB' [n3 [n4 [Hrows [A Hn3]]]]]].
  apply eval_done in Hrows as [Hrows [-> ->]].
  apply bind_done in A as [[] [db2 [n5 [n6 [Hloop [Hret Hn4]]]]]].
  injection Hret as _ <- <-.
  eexists. exists rows. split; [apply teardown_state|]. split; [exact Hrows|].
  subst. cbn [app] in *. now rewrite List.app_nil_r.
Qed.

(** After a call that returned, the live inventory of the property reads
    as the payload, the texts cut to the widths of their columns. *)
Lemma apply_done_attributes (c p : uuid) (now : timestamptz) (db db1 : database)
    (cfg : Configurations.row) (r : bool) (n : list string) :
  keys_below_supply db ->
  find (fun x => N.eqb (Configurations.id x) c && Configurations.active x)
       (property_land_configurations db) = Some cfg ->
  Configurations.property_id cfg = Some p ->
  apply_property_land_configuration c now db = Done r db1 n ->
  exists attributes,
    payload_attributes (Configurations.blocks_data cfg) = Ok attributes
    /\ live_attributes p db1 = map stored_block attributes.
Proof.
  intros K F Hp A.
  destruct (apply_done c now db db1 cfg r n F A) as [cleared [rows [Hclear [Hrows Hloop]]]].
  rewrite Hp in *.
  destruct (teardown_done p db cleared [] K Hclear) as [Hnone [KB _]].
  destruct (apply_blocks_done p now rows cleared db1 n KB Hloop)
    as [attributes [Hattrs [Hlive _]]].
  exists attributes. split.
  - unfold payload_attributes. rewrite Hrows. exact Hattrs.
  - rewrite Hlive. unfold live_attributes at 1. now rewrite Hnone.
Qed.

(** X22. What a successful apply installs. After
    [apply_property_land_configuration] has returned for the active
    configuration of a property, the blocks and plots of the property are
    those the call inserted, in the order of the payload: for each block
    of the payload one block with its name and description, and for each
    plot of the block one plot with its plot number, area, price, status
    and description. The texts are as the columns hold them: a name, plot
    number, price or status longer than its column, which the insert
    accepts only when the excess is all spaces, is cut to the width of the
    column. When every text of the payload fits its column, the blocks and
    plots read exactly as the payload. Whatever the property held before
    is gone. *)
Theorem apply_installs_payload (c p : uuid) (now : timestamptz) (db : database)
    (cfg : Configurations.row) :
  keys_below_supply db ->
  find (fun x => N.eqb (Configurations.id x) c && Configurations.active x)
       (property_land_configurations db) = Some cfg ->
  Configurations.property_id cfg = Some p ->
  result_of (execute (apply_property_land_configuration c now) db) = Ok true ->
  let applied := state_after (execute (apply_property_land_configuration c now) db) in
  exists attributes,
    payload_attributes (Configurations.blocks_data cfg) = Ok attributes
    /\ live_attributes p applied = map stored_block attributes
    /\ (forallb block_fits attributes = true -> live_attributes p applied = attributes).
Proof.
  intros K F Hp Hres. cbv zeta. unfold execute in *.
  destruct (apply_property_land_configuration c now db) as [r db1 n|e db1 n] eqn:A;
    [|discriminate].
  cbn [state_after fst].
  destruct (apply_done_attributes c p now db db1 cfg r n K F Hp A)
    as [attributes [Hread Hlive]].
  exists attributes. split; [exact Hread|]. split; [exact Hlive|].
  intro Hfit. now rewrite Hlive, stored_blocks_fit.
Qed.

(** The keys of the sample with two properties were drawn from its
    supply. *)
Ltac sample_keys :=
  split;
  [ intros ? [<-|[<-|[]]]; reflexivity
  | intros ? ? [<-|[<-|[<-|[]]]] [= <-]; reflexivity ].

Lemma apply_installs_payload_witness :
  payload_attributes Sample.layout
  = Ok (live_attributes 1
          (state_after (execute (apply_property_land_configuration 20 200)
                          Estate.two_properties))).
Proof.
  destruct (apply_installs_payload 20 1 200 Estate.two_properties
              (Sample.configuration 20 Sample.layout true))
    as [attributes [Hread [_ Hfit]]].
  - sample_keys.
  - reflexivity.
  - reflexivity.
  - reflexivity.
  - change (Configurations.blocks_data (Sample.configuration 20 Sample.layout true))
      with Sample.layout in Hread.
    rewrite Hread. f_equal. symmetry. apply Hfit.
    vm_compute in Hread. injection Hread as <-. reflexivity.
Defined.

(** The padded name of the block is stored cut to one hundred
    characters. *)
Example apply_cuts_padded_names :
  let applied := execute (apply_property_land_configuration 20 200)
                   Sample.inventory_with_padded_layout in
  result_of applied = Ok true
  /\ map LandBlocks.name (land_blocks (state_after applied))
     = [string_take 100 Sample.padded_name]
  /\ String.length Sample.padded_name = 101%nat.
Proof. cbv zeta. repeat split; vm_compute; reflexivity. Qed.

(** X23. An apply deletes status history. After a successful apply the
    history rows of the plots the property had are gone with those plots:
    what remains of the history is the rows that reference none of them,
    in their order. The plots the apply creates start without history. *)
Theorem apply_deletes_history (c : uuid) (now : timestamptz) (db : database)
    (cfg : Configurations.row) :
  find (fun x => N.eqb (Configurations.id x) c && Configurations.active x)
       (property_land_configurations db) = Some cfg ->
  result_of (execute (apply_property_land_configuration c now) db) = Ok true ->
  land_plot_status_history
    (state_after (execute (apply_property_land_configuration c now) db))
  = history_without (plots_of_property (Configurations.property_id cfg) db) db.
Proof.
  intros F Hres. unfold execute in *.
  destruct (apply_property_land_configuration c now db) as [r db1 n|e db1 n] eqn:A;
    [|discriminate].
  cbn [state_after fst].
  destruct (apply_done c now db db1 cfg r n F A) as [cleared [rows [Hclear [_ Hloop]]]].
  pose proof (preserves_for_each land_plot_status_history rows
                (apply_block (Configurations.property_id cfg) now)
                (fun x => apply_block_history _ now x) cleared) as P.
  rewrite Hloop in P. cbn [reached] in P. rewrite P.
  rewrite teardown_state in Hclear. now injection Hclear as <-.
Qed.

Lemma apply_deletes_history_witness :
  land_plot_status_history
    (state_after (execute (apply_property_land_configuration 20 200) Sample.inventory))
  = [].
Proof.
  apply (apply_deletes_history 20 200 Sample.inventory
           (Sample.configuration 20 Sample.layout true)); reflexivity.
Defined.

Lemma filter_filter_implied {A} (f g : A -> bool) (l : list A) :
  (forall x, In x l -> f x = true -> g x = true) ->
  filter f (filter g l) = filter f l.
Proof.
  induction l as [|x l IH]; intro H; cbn [filter]; [reflexivity|].
  assert (IH' : filter f (filter g l) = filter f l)
    by (apply IH; intros y Hy; apply H; now right).
  destruct (g x) eqn:G; cbn [filter].
  - now rewrite IH'.
  - destruct (f x) eqn:Fx; [|exact IH'].
    rewrite (H x (or_introl eq_refl) Fx) in G. discriminate.
Qed.

Section ApplyFrame.

(** The property whose configuration is applied, another property, and the
    time of the call. *)
Variables (p q : uuid) (now : timestamptz).
Hypothesis other : q <> p.

Lemma teardown_other (db cleared : database) (n : list string) :
  unique_block_keys db ->
  clear_blocks_and_plots (Some p) db = Done tt cleared n ->
  inventory_of q cleared = inventory_of q db.
Proof.
  intros U H. rewrite teardown_state in H. injection H as <- _.
  unfold inventory_of.
  assert (B : blocks_of_property q
                (with_land_blocks
                   (with_history
                      (with_land_plots db
                         (filter
                            (fun x =>
                               negb (existsb
                                       (fun b => sql_eq N.eqb (LandPlots.block_id x)
                                                   (Some (LandBlocks.id b)))
                                       (filter
                                          (fun b => sql_eq N.eqb (LandBlocks.property_id b)
                                                      (Some p))
                                          (land_blocks db))))
                            (land_plots db)))
                      (history_without (plots_of_property (Some p) db) db))
                   (filter (fun b => negb (sql_eq N.eqb (LandBlocks.property_id b) (Some p)))
                           (land_blocks db)))
              = blocks_of_property q db).
  { unfold blocks_of_property. cbn [land_blocks with_land_blocks].
    apply filter_filter_implied. intros b _ Hb.
    destruct (LandBlocks.property_id b) as [k|]; [|discriminate Hb].
    cbn [sql_eq] in *. apply N.eqb_eq in Hb. subst k.
    apply negb_true_iff, N.eqb_neq. exact other. }
  rewrite B. apply map_ext_in. intros b Hb. f_equal.
  unfold plots_in_block. cbn [land_plots with_land_blocks with_history with_land_plots].
  apply filter_filter_implied. intros x _ Hx.
  apply negb_true_iff. destruct (existsb _ _) eqn:E; [|reflexivity].
  apply existsb_exists in E as [b' [Hb' E]].
  apply filter_In in Hb as [Hb Hq]. apply filter_In in Hb' as [Hb' Hp].
  destruct (LandPlots.block_id x) as [k|]; [|discriminate Hx].
  cbn [sql_eq] in Hx, E. apply N.eqb_eq in Hx, E.
  assert (b = b') by (apply (nodup_map_injective LandBlocks.id _ b b' U Hb Hb'); congruence).
  subst b'. destruct (LandBlocks.property_id b) as [j|]; [|discriminate Hq].
  cbn [sql_eq] in Hq, Hp. apply N.eqb_eq in Hq, Hp. congruence.
Qed.

Lemma apply_block_other (block : jsonb) (db db' : database) (n : list string) :
  keys_below_supply db ->
  apply_block (Some p) now block db = Done tt db' n ->
  inventory_of q db' = inventory_of q db.
Proof.
  intros [Kb Kp] H.
  apply apply_block_steps in H as [stored [k [db1 [n1 [rows [n2 [_ [Hb [_ Hloop]]]]]]]]].
  apply insert_land_block_done in Hb
    as [block_name [Hname [Hk [Hblocks [Hplots [Hprops Hsupply]]]]]].
  apply apply_plots_done in Hloop
    as [new_rows [attributes [Hplots' [Hblocks' [Hprops' [Hsupply' [Hall Hattrs]]]]]]].
  rewrite Hplots in Hplots'. rewrite Hblocks in Hblocks'.
  unfold inventory_of, blocks_of_property.
  rewrite Hblocks', filter_app. cbn [filter LandBlocks.property_id sql_eq].
  replace (N.eqb p q) with false by (symmetry; apply N.eqb_neq; congruence).
  rewrite List.app_nil_r. apply map_ext_in. intros b Hb. f_equal.
  apply filter_In in Hb as [Hb _].
  unfold plots_in_block. rewrite Hplots', filter_app.
  rewrite (filter_block_other (LandBlocks.id b) k new_rows Hall).
  - apply List.app_nil_r.
  - specialize (Kb b Hb). subst k. lia.
Qed.

Lemma apply_blocks_other (blocks : list jsonb) :
  forall db db' n,
    keys_below_supply db ->
    for_each blocks (apply_block (Some p) now) db = Done tt db' n ->
    inventory_of q db' = inventory_of q db.
Proof.
  induction blocks as [|x rest IH]; intros db db' n K H.
  - simpl in H. now injection H as <- <-.
  - simpl in H.
    apply bind_done in H as [[] [db1 [n1 [n2 [Hx [Hrest _]]]]]].
    destruct (apply_block_done p now x db db1 n1 K Hx) as [a [_ [_ [K1 _]]]].
    rewrite (IH _ _ _ K1 Hrest). exact (apply_block_other x db db1 n1 K Hx).
Qed.

End ApplyFrame.

(** X24. An apply touches one property. Whether it succeeds or fails, the
    apply of a configuration of property [p] leaves the blocks of every
    other property and the plots of those blocks as they were, row for
    row. *)
Theorem apply_leaves_other_properties (c p q : uuid) (now : timestamptz)
    (db : database) (cfg : Configurations.row) :
  keys_below_supply db ->
  unique_block_keys db ->
  find (fun x => N.eqb (Configurations.id x) c && Configurations.active x)
       (property_land_configurations db) = Some cfg ->
  Configurations.property_id cfg = Some p ->
  q <> p ->
  inventory_of q (state_after (execute (apply_property_land_configuration c now) db))
  = inventory_of q db.
Proof.
  intros K U F Hp Hq. unfold execute.
  destruct (apply_property_land_configuration c now db) as [r db1 n|e db1 n] eqn:A;
    [|reflexivity].
  cbn [state_after fst].
  destruct (apply_done c now db db1 cfg r n F A) as [cleared [rows [Hclear [_ Hloop]]]].
  rewrite Hp in *.
  destruct (teardown_done p db cleared [] K Hclear) as [_ [KB _]].
  rewrite (apply_blocks_other p q now Hq rows cleared db1 n KB Hloop).
  exact (teardown_other p q Hq db cleared [] U Hclear).
Qed.

Lemma apply_leaves_other_properties_witness :
  inventory_of 3
    (state_after (execute (apply_property_land_configuration 20 200)
                    Estate.two_properties))
  = [(Estate.block_z, [Estate.plot_z])].
Proof.
  apply (apply_leaves_other_properties 20 1 3 200 Estate.two_properties
           (Sample.configuration 20 Sample.layout true)).
  - sample_keys.
  - unfold unique_block_keys. simpl. repeat constructor; simpl; intuition discriminate.
  - reflexivity.
  - reflexivity.
  - discriminate.
Defined.

(** ** Snapshot, then apply *)

Lemma find_app_none {A} (f : A -> bool) (l1 l2 : list A) :
  (forall x, In x l1 -> f x = false) -> find f (l1 ++ l2)%list = find f l2.
Proof.
  induction l1 as [|x l1 IH]; intro H; [reflexivity|].
  cbn [app find]. rewrite (H x (or_introl eq_refl)). apply IH.
  intros y Hy. apply H. now right.
Qed.

(** The state a snapshot of an existing property leaves. *)
Lemma create_state (arrival : scan_order) (p : uuid) (name stored : string)
    (now : timestamptz) (db : database) :
  In p (properties db) ->
  varchar 100 name = Ok stored ->
  state_after (execute (create_property_land_configuration arrival p name now) db)
  = with_configurations
      (with_uuid_supply db (N.succ (uuid_supply db)))
      (map (fun c => if sql_eq N.eqb (Configurations.property_id c) (Some p)
                        && Configurations.active c
                     then Configurations.deactivate c now else c)
           (property_land_configurations db)
       ++ [ {| Configurations.id := uuid_supply db;
               Configurations.property_id := Some p;
               Configurations.configuration_name := stored;
               Configurations.blocks_data := current_blocks_json arrival p db;
               Configurations.is_active := Some true;
               Configurations.created_at := now;
               Configurations.updated_at := now |} ])%list.
Proof.
  intros Hp Hname.
  assert (Hr : existsb (N.eqb p) (properties db) = true).
  { apply existsb_exists. exists p. split; [exact Hp | apply N.eqb_refl]. }
  unfold execute, create_property_land_configuration, deactivate_configurations,
    insert_configuration, uuid_generate_v4, get_database, set_database,
    raise, ret, result_of, state_after, bind.
  cbn zeta. rewrite Hname. simpl.
  rewrite (filter_none_existsb _ _
             (deactivated_none_active p now (property_land_configurations db))).
  rewrite Hr. reflexivity.
Qed.

(** The saved configuration is found by its key. *)
Lemma saved_configuration_found (arrival : scan_order) (p : uuid) (name stored : string)
    (now : timestamptz) (db : database) :
  configuration_keys_below_supply db ->
  In p (properties db) ->
  varchar 100 name = Ok stored ->
  find (fun x => N.eqb (Configurations.id x) (uuid_supply db) && Configurations.active x)
       (property_land_configurations
          (state_after
             (execute (create_property_land_configuration arrival p name now) db)))
  = Some {| Configurations.id := uuid_supply db;
            Configurations.property_id := Some p;
            Configurations.configuration_name := stored;
            Configurations.blocks_data := current_blocks_json arrival p db;
            Configurations.is_active := Some true;
            Configurations.created_at := now;
            Configurations.updated_at := now |}.
Proof.
  intros Kc Hp Hname. rewrite (create_state arrival p name stored now db Hp Hname).
  cbn [property_land_configurations with_configurations].
  rewrite find_app_none.
  - cbn [find Configurations.id Configurations.active Configurations.is_active sql_eq
         Bool.eqb andb]. now rewrite N.eqb_refl.
  - intros x Hx. apply in_map_iff in Hx as [c [<- Hc]]. specialize (Kc c Hc).
    assert (E : N.eqb (Configurations.id c) (uuid_supply db) = false)
      by (apply N.eqb_neq; lia).
    destruct (sql_eq N.eqb (Configurations.property_id c) (Some p)
              && Configurations.active c);
      cbn [Configurations.id Configurations.deactivate]; now rewrite E.
Qed.

(** What a snapshot lists fits the columns when the rows do. *)
Lemma listed_attributes_fit (arrival : scan_order) (p : uuid) (db : database) :
  texts_fit_columns db -> forallb block_fits (listed_attributes arrival p db) = true.
Proof.
  intros [Wb Wp]. apply forallb_forall. intros a Ha.
  unfold listed_attributes in Ha. apply in_map_iff in Ha as [lb [<- Hlb]].
  apply (Permutation_in _ (blocks_rearranged arrival _)) in Hlb.
  apply filter_In in Hlb as [Hlb _].
  unfold block_fits, listed_block_attributes. cbn [name_of plots_of].
  rewrite (Wb lb Hlb). cbn [andb]. apply forallb_forall. intros x Hx.
  apply in_map_iff in Hx as [lp [<- Hlp]].
  apply (Permutation_in _ (plots_rearranged arrival _)) in Hlp.
  apply filter_In in Hlp as [Hlp _]. now apply Wp.
Qed.

(** When the apply of a fresh snapshot returns, the property reads as the
    snapshot listed it. *)
Lemma restored_attributes (arrival : scan_order) (p : uuid) (name stored : string)
    (now later : timestamptz) (db : database) :
  keys_below_supply db ->
  configuration_keys_below_supply db ->
  texts_fit_columns db ->
  In p (properties db) ->
  varchar 100 name = Ok stored ->
  let saved :=
    state_after (execute (create_property_land_configuration arrival p name now) db) in
  let applied := execute (apply_property_land_configuration (uuid_supply db) later) saved in
  result_of applied = Ok true ->
  live_attributes p (state_after applied) = listed_attributes arrival p db.
Proof.
  intros [Kb Kp] Kc W Hp Hname. cbv zeta.
  pose proof (saved_configuration_found arrival p name stored now db Kc Hp Hname) as F.
  rewrite (create_state arrival p name stored now db Hp Hname) in *.
  set (saved := with_configurations _ _) in *.
  intro Hres. unfold execute in *.
  destruct (apply_property_land_configuration (uuid_supply db) later saved)
    as [r db1 n|e db1 n] eqn:A; [|discriminate].
  cbn [state_after fst].
  assert (K : keys_below_supply saved).
  { split; subst saved; cbn [land_blocks land_plots uuid_supply with_configurations
                             with_uuid_supply].
    - intros b Hb. specialize (Kb b Hb). lia.
    - intros x k Hx Hk. specialize (Kp x k Hx Hk). lia. }
  destruct (apply_done_attributes (uuid_supply db) p later saved db1 _ r n K F eq_refl A)
    as [attributes [P Hlive]].
  cbn [Configurations.blocks_data] in P.
  rewrite payload_of_current_blocks in P. injection P as <-.
  rewrite Hlive. apply stored_blocks_fit. now apply listed_attributes_fit.
Qed.

(** X27. A payload that is not an array cannot be applied. The apply
    clears the property first and reads the payload after; on a payload
    that is an object or a scalar it raises there, and the statement
    leaves the blocks and plots as they were. *)
Theorem apply_needs_an_array (c : uuid) (now : timestamptz) (db : database)
    (cfg : Configurations.row) :
  find (fun x => N.eqb (Configurations.id x) c && Configurations.active x)
       (property_land_configurations db) = Some cfg ->
  (forall items, Configurations.blocks_data cfg <> JArr items) ->
  exists message,
    execute (apply_property_land_configuration c now) db
    = (db, [], Err (invalid_parameter_value message)).
Proof.
  intros F H. unfold execute, apply_property_land_configuration.
  unfold bind at 1. unfold get_database at 1. rewrite F.
  unfold bind at 1. rewrite teardown_state.
  unfold bind at 1.
  destruct (Configurations.blocks_data cfg) as [| | | |items|] eqn:E;
    try (eexists; reflexivity).
  now destruct (H items).
Qed.

Lemma apply_needs_an_array_witness :
  exists message,
    execute (apply_property_land_configuration 20 200)
      (with_configurations Sample.inventory
         [Sample.configuration 20 (JObj [("name", JStr "Block B")]) true])
    = (with_configurations Sample.inventory
         [Sample.configuration 20 (JObj [("name", JStr "Block B")]) true],
       [], Err (invalid_parameter_value message)).
Proof.
  apply (apply_needs_an_array 20 200 _
           (Sample.configuration 20 (JObj [("name", JStr "Block B")]) true)).
  - reflexivity.
  - discriminate.
Defined.

(** ** The constraints of the schema are kept *)

Lemma nodup_snoc {A} (l : list A) (x : A) : NoDup l -> ~ In x l -> NoDup (l ++ [x])%list.
Proof.
  induction l as [|a l IH]; intros N H; cbn [app].
  - constructor; [exact H | constructor].
  - inversion N as [|? ? Ha Nl]; subst. constructor.
    + intro Hin. apply in_app_iff in Hin as [Hin|[<-|[]]]; [now apply Ha|].
      apply H. now left.
    + apply IH; [exact Nl|]. intro Hin. apply H. now right.
Qed.

Lemma filter_comm {A} (f g : A -> bool) (l : list A) :
  filter f (filter g l) = filter g (filter f l).
Proof.
  induction l as [|x l IH]; cbn [filter]; [reflexivity|].
  destruct (f x) eqn:F, (g x) eqn:G; cbn [filter]; rewrite ?F, ?G, IH; reflexivity.
Qed.

Lemma references_found (keys : list uuid) (k : uuid) :
  references keys (Some k) = true <-> In k keys.
Proof.
  cbn [references]. rewrite existsb_exists. split.
  - intros [j [Hj E]]. apply N.eqb_eq in E. now subst.
  - intro H. exists k. split; [exact H | apply N.eqb_refl].
Qed.

(** A state that differs in the configurations and in a larger supply
    only. *)
Lemma inventory_frame (db db' : database) :
  land_blocks db' = land_blocks db ->
  land_plots db' = land_plots db ->
  (uuid_supply db <= uuid_supply db')%N ->
  inventory_consistent db -> inventory_consistent db'.
Proof.
  intros Hb Hp Hs [N [U [[Kb Kp] [R [P C]]]]].
  unfold inventory_consistent, unique_block_names, unique_block_keys, keys_below_supply,
    plots_have_blocks, unique_plot_numbers, plots_pass_checks, blocks_of_property,
    plots_in_block in *.
  rewrite Hb, Hp. repeat split; auto.
  - intros b H. specialize (Kb b H). lia.
  - intros x k H E. specialize (Kp x k H E). lia.
  - now apply C.
  - now apply C.
Qed.

(** A state from which blocks and plots were deleted, no plot being left
    without its block. *)
Lemma inventory_after_delete (g : LandBlocks.row -> bool) (h : LandPlots.row -> bool)
    (db db' : database) :
  land_blocks db' = filter g (land_blocks db) ->
  land_plots db' = filter h (land_plots db) ->
  uuid_supply db' = uuid_supply db ->
  (forall x b, In x (land_plots db) -> h x = true -> In b (land_blocks db) ->
               LandPlots.block_id x = Some (LandBlocks.id b) -> g b = true) ->
  inventory_consistent db -> inventory_consistent db'.
Proof.
  intros Hb Hp Hs Hkeep [N [U [[Kb Kp] [R [P C]]]]].
  unfold inventory_consistent, unique_block_names, unique_block_keys, keys_below_supply,
    plots_have_blocks, unique_plot_numbers, plots_pass_checks, blocks_of_property,
    plots_in_block in *.
  rewrite Hb, Hp, Hs. repeat split.
  - intro p. rewrite filter_comm. apply nodup_filter_map, N.
  - apply nodup_filter_map, U.
  - intros b H. apply filter_In in H as [H _]. now apply Kb.
  - intros x k H E. apply filter_In in H as [H _]. now apply (Kp x k).
  - intros x H. apply filter_In in H as [H Hx]. specialize (R x H).
    destruct (LandPlots.block_id x) as [k|] eqn:E; [|reflexivity].
    apply references_found in R. apply references_found.
    apply in_map_iff in R as [b [Hid Hin]]. apply in_map_iff. exists b.
    split; [exact Hid|]. apply filter_In. split; [exact Hin|].
    apply (Hkeep x b H Hx Hin). now rewrite Hid.
  - intro k. rewrite filter_comm. apply nodup_filter_map, P.
  - apply filter_In in H as [H _]. now apply C.
  - apply filter_In in H as [H _]. now apply C.
Qed.

(** What a successful insert of a block has checked and done. *)
Lemma insert_land_block_checked pid nm descr now db k db' n :
  insert_land_block pid nm descr now db = Done k db' n ->
  exists block_name,
    existsb (fun b => sql_eq N.eqb (LandBlocks.property_id b) pid
                      && String.eqb (lower (LandBlocks.name b)) (lower block_name))
            (land_blocks db) = false
    /\ land_blocks db'
       = (land_blocks db ++
          [ {| LandBlocks.id := uuid_supply db;
               LandBlocks.property_id := pid;
               LandBlocks.name := block_name;
               LandBlocks.description := descr;
               LandBlocks.created_at := now;
               LandBlocks.updated_at := now |} ])%list
    /\ land_plots db' = land_plots db
    /\ uuid_supply db' = N.succ (uuid_supply db).
Proof.
  unfold insert_land_block, bind, uuid_generate_v4, get_database, set_database, raise, ret.
  cbn [land_blocks properties with_uuid_supply].
  destruct nm as [block_name|]; [|discriminate].
  destruct (existsb
              (fun b => sql_eq N.eqb (LandBlocks.property_id b) pid
                        && String.eqb (lower (LandBlocks.name b)) (lower block_name))
              (land_blocks db)) eqn:E; [discriminate|].
  destruct (references (properties db) pid); cbn [negb]; [|discriminate].
  cbn [app]. intros [= <- <- <-]. exists block_name. repeat split. exact E.
Qed.

(** What a successful insert of a plot has checked and done. *)
Lemma insert_land_plot_checked b num a pr st descr now db k db' n :
  insert_land_plot b num a pr st descr now db = Done k db' n ->
  exists number plot_area plot_price,
    numeric_positive plot_area = true
    /\ valid_status st = true
    /\ existsb (fun p => sql_eq N.eqb (LandPlots.block_id p) b
                         && String.eqb (lower (LandPlots.plot_number p)) (lower number))
               (land_plots db) = false
    /\ references (map LandBlocks.id (land_blocks db)) b = true
    /\ land_plots db'
       = (land_plots db ++
          [ {| LandPlots.id := uuid_supply db;
               LandPlots.block_id := b;
               LandPlots.plot_number := number;
               LandPlots.area := plot_area;
               LandPlots.price := plot_price;
               LandPlots.status := st;
               LandPlots.description := descr;
               LandPlots.created_at := now;
               LandPlots.updated_at := now |} ])%list
    /\ land_blocks db' = land_blocks db
    /\ uuid_supply db' = N.succ (uuid_supply db).
Proof.
  unfold insert_land_plot, bind, uuid_generate_v4, get_database, set_database, raise, ret.
  cbn [land_plots land_blocks with_uuid_supply].
  destruct num as [number|], a as [plot_area|], pr as [plot_price|]; try discriminate.
  destruct (numeric_positive plot_area) eqn:E1; cbn [negb]; [|discriminate].
  destruct (valid_status st) eqn:E2; cbn [negb]; [|discriminate].
  destruct (existsb
              (fun p => sql_eq N.eqb (LandPlots.block_id p) b
                        && String.eqb (lower (LandPlots.plot_number p)) (lower number))
              (land_plots db)) eqn:E3; [discriminate|].
  destruct (existsb
              (fun p => sql_eq N.eqb (LandPlots.block_id p) b
                        && String.eqb (LandPlots.plot_number p) number)
              (land_plots db)); [discriminate|].
  destruct (references (map LandBlocks.id (land_blocks db)) b) eqn:E4; cbn [negb];
    [|discriminate].
  cbn [app]. intros [= <- <- <-]. exists number, plot_area, plot_price.
  repeat split; assumption.
Qed.

Lemma keeps_bind {A B} (m : plpgsql A) (k : A -> plpgsql B) :
  keeps_inventory m -> (forall a, keeps_inventory (k a)) -> keeps_inventory (bind m k).
Proof.
  intros Hm Hk db b db' n J H.
  apply bind_done in H as [a [db1 [n1 [n2 [H1 [H2 _]]]]]].
  exact (Hk a db1 b db' n2 (Hm db a db1 n1 J H1) H2).
Qed.

Lemma keeps_for_each {A} (rows : list A) (body : A -> plpgsql unit) :
  (forall x, keeps_inventory (body x)) -> keeps_inventory (for_each rows body).
Proof.
  intro H. induction rows as [|x rest IH]; cbn [for_each].
  - intros db a db' n J E. now injection E as _ <- _.
  - apply keeps_bind; [apply H | intros _; exact IH].
Qed.

Lemma keeps_eval {A} (r : result A) : keeps_inventory (eval r).
Proof.
  intros db a db' n J E. apply eval_done in E as [_ [-> _]]. exact J.
Qed.

Lemma keeps_ret {A} (a : A) : keeps_inventory (ret a).
Proof. intros db x db' n J E. now injection E as _ <- _. Qed.

Lemma insert_land_block_keeps pid nm descr now :
  keeps_inventory (insert_land_block pid nm descr now).
Proof.
  intros db k db' n [N [U [[Kb Kp] [R [P C]]]]] H.
  apply insert_land_block_checked in H as [block_name [Hcheck [Hb [Hp Hs]]]].
  unfold inventory_consistent, unique_block_names, unique_block_keys, keys_below_supply,
    plots_have_blocks, unique_plot_numbers, plots_pass_checks, blocks_of_property,
    plots_in_block in *.
  rewrite Hb, Hp, Hs. repeat split.
  - intro p. rewrite filter_app, map_app. cbn [filter LandBlocks.property_id].
    destruct (sql_eq N.eqb pid (Some p)) eqn:E; [|cbn [map]; rewrite List.app_nil_r; apply N].
    cbn [map LandBlocks.name]. apply nodup_snoc; [apply N|].
    intro Hin. apply in_map_iff in Hin as [b [Hl Hin]].
    apply filter_In in Hin as [Hin Hq].
    assert (T : existsb
                  (fun b => sql_eq N.eqb (LandBlocks.property_id b) pid
                            && String.eqb (lower (LandBlocks.name b)) (lower block_name))
                  (land_blocks db) = true).
    { apply existsb_exists. exists b. split; [exact Hin|].
      rewrite Hl, String.eqb_refl, andb_true_r.
      destruct pid as [j|]; [|discriminate E]. cbn [sql_eq] in E. apply N.eqb_eq in E.
      subst j. exact Hq. }
    rewrite T in Hcheck. discriminate.
  - rewrite map_app. cbn [map LandBlocks.id]. apply nodup_snoc; [exact U|].
    intro Hin. apply in_map_iff in Hin as [b [Hid Hin]]. specialize (Kb b Hin). lia.
  - intros b H. apply in_app_iff in H as [H|[<-|[]]].
    + specialize (Kb b H). lia.
    + cbn [LandBlocks.id]. lia.
  - intros x j H E. specialize (Kp x j H E). lia.
  - intros x H. specialize (R x H).
    destruct (LandPlots.block_id x) as [j|]; [|reflexivity].
    apply references_found in R. apply references_found.
    rewrite map_app. apply in_app_iff. now left.
  - apply P.
  - now apply C.
  - now apply C.
Qed.

Lemma insert_land_plot_keeps b num a pr st descr now :
  keeps_inventory (insert_land_plot b num a pr st descr now).
Proof.
  intros db k db' n [N [U [[Kb Kp] [R [P C]]]]] H.
  apply insert_land_plot_checked in H
    as [number [plot_area [plot_price [Harea [Hstatus [Hcheck [Href [Hp [Hb Hs]]]]]]]]].
  unfold inventory_consistent, unique_block_names, unique_block_keys, keys_below_supply,
    plots_have_blocks, unique_plot_numbers, plots_pass_checks, blocks_of_property,
    plots_in_block in *.
  rewrite Hb, Hp, Hs. repeat split.
  - apply N.
  - exact U.
  - intros x H. specialize (Kb x H). lia.
  - intros x j H E. apply in_app_iff in H as [H|[<-|[]]].
    + specialize (Kp x j H E). lia.
    + cbn [LandPlots.block_id] in E. subst b. apply references_found in Href.
      apply in_map_iff in Href as [blk [<- Hin]]. specialize (Kb blk Hin). lia.
  - intros x H. apply in_app_iff in H as [H|[<-|[]]]; [now apply R | exact Href].
  - intro j. rewrite filter_app, map_app. cbn [filter LandPlots.block_id].
    destruct (sql_eq N.eqb (Some j) b) eqn:E; [|cbn [map]; rewrite List.app_nil_r; apply P].
    cbn [map LandPlots.plot_number]. apply nodup_snoc; [apply P|].
    intro Hin. apply in_map_iff in Hin as [x [Hl Hin]].
    apply filter_In in Hin as [Hin Hq].
    assert (T : existsb
                  (fun p => sql_eq N.eqb (LandPlots.block_id p) b
                            && String.eqb (lower (LandPlots.plot_number p)) (lower number))
                  (land_plots db) = true).
    { apply existsb_exists. exists x. split; [exact Hin|].
      rewrite Hl, String.eqb_refl, andb_true_r.
      destruct b as [i|]; [|discriminate E]. cbn [sql_eq] in E. apply N.eqb_eq in E.
      subst i. rewrite sql_eq_uuid_sym. exact Hq. }
    rewrite T in Hcheck. discriminate.
  - apply in_app_iff in H as [H|[<-|[]]]; [now apply C | exact Harea].
  - apply in_app_iff in H as [H|[<-|[]]]; [now apply C | exact Hstatus].
Qed.

Lemma apply_block_keeps pid now block : keeps_inventory (apply_block pid now block).
Proof.
  unfold apply_block. apply keeps_bind; [apply keeps_eval|]. intro block_name.
  apply keeps_bind; [apply insert_land_block_keeps|]. intro k.
  apply keeps_bind; [apply keeps_eval|]. intro rows.
  apply keeps_for_each. intro x. unfold apply_plot.
  do 4 (apply keeps_bind; [apply keeps_eval|]; intro).
  apply keeps_bind; [apply insert_land_plot_keeps | intro; apply keeps_ret].
Qed.

Lemma teardown_keeps pid : keeps_inventory (clear_blocks_and_plots pid).
Proof.
  intros db a db' n J H. rewrite teardown_state in H. injection H as _ <- _.
  apply (inventory_after_delete
           (fun b => negb (sql_eq N.eqb (LandBlocks.property_id b) pid))
           (fun x => negb (existsb
                             (fun b => sql_eq N.eqb (LandPlots.block_id x)
                                         (Some (LandBlocks.id b)))
                             (filter (fun b => sql_eq N.eqb (LandBlocks.property_id b) pid)
                                     (land_blocks db))))
           db); try reflexivity; [|exact J].
  intros x b Hx Hh Hb E. apply negb_true_iff in Hh. apply negb_true_iff.
  destruct (sql_eq N.eqb (LandBlocks.property_id b) pid) eqn:Q; [|reflexivity].
  assert (T : existsb (fun b => sql_eq N.eqb (LandPlots.block_id x)
                                  (Some (LandBlocks.id b)))
                      (filter (fun b => sql_eq N.eqb (LandBlocks.property_id b) pid)
                              (land_blocks db)) = true).
  { apply existsb_exists. exists b. split; [apply filter_In; now split|].
    rewrite E. cbn [sql_eq]. apply N.eqb_refl. }
  rewrite T in Hh. discriminate.
Qed.

Lemma apply_keeps c now : keeps_inventory (apply_property_land_configuration c now).
Proof.
  unfold apply_property_land_configuration.
  intros db a db' n J H.
  apply bind_done in H as [db0 [db0' [n1 [n2 [Hget [H _]]]]]].
  injection Hget as <- <- _.
  destruct (find _ _) as [cfg|]; [|discriminate].
  revert H. apply keeps_bind; [apply teardown_keeps | intros _ | exact J].
  apply keeps_bind; [apply keeps_eval|]. intro rows.
  apply keeps_bind; [|intro; apply keeps_ret].
  apply keeps_for_each. intro x. apply apply_block_keeps.
Qed.

(** The state a statement leaves when its function keeps the
    constraints. *)
Lemma execute_keeps {A} (m : plpgsql A) (db : database) :
  keeps_inventory m -> inventory_consistent db ->
  inventory_consistent (state_after (execute m db)).
Proof.
  intros K J. unfold execute. destruct (m db) as [a db' n|e db' n] eqn:E; [|exact J].
  exact (K db a db' n J E).
Qed.

Lemma delete_block_keeps k : keeps_inventory (delete_land_block_safely k).
Proof.
  intros db a db' n J H.
  destruct (existsb (fun b => N.eqb (LandBlocks.id b) k) (land_blocks db)) eqn:E.
  - rewrite (delete_block_found k db E) in H. injection H as _ <- _.
    apply (inventory_after_delete
             (fun b => negb (N.eqb (LandBlocks.id b) k))
             (fun p => negb (sql_eq N.eqb (LandPlots.block_id p) (Some k)))
             db); try reflexivity; [|exact J].
    intros x b _ Hh _ Hx. rewrite Hx in Hh. exact Hh.
  - rewrite (delete_block_absent k db E) in H. now injection H as _ <- _.
Qed.

Lemma create_state_cases (arrival : scan_order) (p : uuid) (name : string)
    (now : timestamptz) (db : database) :
  let after :=
    state_after (execute (create_property_land_configuration arrival p name now) db) in
  after = db
  \/ (land_blocks after = land_blocks db /\ land_plots after = land_plots db
      /\ uuid_supply after = N.succ (uuid_supply db)).
Proof.
  cbv zeta.
  unfold execute, create_property_land_configuration, deactivate_configurations,
    insert_configuration, uuid_generate_v4, get_database, set_database,
    raise, ret, result_of, state_after, bind.
  cbn zeta. destruct (varchar 100 name) as [stored|e]; simpl; [|now left].
  destruct (existsb _ _); simpl; [now left|].
  destruct (existsb (N.eqb p) (properties db)); simpl; [right; repeat split | now left].
Qed.

Lemma bulk_insert_state (p : uuid) (blocks : option jsonb) (now : timestamptz)
    (db : database) :
  state_after (execute (bulk_insert_blocks_and_plots p blocks now) db) = db.
Proof.
  destruct blocks as [[| | | |[|block blocks]|]|]; reflexivity.
Qed.

Lemma run_call_keeps (arrival : scan_order) (db : database)
    (step : timestamptz * call) :
  consistent db -> consistent (run_call arrival db step).
Proof.
  intros [A J]. destruct step as [now [p name|c|source new_name|block|p blocks]];
    unfold run_call; cbn [fst snd].
  - split; [now apply create_keeps_one_active|].
    destruct (create_state_cases arrival p name now db) as [->|[Hb [Hp Hs]]]; [exact J|].
    apply (inventory_frame db _ Hb Hp); [lia | exact J].
  - split.
    + intro q.
      rewrite (same_configurations_same_active _ db (execute_apply_configurations c now db)).
      apply A.
    + apply execute_keeps; [apply apply_keeps | exact J].
  - destruct (duplicate_state source new_name now db) as [->|[copy [Hc ->]]];
      [now split|].
    split.
    + intro q. unfold active_configurations.
      cbn [property_land_configurations with_configurations].
      rewrite filter_app. cbn [filter]. unfold Configurations.active at 2.
      rewrite Hc. cbn [sql_eq Bool.eqb andb]. rewrite List.app_nil_r. apply A.
    + apply (inventory_frame db); [reflexivity | reflexivity | | exact J].
      cbn [uuid_supply with_configurations with_uuid_supply]. lia.
  - split.
    + intro q.
      assert (E : property_land_configurations
                    (state_after (execute (delete_land_block_safely block) db))
                  = property_land_configurations db).
      { unfold execute.
        destruct (existsb (fun b => N.eqb (LandBlocks.id b) block) (land_blocks db)) eqn:E.
        - now rewrite (delete_block_found block db E).
        - now rewrite (delete_block_absent block db E). }
      rewrite (same_configurations_same_active _ db E). apply A.
    + apply execute_keeps; [apply delete_block_keeps | exact J].
  - rewrite bulk_insert_state. now split.
Qed.

(** X26. Every sequence of calls keeps the constraints of the schema. Let
    the configurations of a property be saved, applied and copied, blocks
    be deleted and bulk inserts be attempted, in any order and with any
    arguments, each call in a statement of its own. If the database
    satisfied the constraints before, it satisfies them after: at most one
    active configuration per property; block names unique within a
    property and plot numbers unique within a block, up to case; unique
    block keys; every plot in a block that exists; and every plot with a
    positive area and a valid status. *)
Theorem calls_keep_the_constraints (arrival : scan_order)
    (steps : list (timestamptz * call)) (db : database) :
  consistent db -> consistent (run_calls arrival steps db).
Proof.
  unfold run_calls. revert db.
  induction steps as [|step steps IH]; intros db H; [exact H|].
  cbn [fold_left]. apply IH. now apply run_call_keeps.
Qed.

(** The sample with two properties satisfies the constraints. *)
Ltac sample_consistent :=
  split; [|split; [|split; [|split; [|split; [|split]]]]];
  [ let p := fresh "p" in
    intro p; unfold active_configurations; simpl;
    match goal with |- context [if ?b then _ else _] => destruct b end; simpl; lia
  | sample_names
  | unfold unique_block_keys; simpl; repeat constructor; simpl; intuition discriminate
  | sample_keys
  | intros ? [<-|[<-|[<-|[]]]]; reflexivity
  | let k := fresh "k" in
    intro k; unfold plots_in_block, Estate.two_properties; cbn [land_plots filter];
    repeat match goal with |- context [if ?c then _ else _] => destruct c end;
    repeat constructor; simpl; intuition discriminate
  | intros ? [<-|[<-|[<-|[]]]]; split; reflexivity ].

Lemma calls_keep_the_constraints_witness :
  consistent
    (run_calls Sample.reverse_order
       [ (200%N, call_save 1 "Today"); (300%N, call_apply 50);
         (400%N, call_duplicate 50 (Some "Copy")); (500%N, call_delete_block 14);
         (600%N, call_bulk_insert 1 (Some Sample.layout)) ]
       Estate.two_properties).
Proof.
  apply calls_keep_the_constraints. sample_consistent.
Defined.

(** ** A snapshot can be applied *)

Lemma existsb_none {A} (f : A -> bool) (l : list A) :
  (forall x, In x l -> f x = false) -> existsb f l = false.
Proof.
  intro H. destruct (existsb f l) eqn:E; [|reflexivity].
  apply existsb_exists in E as [x [Hx Fx]]. rewrite (H x Hx) in Fx. discriminate.
Qed.

(** An insert of a block that passes the checks. *)
Lemma insert_land_block_succeeds (p : uuid) (name : string) (descr : option string)
    (now : timestamptz) (db : database) :
  In p (properties db) ->
  (forall b, In b (land_blocks db) -> LandBlocks.property_id b = Some p ->
             lower (LandBlocks.name b) <> lower name) ->
  insert_land_block (Some p) (Some name) descr now db
  = Done (uuid_supply db)
      (with_land_blocks (with_uuid_supply db (N.succ (uuid_supply db)))
         (land_blocks db ++
          [ {| LandBlocks.id := uuid_supply db;
               LandBlocks.property_id := Some p;
               LandBlocks.name := name;
               LandBlocks.description := descr;
               LandBlocks.created_at := now;
               LandBlocks.updated_at := now |} ])%list)
      [].
Proof.
  intros Hp Hnew.
  unfold insert_land_block, bind, uuid_generate_v4, get_database, set_database, raise, ret.
  cbn [land_blocks properties with_uuid_supply].
  rewrite existsb_none.
  - replace (references (properties db) (Some p)) with true; [reflexivity|].
    symmetry. now apply references_found.
  - intros b Hb. destruct (LandBlocks.property_id b) as [j|] eqn:E; [|reflexivity].
    cbn [sql_eq]. destruct (N.eqb_spec j p) as [->|]; [|reflexivity].
    cbn [andb]. apply String.eqb_neq. now apply Hnew.
Qed.

(** An insert of a plot that passes the checks. *)
Lemma insert_land_plot_succeeds (k : uuid) (number : string) (plot_area : numeric)
    (price : string) (status descr : option string) (now : timestamptz) (db : database) :
  numeric_positive plot_area = true ->
  valid_status status = true ->
  In k (map LandBlocks.id (land_blocks db)) ->
  (forall x, In x (land_plots db) -> LandPlots.block_id x = Some k ->
             lower (LandPlots.plot_number x) <> lower number) ->
  insert_land_plot (Some k) (Some number) (Some plot_area) (Some price) status descr now db
  = Done (uuid_supply db)
      (with_land_plots (with_uuid_supply db (N.succ (uuid_supply db)))
         (land_plots db ++
          [ {| LandPlots.id := uuid_supply db;
               LandPlots.block_id := Some k;
               LandPlots.plot_number := number;
               LandPlots.area := plot_area;
               LandPlots.price := price;
               LandPlots.status := status;
               LandPlots.description := descr;
               LandPlots.created_at := now;
               LandPlots.updated_at := now |} ])%list)
      [].
Proof.
  intros Harea Hstatus Hk Hnew.
  unfold insert_land_plot, bind, uuid_generate_v4, get_database, set_database, raise, ret.
  cbn [land_plots land_blocks with_uuid_supply].
  rewrite Harea, Hstatus. cbn [negb].
  rewrite existsb_none.
  - rewrite existsb_none.
    + replace (references (map LandBlocks.id (land_blocks db)) (Some k)) with true;
        [reflexivity|].
      symmetry. now apply references_found.
    + intros x Hx. destruct (LandPlots.block_id x) as [j|] eqn:E; [|reflexivity].
      cbn [sql_eq]. destruct (N.eqb_spec j k) as [->|]; [|reflexivity].
      cbn [andb]. apply String.eqb_neq. intro Hn. apply (Hnew x Hx E). now rewrite Hn.
  - intros x Hx. destruct (LandPlots.block_id x) as [j|] eqn:E; [|reflexivity].
    cbn [sql_eq]. destruct (N.eqb_spec j k) as [->|]; [|reflexivity].
    cbn [andb]. apply String.eqb_neq. now apply Hnew.
Qed.

Lemma nodup_middle {A} (l1 l2 : list A) (x : A) :
  NoDup (l1 ++ x :: l2)%list -> ~ In x l1 /\ NoDup ((l1 ++ [x]) ++ l2)%list.
Proof.
  intro H. split.
  - intro Hin. apply NoDup_remove_2 in H. apply H. apply in_app_iff. now left.
  - now rewrite <- List.app_assoc.
Qed.

Section Restore.

(** The order of the snapshot, the property, the time of the apply and the
    database of which the snapshot was taken. *)
Variables (arrival : scan_order) (p : uuid) (now : timestamptz) (db : database).

(** The inner loop of the apply succeeds on the plots of a snapshot. *)
Lemma restore_plots (k : uuid) (plots : list LandPlots.row) :
  forall (saved : list LandPlots.row) (st : database),
    (forall x, In x plots ->
               numeric_positive (LandPlots.area x) = true
               /\ valid_status (LandPlots.status x) = true
               /\ plot_fits (live_plot_attributes x) = true) ->
    NoDup (map (fun x => lower (LandPlots.plot_number x)) (saved ++ plots)%list) ->
    In k (map LandBlocks.id (land_blocks st)) ->
    (forall x, In x (land_plots st) -> LandPlots.block_id x = Some k ->
               In (lower (LandPlots.plot_number x))
                  (map (fun y => lower (LandPlots.plot_number y)) saved)) ->
    exists st' n, for_each (map plot_object plots) (apply_plot k now) st = Done tt st' n.
Proof.
  induction plots as [|lp plots IH]; intros saved st C N Hk Hin.
  - exists st, []. reflexivity.
  - cbn [map for_each].
    destruct (C lp (or_introl eq_refl)) as [Harea [Hstatus Hfit]].
    unfold plot_fits, live_plot_attributes in Hfit.
    cbn [plot_number_of price_of status_of] in Hfit.
    apply andb_prop in Hfit as [Hfit Hfit_status].
    apply andb_prop in Hfit as [Hfit_number Hfit_price].
    rewrite map_app in N. cbn [map] in N.
    destruct (nodup_middle _ _ _ N) as [Hnew N'].
    assert (Hplot : apply_plot k now (plot_object lp) st
                    = Done tt
                        (with_land_plots (with_uuid_supply st (N.succ (uuid_supply st)))
                           (land_plots st ++
                            [ {| LandPlots.id := uuid_supply st;
                                 LandPlots.block_id := Some k;
                                 LandPlots.plot_number := LandPlots.plot_number lp;
                                 LandPlots.area := LandPlots.area lp;
                                 LandPlots.price := LandPlots.price lp;
                                 LandPlots.status := LandPlots.status lp;
                                 LandPlots.description := LandPlots.description lp;
                                 LandPlots.created_at := now;
                                 LandPlots.updated_at := now |} ])%list)
                        []).
    { unfold apply_plot, plot_object, jsonb_get_text, jsonb_get.
      cbn [assoc String.eqb Ascii.eqb Bool.eqb].
      rewrite !jsonb_text_of_text.
      cbn [jsonb_text jsonb_out cast_numeric]. rewrite numeric_in_out.
      rewrite (assign_varchar_fits 50 _ Hfit_number),
        (assign_varchar_fits 255 _ Hfit_price), (assign_varchar_fits 20 _ Hfit_status).
      cbn [result_bind eval]. unfold bind, ret.
      rewrite (insert_land_plot_succeeds k _ _ _ _ _ now st Harea Hstatus Hk).
      - reflexivity.
      - intros x Hx Hb E. apply Hnew. rewrite <- E. now apply Hin. }
    unfold bind. rewrite Hplot.
    destruct (IH (saved ++ [lp])%list
                 (with_land_plots (with_uuid_supply st (N.succ (uuid_supply st)))
                    (land_plots st ++
                     [ {| LandPlots.id := uuid_supply st;
                          LandPlots.block_id := Some k;
                          LandPlots.plot_number := LandPlots.plot_number lp;
                          LandPlots.area := LandPlots.area lp;
                          LandPlots.price := LandPlots.price lp;
                          LandPlots.status := LandPlots.status lp;
                          LandPlots.description := LandPlots.description lp;
                          LandPlots.created_at := now;
                          LandPlots.updated_at := now |} ])%list))
      as [st' [n Hrest]].
    + intros x Hx. apply C. now right.
    + rewrite !map_app. exact N'.
    + exact Hk.
    + cbn [land_plots with_land_plots]. intros x Hx Hb.
      rewrite map_app. apply in_app_iff.
      apply in_app_iff in Hx as [Hx|[<-|[]]]; [left; now apply Hin | right; now left].
    + rewrite Hrest. now exists st', n.
Qed.

(** The outer loop of the apply succeeds on the blocks of a snapshot. *)
Lemma restore_blocks (blocks : list LandBlocks.row) :
  forall (saved : list LandBlocks.row) (st : database),
    keys_below_supply st ->
    In p (properties st) ->
    NoDup (map (fun b => lower (LandBlocks.name b)) (saved ++ blocks)%list) ->
    (forall b, In b (land_blocks st) -> LandBlocks.property_id b = Some p ->
               In (lower (LandBlocks.name b))
                  (map (fun y => lower (LandBlocks.name y)) saved)) ->
    (forall b, In b blocks -> fits 100 (Some (LandBlocks.name b)) = true) ->
    (forall b x, In b blocks -> In x (plots_in_block (LandBlocks.id b) db) ->
                 numeric_positive (LandPlots.area x) = true
                 /\ valid_status (LandPlots.status x) = true
                 /\ plot_fits (live_plot_attributes x) = true) ->
    (forall b, In b blocks ->
               NoDup (map (fun x => lower (LandPlots.plot_number x))
                          (plots_in_block (LandBlocks.id b) db))) ->
    exists st' n,
      for_each (map (block_object arrival db) blocks) (apply_block (Some p) now) st
      = Done tt st' n.
Proof.
  induction blocks as [|lb blocks IH]; intros saved st K Hp N Hin W C U.
  - exists st, []. reflexivity.
  - cbn [map for_each].
    rewrite map_app in N. cbn [map] in N.
    destruct (nodup_middle _ _ _ N) as [Hnew N'].
    set (st1 := with_land_blocks (with_uuid_supply st (N.succ (uuid_supply st)))
                  (land_blocks st ++
                   [ {| LandBlocks.id := uuid_supply st;
                        LandBlocks.property_id := Some p;
                        LandBlocks.name := LandBlocks.name lb;
                        LandBlocks.description := LandBlocks.description lb;
                        LandBlocks.created_at := now;
                        LandBlocks.updated_at := now |} ])%list).
    pose proof (plots_rearranged arrival (plots_in_block (LandBlocks.id lb) db)) as Hperm.
    destruct (restore_plots (uuid_supply st)
                (plots_in_order arrival (plots_in_block (LandBlocks.id lb) db)) [] st1)
      as [st2 [n2 Hplots]].
    + intros x Hx. apply (C lb x); [now left|].
      exact (Permutation_in _ Hperm Hx).
    + cbn [app]. apply (Permutation_NoDup (Permutation_map _ (Permutation_sym Hperm))).
      apply U. now left.
    + subst st1. cbn [land_blocks with_land_blocks]. rewrite map_app.
      apply in_app_iff. right. now left.
    + subst st1. cbn [land_plots with_land_blocks with_uuid_supply].
      intros x Hx Hb. destruct K as [_ Kp]. specialize (Kp x _ Hx Hb). lia.
    + assert (Hblock : apply_block (Some p) now (block_object arrival db lb) st
                       = Done tt st2 n2).
      { unfold apply_block.
        replace (jsonb_get_text (Some (block_object arrival db lb)) "name")
          with (Some (LandBlocks.name lb)) by reflexivity.
        replace (jsonb_get_text (Some (block_object arrival db lb)) "description")
          with (LandBlocks.description lb)
          by (unfold block_object, jsonb_get_text, jsonb_get;
              cbn [assoc String.eqb Ascii.eqb Bool.eqb];
              now rewrite jsonb_text_of_text).
        replace (jsonb_array_elements
                   (jsonb_get (Some (block_object arrival db lb)) "plots"))
          with (Ok (map plot_object
                      (plots_in_order arrival (plots_in_block (LandBlocks.id lb) db))))
          by (unfold block_object, jsonb_get, plots_data;
              cbn [assoc String.eqb Ascii.eqb Bool.eqb];
              now rewrite coalesce_jsonb_agg).
        rewrite (assign_varchar_fits 100 _ (W lb (or_introl eq_refl))).
        cbn [eval]. unfold bind at 1. unfold ret at 1. unfold bind at 1.
        rewrite (insert_land_block_succeeds p _ _ now st Hp).
        - fold st1. cbn [eval]. unfold bind, ret. rewrite Hplots. reflexivity.
        - intros b Hb Hprop E. apply Hnew. rewrite <- E. now apply Hin. }
      unfold bind. rewrite Hblock.
      destruct (apply_block_done p now (block_object arrival db lb) st st2 n2 K Hblock)
        as [a [_ [_ [K2 Hprops]]]].
      apply apply_block_steps in Hblock
        as [stored [k [db1 [m1 [rows [m2 [Hstored [Hb [_ Hloop]]]]]]]]].
      assert (Hname : stored = Some (LandBlocks.name lb)).
      { change (jsonb_get_text (Some (block_object arrival db lb)) "name")
          with (Some (LandBlocks.name lb)) in Hstored.
        rewrite (assign_varchar_fits 100 _ (W lb (or_introl eq_refl))) in Hstored.
        now injection Hstored. }
      subst stored.
      apply insert_land_block_done in Hb
        as [block_name [Hname [Hk [Hblocks [_ _]]]]].
      injection Hname as <-.
      apply apply_plots_done in Hloop as [new_rows [attributes [_ [Hblocks' _]]]].
      destruct (IH (saved ++ [lb])%list st2) as [st' [n Hrest]].
      * exact K2.
      * now rewrite Hprops.
      * rewrite !map_app. exact N'.
      * intros b Hb Hprop. rewrite Hblocks', Hblocks in Hb.
        rewrite map_app. apply in_app_iff.
        apply in_app_iff in Hb as [Hb|[<-|[]]]; [left; now apply Hin|].
        right. cbn [LandBlocks.name map]. now left.
      * intros b Hb. apply W. now right.
      * intros b x Hb. apply C. now right.
      * intros b Hb. apply U. now right.
      * rewrite Hrest. now exists st', (n2 ++ n)%list.
Qed.

End Restore.

(** The apply of a fresh snapshot of a consistent inventory returns. *)
Lemma snapshot_applies (arrival : scan_order) (p : uuid) (name stored : string)
    (now later : timestamptz) (db : database) :
  inventory_consistent db ->
  configuration_keys_below_supply db ->
  texts_fit_columns db ->
  In p (properties db) ->
  varchar 100 name = Ok stored ->
  result_of
    (execute (apply_property_land_configuration (uuid_supply db) later)
       (state_after (execute (create_property_land_configuration arrival p name now) db)))
  = Ok true.
Proof.
  intros [N [U [[Kb Kp] [R [P C]]]]] Kc [Wb Wp] Hp Hname.
  pose proof (saved_configuration_found arrival p name stored now db Kc Hp Hname) as F.
  set (saved := state_after
                  (execute (create_property_land_configuration arrival p name now) db))
    in *.
  assert (S : land_blocks saved = land_blocks db /\ land_plots saved = land_plots db
              /\ properties saved = properties db
              /\ uuid_supply saved = N.succ (uuid_supply db)).
  { subst saved. rewrite (create_state arrival p name stored now db Hp Hname).
    repeat split. }
  destruct S as [Sb [Sp [Sprops Ss]]].
  assert (K : keys_below_supply saved).
  { split.
    - intros b Hb. rewrite Sb in Hb. rewrite Ss. specialize (Kb b Hb). lia.
    - intros x k Hx Hk. rewrite Sp in Hx. rewrite Ss. specialize (Kp x k Hx Hk). lia. }
  destruct (clear_blocks_and_plots (Some p) saved) as [[] cleared m|e cleared m] eqn:T;
    [|rewrite teardown_state in T; discriminate T].
  assert (m = []) by (rewrite teardown_state in T; now injection T).
  subst m.
  destruct (teardown_done p saved cleared [] K T) as [Hnone [KB HpropsB]].
  pose proof (blocks_rearranged arrival (blocks_of_property p db)) as Hperm.
  destruct (restore_blocks arrival p later db
              (blocks_in_order arrival (blocks_of_property p db)) [] cleared)
    as [st' [n Hloop]].
  - exact KB.
  - now rewrite HpropsB, Sprops.
  - cbn [app]. apply (Permutation_NoDup (Permutation_map _ (Permutation_sym Hperm))).
    apply N.
  - intros b Hb Hprop.
    assert (Hin : In b (blocks_of_property p cleared)).
    { apply filter_In. split; [exact Hb|]. rewrite Hprop. cbn [sql_eq]. apply N.eqb_refl. }
    rewrite Hnone in Hin. contradiction.
  - intros b Hb. apply Wb. apply (Permutation_in _ Hperm) in Hb.
    now apply filter_In in Hb as [Hb _].
  - intros b x _ Hx. apply filter_In in Hx as [Hx _].
    destruct (C x Hx) as [Harea Hstatus]. repeat split; [assumption..|]. now apply Wp.
  - intros b _. apply P.
  - unfold execute, apply_property_land_configuration.
    unfold bind at 1. unfold get_database at 1. rewrite F.
    cbn [Configurations.property_id Configurations.blocks_data].
    unfold bind at 1. rewrite T.
    unfold current_blocks_json. rewrite coalesce_jsonb_agg.
    cbn [jsonb_array_elements eval]. unfold bind at 1. unfold ret at 1.
    fold (blocks_of_property p db).
    unfold bind at 1. rewrite Hloop. reflexivity.
Qed.

(** X25. Snapshot, then apply. Take a consistent inventory whose texts fit
    their columns, as the texts of rows that were inserted do, and a name
    that can be assigned to [VARCHAR(100)]. The snapshot of a property
    that exists can then always be applied, and the apply rebuilds the
    property as it was up to the order of the blocks and of the plots of a
    block: the same blocks with the same names and descriptions, each with
    the same plots with the same plot number, area, price, status and
    description. The rows are inserted in the order in which the snapshot
    listed them, which need not be the order they had. The rows are new
    ones: keys and timestamps are not kept, and the status history of the
    plots is gone. *)
Theorem snapshot_then_apply_restores (arrival : scan_order) (p : uuid)
    (name stored : string) (now later : timestamptz) (db : database) :
  consistent db ->
  configuration_keys_below_supply db ->
  texts_fit_columns db ->
  In p (properties db) ->
  varchar 100 name = Ok stored ->
  let saved :=
    state_after (execute (create_property_land_configuration arrival p name now) db) in
  let applied := execute (apply_property_land_configuration (uuid_supply db) later) saved in
  result_of applied = Ok true
  /\ live_attributes p (state_after applied) = listed_attributes arrival p db
  /\ same_layout (live_attributes p (state_after applied)) (live_attributes p db).
Proof.
  intros [_ J] Kc W Hp Hname. cbv zeta.
  pose proof (snapshot_applies arrival p name stored now later db J Kc W Hp Hname) as S.
  split; [exact S|].
  destruct J as [_ [_ [K _]]].
  pose proof (restored_attributes arrival p name stored now later db K Kc W Hp Hname S)
    as Hlive.
  split; [exact Hlive|]. rewrite Hlive. apply listed_same_layout.
Qed.

(** The texts of the sample with two properties fit their columns. *)
Ltac sample_fits :=
  split;
  [ intros ? [<-|[<-|[]]]; reflexivity
  | intros ? [<-|[<-|[<-|[]]]]; reflexivity ].

(** The two plots of block A come back in the opposite order. *)
Lemma snapshot_then_apply_restores_witness :
  let saved :=
    state_after (execute (create_property_land_configuration Sample.reverse_order 1
                            "Today" 200)
                   Estate.two_properties) in
  let applied := execute (apply_property_land_configuration 50 300) saved in
  result_of applied = Ok true
  /\ live_attributes 1 (state_after applied)
     = listed_attributes Sample.reverse_order 1 Estate.two_properties
  /\ same_layout (live_attributes 1 (state_after applied))
                 (live_attributes 1 Estate.two_properties).
Proof.
  apply (snapshot_then_apply_restores Sample.reverse_order 1 "Today" "Today" 200 300
           Estate.two_properties).
  - sample_consistent.
  - intros c [<-|[<-|[]]]; reflexivity.
  - sample_fits.
  - now left.
  - reflexivity.
Defined.

(** What the witness shows in the rows: the plot numbers of the property
    before, and after the snapshot was applied. *)
Example snapshot_then_apply_may_reorder :
  let saved :=
    state_after (execute (create_property_land_configuration Sample.reverse_order 1
                            "Today" 200)
                   Estate.two_properties) in
  let applied := execute (apply_property_land_configuration 50 300) saved in
  map LandPlots.plot_number (plots_of_property (Some 1%N) Estate.two_properties)
  = ["P001"; "P002"]
  /\ map LandPlots.plot_number (plots_of_property (Some 1%N) (state_after applied))
     = ["P002"; "P001"].
Proof. cbv zeta. split; vm_compute; reflexivity. Qed.

(** ** Apply: the empty payload, and applying twice *)

(** X28. The empty payload clears the property. The apply of an active
    configuration whose payload is the empty array always succeeds, and it
    leaves the property without blocks and without plots. *)
Theorem apply_of_empty_payload (c p : uuid) (now : timestamptz) (db : database)
    (cfg : Configurations.row) :
  find (fun x => N.eqb (Configurations.id x) c && Configurations.active x)
       (property_land_configurations db) = Some cfg ->
  Configurations.property_id cfg = Some p ->
  Configurations.blocks_data cfg = JArr [] ->
  let applied := execute (apply_property_land_configuration c now) db in
  result_of applied = Ok true
  /\ blocks_of_property p (state_after applied) = []
  /\ plots_of_property (Some p) (state_after applied) = [].
Proof.
  intros F Hp He. cbv zeta.
  assert (A : exists cleared,
                clear_blocks_and_plots (Some p) db = Done tt cleared []
                /\ apply_property_land_configuration c now db = Done true cleared []).
  { eexists. split; [apply teardown_state|].
    unfold apply_property_land_configuration.
    unfold bind at 1. unfold get_database at 1. rewrite F, Hp, He.
    unfold bind at 1. rewrite teardown_state. reflexivity. }
  destruct A as [cleared [T A]]. unfold execute. rewrite A.
  cbn [result_of state_after fst snd].
  rewrite teardown_state in T. injection T as <-.
  split; [reflexivity|]. split.
  - unfold blocks_of_property. cbn [land_blocks with_land_blocks].
    apply filter_filter_negb.
  - unfold plots_of_property. cbn [land_blocks land_plots with_land_blocks with_history
                                   with_land_plots].
    rewrite filter_filter_negb. now apply filter_all_false.
Qed.

Lemma apply_of_empty_payload_witness :
  let db := with_configurations Sample.inventory [Sample.configuration 20 (JArr []) true] in
  let applied := execute (apply_property_land_configuration 20 200) db in
  result_of applied = Ok true
  /\ blocks_of_property 1 (state_after applied) = []
  /\ plots_of_property (Some 1%N) (state_after applied) = [].
Proof.
  apply (apply_of_empty_payload 20 1 200 _ (Sample.configuration 20 (JArr []) true));
    reflexivity.
Defined.

(** X29. Applying twice changes nothing more. When a configuration has
    been applied and is applied again, a second success leaves the blocks
    and plots of the property reading as the first left them. *)
Theorem apply_twice (c p : uuid) (now later : timestamptz) (db : database)
    (cfg : Configurations.row) :
  inventory_consistent db ->
  find (fun x => N.eqb (Configurations.id x) c && Configurations.active x)
       (property_land_configurations db) = Some cfg ->
  Configurations.property_id cfg = Some p ->
  let once := execute (apply_property_land_configuration c now) db in
  let twice := execute (apply_property_land_configuration c later) (state_after once) in
  result_of once = Ok true ->
  result_of twice = Ok true ->
  live_attributes p (state_after twice) = live_attributes p (state_after once).
Proof.
  intros J F Hp. cbv zeta. intros H1 H2.
  pose proof (execute_apply_configurations c now db) as E.
  pose proof (execute_keeps _ db (apply_keeps c now) J) as J1.
  set (db1 := state_after (execute (apply_property_land_configuration c now) db)) in *.
  assert (P1 : exists attributes,
                 payload_attributes (Configurations.blocks_data cfg) = Ok attributes
                 /\ live_attributes p db1 = map stored_block attributes).
  { subst db1. unfold execute in *.
    destruct (apply_property_land_configuration c now db) as [r st n|e st n] eqn:A;
      [|discriminate].
    destruct J as [_ [_ [K _]]].
    exact (apply_done_attributes c p now db st cfg r n K F Hp A). }
  assert (P2 : exists attributes,
                 payload_attributes (Configurations.blocks_data cfg) = Ok attributes
                 /\ live_attributes p
                      (state_after
                         (execute (apply_property_land_configuration c later) db1))
                    = map stored_block attributes).
  { unfold execute in *.
    destruct (apply_property_land_configuration c later db1) as [r st n|e st n] eqn:A;
      [|discriminate].
    destruct J1 as [_ [_ [K _]]]. rewrite <- E in F.
    exact (apply_done_attributes c p later db1 st cfg r n K F Hp A). }
  destruct P1 as [a1 [R1 ->]]. destruct P2 as [a2 [R2 ->]].
  rewrite R1 in R2. now injection R2 as <-.
Qed.

Lemma apply_twice_witness :
  live_attributes 1
    (state_after
       (execute (apply_property_land_configuration 20 300)
          (state_after (execute (apply_property_land_configuration 20 200)
                          Estate.two_properties))))
  = live_attributes 1
      (state_after (execute (apply_property_land_configuration 20 200)
                      Estate.two_properties)).
Proof.
  apply (apply_twice 20 1 200 300 Estate.two_properties
           (Sample.configuration 20 Sample.layout true)).
  - assert (H : consistent Estate.two_properties) by sample_consistent.
    exact (proj2 H).
  - reflexivity.
  - reflexivity.
  - reflexivity.
  - reflexivity.
Defined.

(** ** The widths of the columns are kept *)

Lemma widths_after_delete (g : LandBlocks.row -> bool) (h : LandPlots.row -> bool)
    (db db' : database) :
  land_blocks db' = filter g (land_blocks db) ->
  land_plots db' = filter h (land_plots db) ->
  texts_fit_columns db -> texts_fit_columns db'.
Proof.
  intros Hb Hp [Wb Wp]. split.
  - intros b H. rewrite Hb in H. apply filter_In in H as [H _]. now apply Wb.
  - intros x H. rewrite Hp in H. apply filter_In in H as [H _]. now apply Wp.
Qed.

Lemma widths_frame (db db' : database) :
  land_blocks db' = land_blocks db ->
  land_plots db' = land_plots db ->
  texts_fit_columns db -> texts_fit_columns db'.
Proof. intros Hb Hp [Wb Wp]. split; [rewrite Hb | rewrite Hp]; assumption. Qed.

Lemma widths_bind {A B} (m : plpgsql A) (k : A -> plpgsql B) :
  keeps_widths m -> (forall a, keeps_widths (k a)) -> keeps_widths (bind m k).
Proof.
  intros Hm Hk db b db' n W H.
  apply bind_done in H as [a [db1 [n1 [n2 [H1 [H2 _]]]]]].
  exact (Hk a db1 b db' n2 (Hm db a db1 n1 W H1) H2).
Qed.

Lemma widths_for_each {A} (rows : list A) (body : A -> plpgsql unit) :
  (forall x, keeps_widths (body x)) -> keeps_widths (for_each rows body).
Proof.
  intro H. induction rows as [|x rest IH]; cbn [for_each].
  - intros db a db' n W E. now injection E as _ <- _.
  - apply widths_bind; [apply H | intros _; exact IH].
Qed.

Lemma widths_eval {A} (r : result A) : keeps_widths (eval r).
Proof.
  intros db a db' n W E. apply eval_done in E as [_ [-> _]]. exact W.
Qed.

Lemma widths_ret {A} (a : A) : keeps_widths (ret a).
Proof. intros db x db' n W E. now injection E as _ <- _. Qed.

(** A text cut to a width fits it. *)
Lemma cut_fits_width (n : nat) (s : option string) : fits n (cut n s) = true.
Proof.
  destruct s as [v|]; [|reflexivity]. cbn [cut option_map fits]. apply Nat.leb_le.
  revert v. induction n as [|n IH]; intros [|c v]; simpl; try lia.
  specialize (IH v). lia.
Qed.

Lemma stored_plot_is_fit (a : plot_attributes) : plot_fits (stored_plot a) = true.
Proof.
  unfold plot_fits, stored_plot. cbn [plot_number_of price_of status_of].
  now rewrite !cut_fits_width.
Qed.

(** The plot a turn of the inner loop inserts fits the columns: the
    statement has cut its texts to their widths, or has raised. *)
Lemma apply_plot_widths (k : uuid) (now : timestamptz) (x : jsonb) :
  keeps_widths (apply_plot k now x).
Proof.
  intros db [] db' n [Wb Wp] H.
  apply apply_plot_done in H as [a [key [m [_ Hins]]]].
  apply insert_land_plot_done in Hins
    as [number [plot_area [plot_price [Hn [_ [Hp [Hplots [Hblocks _]]]]]]]].
  split.
  - rewrite Hblocks. exact Wb.
  - intros y Hy. rewrite Hplots in Hy. apply in_app_iff in Hy as [Hy|[<-|[]]];
      [now apply Wp|].
    pose proof (stored_plot_is_fit a) as Hfit.
    unfold plot_fits in *. unfold live_plot_attributes.
    cbn [plot_number_of price_of status_of LandPlots.plot_number LandPlots.price
         LandPlots.status].
    now rewrite <- Hn, <- Hp.
Qed.

Lemma apply_block_widths (pid : option uuid) (now : timestamptz) (block : jsonb) :
  keeps_widths (apply_block pid now block).
Proof.
  intros db [] db' n [Wb Wp] H.
  apply apply_block_steps in H
    as [stored [k [db1 [n1 [rows [n2 [Hstored [Hb [_ Hloop]]]]]]]]].
  apply assign_varchar_cut in Hstored.
  apply insert_land_block_done in Hb as [block_name [Hname [_ [Hblocks [Hplots _]]]]].
  revert Hloop. apply widths_for_each; [intro; apply apply_plot_widths|].
  split.
  - intros b H. rewrite Hblocks in H. apply in_app_iff in H as [H|[<-|[]]];
      [now apply Wb|].
    cbn [LandBlocks.name]. rewrite <- Hname, Hstored. apply cut_fits_width.
  - rewrite Hplots. exact Wp.
Qed.

Lemma teardown_widths (pid : option uuid) : keeps_widths (clear_blocks_and_plots pid).
Proof.
  intros db a db' n W H. rewrite teardown_state in H. injection H as _ <- _.
  now apply (widths_after_delete
               (fun b => negb (sql_eq N.eqb (LandBlocks.property_id b) pid))
               (fun x => negb (existsb
                                 (fun b => sql_eq N.eqb (LandPlots.block_id x)
                                             (Some (LandBlocks.id b)))
                                 (filter (fun b => sql_eq N.eqb (LandBlocks.property_id b)
                                                     pid)
                                         (land_blocks db))))
               db).
Qed.

Lemma apply_widths (c : uuid) (now : timestamptz) :
  keeps_widths (apply_property_land_configuration c now).
Proof.
  unfold apply_property_land_configuration.
  intros db a db' n W H.
  apply bind_done in H as [db0 [db0' [n1 [n2 [Hget [H _]]]]]].
  injection Hget as <- <- _.
  destruct (find _ _) as [cfg|]; [|discriminate].
  revert H. apply widths_bind; [apply teardown_widths | intros _ | exact W].
  apply widths_bind; [apply widths_eval|]. intro rows.
  apply widths_bind; [|intro; apply widths_ret].
  apply widths_for_each. intro x. apply apply_block_widths.
Qed.

Lemma delete_block_widths (k : uuid) : keeps_widths (delete_land_block_safely k).
Proof.
  intros db a db' n W H.
  destruct (existsb (fun b => N.eqb (LandBlocks.id b) k) (land_blocks db)) eqn:E.
  - rewrite (delete_block_found k db E) in H. injection H as _ <- _.
    now apply (widths_after_delete
                 (fun b => negb (N.eqb (LandBlocks.id b) k))
                 (fun p => negb (sql_eq N.eqb (LandPlots.block_id p) (Some k)))
                 db).
  - rewrite (delete_block_absent k db E) in H. now injection H as _ <- _.
Qed.

Lemma execute_widths {A} (m : plpgsql A) (db : database) :
  keeps_widths m -> texts_fit_columns db ->
  texts_fit_columns (state_after (execute m db)).
Proof.
  intros K W. unfold execute. destruct (m db) as [a db' n|e db' n] eqn:E; [|exact W].
  exact (K db a db' n W E).
Qed.

Lemma run_call_widths (arrival : scan_order) (db : database)
    (step : timestamptz * call) :
  texts_fit_columns db -> texts_fit_columns (run_call arrival db step).
Proof.
  intro W. destruct step as [now [p name|c|source new_name|block|p blocks]];
    unfold run_call; cbn [fst snd].
  - destruct (create_state_cases arrival p name now db) as [->|[Hb [Hp _]]]; [exact W|].
    now apply (widths_frame db).
  - apply execute_widths; [apply apply_widths | exact W].
  - destruct (duplicate_state source new_name now db) as [->|[copy [_ ->]]]; [exact W|].
    now apply (widths_frame db).
  - apply execute_widths; [apply delete_block_widths | exact W].
  - now rewrite bulk_insert_state.
Qed.

(** X30. The widths of the columns are kept. Let the configurations of a
    property be saved, applied and copied, blocks be deleted and bulk
    inserts be attempted, in any order and with any arguments, each call
    in a statement of its own. If every block name had at most 100
    characters, every plot number at most 50, every price at most 255 and
    every status at most 20 before, the same holds after: a statement that
    stores a text assigns it to the type of the column first, which cuts
    an excess of spaces and raises on any other excess. *)
Theorem calls_keep_the_widths (arrival : scan_order)
    (steps : list (timestamptz * call)) (db : database) :
  texts_fit_columns db -> texts_fit_columns (run_calls arrival steps db).
Proof.
  unfold run_calls. revert db.
  induction steps as [|step steps IH]; intros db H; [exact H|].
  cbn [fold_left]. apply IH. now apply run_call_widths.
Qed.

(** The padded layout is applied and saved among other calls: the name of
    its block is stored cut. *)
Lemma calls_keep_the_widths_witness :
  texts_fit_columns
    (run_calls Sample.reverse_order
       [ (200%N, call_apply 20); (300%N, call_save 1 "Today");
         (400%N, call_duplicate 50 (Some "Copy")); (500%N, call_delete_block 14) ]
       Sample.inventory_with_padded_layout).
Proof.
  apply calls_keep_the_widths.
  split.
  - intros b [<-|[]]. reflexivity.
  - intros x [<-|[<-|[]]]; reflexivity.
Defined.

